(** * site-loader.js: data loading and page dispatch

    A shallow embedding of [assets/js/site-loader.js]: the loader that
    fetches the JSON resources into the global [SITE_DATA] object and the
    dispatcher [initializeSite] that selects a menu and a render sequence
    from the file name of the current page.

    - JavaScript values are the values [JSON.parse] produces plus
      [undefined]; a failing property read, method call or string conversion
      is a [TypeError].
    - The document is a tree of elements, queried with the CSS selectors the
      source uses and written through [textContent], [innerHTML] and
      attributes; markup written through [innerHTML] is kept as the string
      written.
    - [SITE_DATA] is a finite map from base names to values; the network is
      a table of responses together with the order in which the fetch chains
      settle.
    - [loadAllData], [initializeSite], [updateDocumentMetadata],
      [renderHeader], [renderHero] and [renderAbout] are modelled statement
      by statement; the other render functions and the hooks of [main.js]
      are parameters of the dispatcher: arbitrary transformers of the page
      that may throw.
    - [renderMenuFooter], [renderPageFooter], [renderNavigation],
      [renderAboutCV], both [renderKeyMetrics], both
      [renderExpertiseAndAchievements] and the detail pages
      [renderProjectsDetails], [renderMembershipsDetails] and
      [renderPortfoliosDetails] are modelled as well; [with_modelled] puts
      them in the place of the dispatcher's parameter. *)

From Stdlib Require Import ZArith String Ascii List Bool Lia.
From stdpp Require Import base option list gmap strings pretty.

Local Open Scope string_scope.
Local Open Scope Z_scope.
#[local] Set Warnings "-register-all".

(** ** JavaScript values *)

(** Numbers are restricted to the integers that JavaScript holds exactly and
    prints in plain decimal, those of magnitude up to 2^53: none of the
    modelled code does arithmetic on JSON numbers, it only tests their
    truthiness and prints them. *)
Inductive jsval : Type :=
  | JUndefined
  | JNull
  | JBool (b : bool)
  | JNum (n : Z)
  | JStr (s : string)
  | JArr (items : list jsval)
  | JObj (props : list (string * jsval)).

(** The exceptions of the modelled code: every failing property read or
    method call raises a [TypeError]; [OtherError] is for what a collaborator
    outside the model may throw. *)
Inductive exn : Type :=
  | TypeError
  | OtherError (msg : string).

(** A computation that returns a value or throws. *)
Definition E (A : Type) : Type := (exn + A)%type.

#[global] Instance E_ret : MRet E := fun A x => inr x.
#[global] Instance E_bind : MBind E :=
  fun A B f m => match m with inl e => inl e | inr x => f x end.

(** The double quote character, for the markup templates. *)
Definition dq : string := String (ascii_of_nat 34) EmptyString.

(** First binding of [k] in an object's property list. *)
Fixpoint assoc (k : string) (props : list (string * jsval)) : option jsval :=
  match props with
  | [] => None
  | (k', v) :: rest => if String.eqb k k' then Some v else assoc k rest
  end.

(** [o.k = v] on a property list: overwrite in place, or append. *)
Fixpoint assoc_set (k : string) (v : jsval) (props : list (string * jsval))
  : list (string * jsval) :=
  match props with
  | [] => [(k, v)]
  | (k', v') :: rest =>
      if String.eqb k k' then (k', v) :: rest else (k', v') :: assoc_set k v rest
  end.

(** ToBoolean. *)
Definition truthy (v : jsval) : bool :=
  match v with
  | JUndefined | JNull => false
  | JBool b => b
  | JNum n => negb (n =? 0)
  | JStr s => negb (String.eqb s EmptyString)
  | JArr _ | JObj _ => true
  end.

(** [v.k] for the fixed property names of the source (none of them is
    [length], and none is inherited from a prototype, [strong] and [link]
    on a string apart): reading a property of [undefined] or [null] throws,
    an object answers with its own property, every other value with
    [undefined]. *)
Definition get (v : jsval) (k : string) : E jsval :=
  match v with
  | JUndefined | JNull => inl TypeError
  | JObj props => inr (default JUndefined (assoc k props))
  | _ => inr JUndefined
  end.

(** [o.k = v], for [o] an object. *)
Definition set_prop (o : jsval) (k : string) (v : jsval) : jsval :=
  match o with
  | JObj props => JObj (assoc_set k v props)
  | _ => o
  end.

Definition join (sep : string) (parts : list string) : string :=
  match parts with
  | [] => EmptyString
  | p :: ps => fold_left (fun acc x => acc +:+ sep +:+ x) ps p
  end.

(** ToString, as a template literal's [${...}] and the string attributes of
    the document apply it to any value.  An object prints as
    [[object Object]] unless it has an own [toString] property: in a value of
    JSON that property is not a function, and the conversion throws.  An
    array prints its elements separated by commas, [undefined] and [null] as
    nothing. *)
Fixpoint ToString (v : jsval) : E string :=
  match v with
  | JUndefined => inr "undefined"
  | JNull => inr "null"
  | JBool true => inr "true"
  | JBool false => inr "false"
  | JNum n => inr (pretty n)
  | JStr s => inr s
  | JArr items =>
      match
        (fix each (l : list jsval) : E (list string) :=
           match l with
           | [] => inr []
           | x :: l' =>
               match
                 match x with
                 | JUndefined | JNull => inr EmptyString
                 | _ => ToString x
                 end
               with
               | inl e => inl e
               | inr s =>
                   match each l' with
                   | inl e => inl e
                   | inr rest => inr (s :: rest)
                   end
               end
           end) items
      with
      | inl e => inl e
      | inr parts => inr (join "," parts)
      end
  | JObj props =>
      match assoc "toString" props with
      | Some _ => inl TypeError
      | None => inr "[object Object]"
      end
  end.

(** [${v.k}] *)
Definition print (v : jsval) (k : string) : E string :=
  x ← get v k;
  ToString x.

(** ** Strings *)

(** [s.startsWith(p)] *)
Definition startsWith (p s : string) : bool := String.prefix p s.

(** [s.replace(pat, rep)] with a string pattern: the first occurrence only. *)
Definition replace (pat rep s : string) : string :=
  match String.index 0 pat s with
  | Some i =>
      String.substring 0 i s +:+ rep +:+
      String.substring (i + String.length pat)
                       (String.length s - (i + String.length pat)) s
  | None => s
  end.

(** [s.lastIndexOf(c)] for a one-character [c]; [i] is the index of the head
    of [s] in the whole string. *)
Fixpoint lastIndexOf_from (c : ascii) (i : Z) (s : string) : Z :=
  match s with
  | EmptyString => -1
  | String a s' =>
      let r := lastIndexOf_from c (i + 1) s' in
      if 0 <=? r then r else if Ascii.eqb a c then i else -1
  end.

Definition lastIndexOf (c : ascii) (s : string) : Z := lastIndexOf_from c 0 s.

(** [s.substring(start)] for [0 <= start]. *)
Definition substring_from (start : Z) (s : string) : string :=
  String.substring (Z.to_nat start) (String.length s - Z.to_nat start) s.

(** ** The document *)

(** An element carries its tag, its id (empty when it has none), its class
    list, its other attributes and its children.  Markup written through
    [innerHTML] is kept as the string that was written: the model does not
    parse it, so elements inside written markup are not addressable. *)
Inductive node : Type :=
  | Element (tag ident : string) (classes : list string)
            (attrs : list (string * string)) (children : list node)
  | Text (data : string)
  | Markup (html : string).

(** An element is addressed by the child indices leading to it from body. *)
Definition path := list nat.

(** What a selector can see of an element: tag, id, classes, and its
    position among its element siblings and among those of its own tag. *)
Record einfo := mk_einfo {
  e_tag : string;
  e_id : string;
  e_classes : list string;
  e_nth_child : nat;
  e_nth_of_type : nat
}.

(** An element of the document in context: its path, what a selector sees
    of it, and the same for its ancestors, nearest first. *)
Definition located : Type := path * einfo * list einfo.

Definition count_tag (t : string) (seen : list string) : nat :=
  List.length (List.filter (String.eqb t) seen).

(** The elements below and including [n], in document order. *)
Fixpoint walk (p : path) (anc : list einfo) (info : einfo) (n : node)
  {struct n} : list located :=
  match n with
  | Element _ _ _ _ ch =>
      (p, info, anc) ::
      (fix go (k : nat) (seen : list string) (l : list node) {struct l}
         : list located :=
         match l with
         | [] => []
         | x :: l' =>
             match x with
             | Element t i c _ _ =>
                 (walk (p ++ [k]) (info :: anc)
                       (mk_einfo t i c (S (List.length seen)) (S (count_tag t seen))) x
                  ++ go (S k) (t :: seen) l')%list
             | _ => go (S k) seen l'
             end
         end) 0%nat [] ch
  | _ => []
  end.

Definition body_info : einfo := mk_einfo "body" EmptyString [] 2 1.

Definition document_order (body : node) : list located :=
  walk [] [] body_info body.

(** *** Selectors *)

Inductive simple : Type :=
  | ByTag (t : string)
  | ById (i : string)
  | ByClass (c : string)
  | NthChild (k : nat)
  | NthOfType (k : nat).

(** A compound selector such as [.col-lg-8.content]. *)
Definition compound := list simple.

Inductive combinator : Type := Descendant | Child.

(** A complex selector: the compounds left of the subject, each with the
    combinator that follows it, then the subject. *)
Record selector := mk_selector {
  sel_left : list (compound * combinator);
  sel_subject : compound
}.

Definition matches_simple (e : einfo) (s : simple) : bool :=
  match s with
  | ByTag t => String.eqb t (e_tag e)
  | ById i => String.eqb i (e_id e)
  | ByClass c => existsb (String.eqb c) (e_classes e)
  | NthChild k => Nat.eqb k (e_nth_child e)
  | NthOfType k => Nat.eqb k (e_nth_of_type e)
  end.

Definition matches_compound (c : compound) (e : einfo) : bool :=
  forallb (matches_simple e) c.

(** Matches the compounds left of the subject, right to left, against the
    ancestors, nearest first. *)
Fixpoint matches_left (rev_left : list (compound * combinator))
  (anc : list einfo) {struct rev_left} : bool :=
  match rev_left with
  | [] => true
  | (c, Child) :: rest =>
      match anc with
      | a :: anc' => matches_compound c a && matches_left rest anc'
      | [] => false
      end
  | (c, Descendant) :: rest =>
      (fix up (l : list einfo) : bool :=
         match l with
         | [] => false
         | a :: l' => (matches_compound c a && matches_left rest l') || up l'
         end) anc
  end.

Definition matches (s : selector) (e : located) : bool :=
  let '(_, info, anc) := e in
  matches_compound (sel_subject s) info && matches_left (rev (sel_left s)) anc.

(** [p] is a proper prefix of [q]: the element at [q] is below the one at [p]. *)
Fixpoint below (p q : path) : bool :=
  match p, q with
  | [], _ :: _ => true
  | i :: p', j :: q' => Nat.eqb i j && below p' q'
  | _, _ => false
  end.

(** [scope.querySelectorAll(s)]: the descendants of [scope] that match [s];
    the selector sees the ancestors up to the root. *)
Definition querySelectorAll_in (body : node) (scope : path) (s : selector)
  : list path :=
  List.map (fun e => fst (fst e))
    (List.filter (fun e => below scope (fst (fst e)) && matches s e) (document_order body)).

Definition querySelector_in (body : node) (scope : path) (s : selector)
  : option path :=
  head (querySelectorAll_in body scope s).

(** [document.querySelectorAll(s)], over the elements of body. *)
Definition querySelectorAll_doc (body : node) (s : selector) : list path :=
  List.map (fun e => fst (fst e)) (List.filter (matches s) (document_order body)).

Definition querySelector_doc (body : node) (s : selector) : option path :=
  head (querySelectorAll_doc body s).

(** [document.getElementById(i)] *)
Definition getElementById_in (body : node) (i : string) : option path :=
  querySelector_doc body (mk_selector [] [ById i]).

(** *** Writes *)

(** Applies [f] to the element at path [p]; a path that leads nowhere (the
    element was detached by an earlier write) changes nothing. *)
Fixpoint update_at (p : path) (f : node -> node) (n : node) {struct p} : node :=
  match p with
  | [] => match n with Element _ _ _ _ _ => f n | _ => n end
  | k :: p' =>
      match n with
      | Element t i c a ch =>
          Element t i c a
            ((fix at_child (k : nat) (l : list node) {struct l} : list node :=
                match l, k with
                | [], _ => []
                | x :: l', O => update_at p' f x :: l'
                | x :: l', S k' => x :: at_child k' l'
                end) k ch)
      | _ => n
      end
  end.

(** [el.innerHTML = s] *)
Definition with_innerHTML (s : string) (n : node) : node :=
  match n with
  | Element t i c a _ =>
      Element t i c a (if String.eqb s EmptyString then [] else [Markup s])
  | _ => n
  end.

(** [el.textContent = s] *)
Definition with_textContent (s : string) (n : node) : node :=
  match n with
  | Element t i c a _ =>
      Element t i c a (if String.eqb s EmptyString then [] else [Text s])
  | _ => n
  end.

Fixpoint attr_set (k v : string) (attrs : list (string * string))
  : list (string * string) :=
  match attrs with
  | [] => [(k, v)]
  | (k', v') :: rest =>
      if String.eqb k k' then (k', v) :: rest else (k', v') :: attr_set k v rest
  end.

(** [el.setAttribute(k, v)], also the reflecting property [img.src = v]. *)
Definition with_attribute (k v : string) (n : node) : node :=
  match n with
  | Element t i c a ch => Element t i c (attr_set k v a) ch
  | _ => n
  end.

(** ** The page and the rendering monad *)

Inductive level : Type := Log | Warn | Error.

(** What rendering code reads and writes: the document (the text of its
    title element and the tree below body) and the console. *)
Record page := mk_page {
  title : string;
  body : node;
  console : list (level * string)
}.

(** Tab, line feed, form feed, carriage return and space. *)
Definition is_ascii_whitespace (a : ascii) : bool :=
  let n := nat_of_ascii a in
  (n =? 9)%nat || (n =? 10)%nat || (n =? 12)%nat || (n =? 13)%nat || (n =? 32)%nat.

(** Strips leading and trailing whitespace and collapses every other run of
    whitespace to one space; [gap] tells that a run is pending after the
    text already produced. *)
Fixpoint collapse (started gap : bool) (s : string) : string :=
  match s with
  | EmptyString => EmptyString
  | String a s' =>
      if is_ascii_whitespace a then collapse started started s'
      else
        let rest := String a (collapse true false s') in
        if gap then String " " rest else rest
  end.

(** Reading [document.title]: the text of the title element, stripped and
    collapsed. *)
Definition document_title (p : page) : string := collapse false false (title p).

(** A render call reads the global [SITE_DATA], transforms the page, and
    returns or throws.  No function of the source other than the loader and
    the dispatcher assigns to [SITE_DATA] or to a property of a value read
    from it, so render calls get the store read-only. *)
Definition R (A : Type) : Type := gmap string jsval -> page -> E A * page.

#[global] Instance R_ret : MRet R := fun A x _ pg => (inr x, pg).
#[global] Instance R_bind : MBind R :=
  fun A B f m sd pg =>
    match m sd pg with
    | (inl e, pg') => (inl e, pg')
    | (inr x, pg') => f x sd pg'
    end.

Definition liftE {A} (c : E A) : R A := fun _ pg => (c, pg).

(** [SITE_DATA.k] *)
Definition site_data (k : string) : R jsval :=
  fun sd pg => (inr (default JUndefined (sd !! k)), pg).

Definition getElementById (i : string) : R (option path) :=
  fun _ pg => (inr (getElementById_in (body pg) i), pg).

Definition document_querySelector (s : selector) : R (option path) :=
  fun _ pg => (inr (querySelector_doc (body pg) s), pg).

Definition querySelector (scope : path) (s : selector) : R (option path) :=
  fun _ pg => (inr (querySelector_in (body pg) scope s), pg).

Definition querySelectorAll (scope : path) (s : selector) : R (list path) :=
  fun _ pg => (inr (querySelectorAll_in (body pg) scope s), pg).

Definition write (el : path) (f : node -> node) : R unit :=
  fun _ pg => (inr tt, mk_page (title pg) (update_at el f (body pg)) (console pg)).

(** [el.textContent = v]: the attribute is a nullable string, so
    [undefined] and [null] both give the empty text; every other value is
    converted to a string first, which can throw. *)
Definition set_textContent (el : path) (v : jsval) : R unit :=
  match v with
  | JUndefined | JNull => write el (with_textContent EmptyString)
  | _ => s ← liftE (ToString v); write el (with_textContent s)
  end.

(** [el.innerHTML = v]: [null] gives the empty string, everything else its
    string conversion, which can throw. *)
Definition set_innerHTML (el : path) (v : jsval) : R unit :=
  match v with
  | JNull => write el (with_innerHTML EmptyString)
  | _ => s ← liftE (ToString v); write el (with_innerHTML s)
  end.

Definition setAttribute (el : path) (k : string) (v : string) : R unit :=
  write el (with_attribute k v).

(** [document.title = v]: [v] is converted to a string, which can throw, and
    the string becomes the text of the title element. *)
Definition write_title (s : string) : R unit :=
  fun _ pg => (inr tt, mk_page s (body pg) (console pg)).

Definition set_title (v : jsval) : R unit :=
  s ← liftE (ToString v);
  write_title s.

Definition when_found (el : option path) (f : path -> R unit) : R unit :=
  match el with
  | Some e => f e
  | None => mret tt
  end.

(** The receiver of [.map], [.filter], [.find] or [.forEach]: among the
    values of JSON only arrays have these methods. *)
Definition as_array (v : jsval) : E (list jsval) :=
  match v with
  | JArr items => inr items
  | _ => inl TypeError
  end.

Fixpoint filterE (f : jsval -> E bool) (l : list jsval) : E (list jsval) :=
  match l with
  | [] => mret []
  | x :: l' =>
      keep ← f x;
      rest ← filterE f l';
      mret (if keep : bool then x :: rest else rest)
  end.

Definition cat (parts : list string) : string := String.concat EmptyString parts.

(** [v !== s] for a string literal [s]. *)
Definition differs_from (v : jsval) (s : string) : bool :=
  match v with
  | JStr x => negb (String.eqb x s)
  | _ => true
  end.

(** ** Render calls *)

Definition sel_header_sitename : selector :=
  mk_selector [([ById "header"], Descendant)] [ByClass "sitename"].
Definition sel_header_profile_img : selector :=
  mk_selector [([ById "header"], Descendant); ([ByClass "profile-img"], Descendant)]
              [ByTag "img"].
Definition sel_header_logo_img : selector :=
  mk_selector [([ById "header"], Descendant); ([ByClass "logo"], Descendant)]
              [ByTag "img"].
Definition sel_header_social_links : selector :=
  mk_selector [([ById "header"], Descendant)] [ByClass "social-links"].

(** [updateDocumentMetadata(siteInfo)] *)
Definition updateDocumentMetadata (siteInfo : jsval) : R unit :=
  if negb (truthy siteInfo) then mret tt else
  t ← liftE (get siteInfo "title");
  if negb (truthy t) then mret tt else
  set_title t.

(** The callbacks of [renderHeader]'s social links. *)
Definition social_link_kept (link : jsval) : E bool :=
  platform ← get link "platform";
  mret (differs_from platform "google-old"
        && differs_from platform "researchgate-old"
        && differs_from platform "researchgate-fab").

Definition social_link_html (link : jsval) : E string :=
  url ← print link "url";
  platform ← print link "platform";
  icon_class ← print link "icon_class";
  mret (cat ["
            <a href="; dq; url; dq; " target="; dq; "_blank"; dq; " class="; dq; platform; dq; ">
                <i class="; dq; icon_class; dq; "></i>
            </a>
        "]).

(** [renderHeader(personalInfo, siteData)] *)
Definition renderHeader (personalInfo siteData : jsval) : R unit :=
  if negb (truthy personalInfo) || negb (truthy siteData) then mret tt else
  siteNameElement ← document_querySelector sel_header_sitename;
  when_found siteNameElement (fun el =>
    name ← liftE (get personalInfo "name");
    set_textContent el name);;
  imageAssets ← liftE (assets ← get siteData "assets"; get assets "images");
  iconAssets ← liftE (assets ← get siteData "assets"; get assets "icons");
  profileImg ← document_querySelector sel_header_profile_img;
  when_found profileImg (fun el =>
    profile_image_pp ← liftE (print imageAssets "profile_image_pp");
    setAttribute el "src" (cat ["assets/img/"; profile_image_pp]));;
  logoImg ← document_querySelector sel_header_logo_img;
  when_found logoImg (fun el =>
    logo_png ← liftE (print iconAssets "logo_png");
    setAttribute el "src" (cat ["assets/img/"; logo_png]));;
  socialContainer ← document_querySelector sel_header_social_links;
  when_found socialContainer (fun el =>
    social_links ← liftE (get siteData "social_links");
    if negb (truthy social_links) then mret tt else
    html ← liftE (links ← as_array social_links;
                  kept ← filterE social_link_kept links;
                  parts ← mapM social_link_html kept;
                  mret (cat parts));
    set_innerHTML el (JStr html)).

Definition sel_h2 : selector := mk_selector [] [ByTag "h2"].
Definition sel_p : selector := mk_selector [] [ByTag "p"].
Definition sel_first_p_typed : selector :=
  mk_selector [([ByTag "p"; NthOfType 1], Descendant)] [ByClass "typed"].

(** [renderHero(personalInfo)] *)
Definition renderHero (personalInfo : jsval) : R unit :=
  hero ← getElementById "hero";
  match hero with
  | None => mret tt
  | Some hero =>
      if negb (truthy personalInfo) then mret tt else
      heroData ← liftE (get personalInfo "hero");
      if negb (truthy heroData) then mret tt else
      h2 ← querySelector hero sel_h2;
      match h2 with
      | None => liftE (inl TypeError)
      | Some h2 =>
          title_main ← liftE (get heroData "title_main");
          set_textContent h2 title_main
      end;;
      typedElement ← querySelector hero sel_first_p_typed;
      when_found typedElement (fun el =>
        typed_items ← liftE (print heroData "typed_items");
        setAttribute el "data-typed-items" typed_items);;
      paragraphs ← querySelectorAll hero sel_p;
      when_found (paragraphs !! 1%nat) (fun el =>
        title_researcher ← liftE (get heroData "title_researcher");
        set_textContent el title_researcher);;
      when_found (paragraphs !! 2%nat) (fun el =>
        primary ← liftE (print heroData "title_institute_primary");
        secondary ← liftE (print heroData "title_institute_secondary");
        tagline ← liftE (print heroData "tagline");
        set_innerHTML el (JStr (cat [primary; " <br>"; secondary; " <br>"; tagline])))
  end.

Definition sel_col4_img : selector :=
  mk_selector [([ByClass "col-lg-4"], Descendant)] [ByTag "img"].
Definition sel_summary_container : selector :=
  mk_selector [([ByClass "col-lg-8"; ByClass "content"], Descendant)]
              [ByClass "section-title"].
Definition sel_first_p : selector := mk_selector [] [ByTag "p"; NthOfType 1].
Definition sel_key_points (column : nat) : selector :=
  mk_selector [([ByClass "row"], Descendant);
               ([ByClass "col-lg-6"; NthChild column], Descendant)]
              [ByTag "ul"].
Definition sel_full_about : selector :=
  mk_selector [] [ByClass "container"; ByClass "section-title"; NthOfType 2].

(** The callback of [renderAbout]'s key point lists, for the items that are
    not strings: on a string, [item.strong] and [item.link] are inherited
    methods of [String.prototype] (see [print_inherited] below). *)
Definition key_point_html (item : jsval) : E string :=
  icon_class ← print item "icon_class";
  strong ← print item "strong";
  link ← get item "link";
  span ← (if truthy link
          then link ← ToString link;
               text ← print item "text";
               mret (cat ["<a target="; dq; "_blank"; dq; " href="; dq; link; dq; ">"; text; "</a>"])
          else print item "text");
  mret (cat ["<li><i class="; dq; icon_class; dq; "></i> <strong>"; strong; ":</strong> <span>"; span; "</span> </li>"]).

Definition key_points_html (points : jsval) : E string :=
  items ← as_array points;
  parts ← mapM key_point_html items;
  mret (cat parts).

(** [renderAbout(personalInfo)] *)
Definition renderAbout (personalInfo : jsval) : R unit :=
  if negb (truthy personalInfo) then mret tt else
  aboutSection ← getElementById "about";
  match aboutSection with
  | None => mret tt
  | Some aboutSection =>
      site ← site_data "site";
      siteAssets ← liftE (get site "assets");
      summaryData ← liftE (get personalInfo "profile_summary");
      profileImg ← querySelector aboutSection sel_col4_img;
      when_found profileImg (fun el =>
        if negb (truthy siteAssets) then mret tt else
        profile_image_formal ← liftE (images ← get siteAssets "images";
                                      print images "profile_image_formal");
        setAttribute el "src" (cat ["assets/img/"; profile_image_formal]));;
      summaryContainer ← querySelector aboutSection sel_summary_container;
      when_found summaryContainer (fun summaryContainer =>
        if negb (truthy summaryData) then mret tt else
        titleH2 ← querySelector summaryContainer sel_h2;
        when_found titleH2 (fun el =>
          t ← liftE (print summaryData "title");
          link_printable_cv ← liftE (print summaryData "link_printable_cv");
          set_innerHTML el
            (JStr (cat [t; " <a href="; dq; link_printable_cv; dq; "> <i class="; dq; "bx bx-printer"; dq; "></i> </a>"])));;
        introParagraph ← querySelector summaryContainer sel_first_p;
        when_found introParagraph (fun el =>
          intro ← liftE (get summaryData "intro_paragraph_html");
          set_innerHTML el intro);;
        leftList ← querySelector summaryContainer (sel_key_points 1);
        rightList ← querySelector summaryContainer (sel_key_points 2);
        when_found leftList (fun el =>
          html ← liftE (points ← get summaryData "key_points_left";
                        key_points_html points);
          set_innerHTML el (JStr html));;
        when_found rightList (fun el =>
          html ← liftE (points ← get summaryData "key_points_right";
                        key_points_html points);
          set_innerHTML el (JStr html)));;
      researchAreaParagraph ← getElementById "research-summary-area";
      when_found researchAreaParagraph (fun el =>
        if negb (truthy summaryData) then mret tt else
        research_area ← liftE (print summaryData "research_area");
        recent_works ← liftE (print summaryData "recent_works");
        set_innerHTML el
          (JStr (cat ["
            <b>Research Area:</b> "; research_area; " <br>
            <b>Recent Works:</b> "; recent_works; "
        "])));;
      fullAboutContainer ← querySelector aboutSection sel_full_about;
      fullAboutTitle ← match fullAboutContainer with
                       | Some c => querySelector c sel_h2
                       | None => mret None
                       end;
      fullAboutContent ← match fullAboutContainer with
                         | Some c => querySelector c sel_p
                         | None => mret None
                         end;
      fullAboutData ← liftE (get personalInfo "about_full_text");
      when_found fullAboutTitle (fun el =>
        if negb (truthy fullAboutData) then mret tt else
        t ← liftE (print fullAboutData "title");
        set_innerHTML el (JStr (cat ["<i class="; dq; "bx bx-user"; dq; "></i> "; t])));;
      when_found fullAboutContent (fun el =>
        if negb (truthy fullAboutData) then mret tt else
        paragraph ← liftE (get fullAboutData "paragraph_html");
        set_innerHTML el paragraph)
  end.

(** ** The loader and the dispatcher *)

Definition BASE_DATA_PATH : string := "./assets/data/".

Definition JSON_FILES : list string :=
  [ "personal_info.json";
    "site.json";
    "key_metrics.json";
    "education.json";
    "professional_experience.json";
    "expertise_achievements.json";
    "skills.json";
    "honors_awards.json";
    "courses_trainings_certificates.json";
    "projects.json";
    "memberships.json";
    "sessions_events.json";
    "languages.json";
    "portfolios.json";
    "volunteerings.json";
    "publications.json" ].

(** The functions [initializeSite] calls.  Four of them are modelled above;
    the others are collaborators whose behaviour is a parameter. *)
Inductive renderer : Type :=
  | UpdateDocumentMetadata | RenderHeader | RenderMenuFooter | RenderPageFooter
  | RenderNavigation | RenderNavDropdowns
  | RenderHero | RenderAbout | RenderKeyMetrics | RenderEducations
  | RenderProfessionalExperiences | RenderExpertiseAndAchievements
  | RenderSkillsTools | RenderHonorsAwards | RenderCoursesTrainingsCertificates
  | RenderProjects | RenderMemberships | RenderSessionsEvents | RenderLanguages
  | RenderPortfolios | RenderVolunteerings | RenderPublications
  | RenderAboutCV | RenderKeyMetricsCV | RenderEducationsCV
  | RenderProfessionalExperiencesCV | RenderExpertiseAndAchievementsCV
  | RenderSkillsToolsCV | RenderHonorsAwardsCV
  | RenderCoursesTrainingsCertificatesCV | RenderProjectsCV
  | RenderMembershipsCV | RenderSessionsEventsCV | RenderLanguagesCV
  | RenderPortfoliosCV | RenderVolunteeringsCV | RenderPublicationsCV
  | RenderSkillsToolsDetails | RenderHonorsAwardsDetails
  | RenderCoursesTrainingsCertificatesDetails | RenderProjectsDetails
  | RenderMembershipsDetails | RenderSessionsEventsDetails
  | RenderLanguagesDetails | RenderPortfoliosDetails
  | RenderVolunteeringsDetails | RenderPublicationsDetails.

(** The re-initialization hooks that [main.js] may define as globals. *)
Inductive hook : Type := InitTypedAnimation | InitAOS | InitPureCounter.

(** What a global name is bound to, as [typeof] sees it; a hook that is a
    function may rewrite the document below body, and return or throw. *)
Inductive binding : Type :=
  | Undeclared
  | NotAFunction
  | IsFunction (run : node -> E unit * node).

(** What one fetch chain settles to: the parsed body, a response that is
    not [ok], a body that is not JSON, or a rejected [fetch]. *)
Inductive response : Type :=
  | Ok (data : jsval)
  | NotOk (statusText : string)
  | BadBody (msg : string)
  | NetworkError (msg : string).

(** The observable history of a page load: calls entered, in order. *)
Inductive event : Type :=
  | Call (r : renderer) (args : list jsval)
  | Invoke (h : hook).

Record dstate := mk_dstate {
  SITE_DATA : gmap string jsval;
  pg : page;
  calls : list event
}.

Definition M (A : Type) : Type := dstate -> E A * dstate.

#[global] Instance M_ret : MRet M := fun A x st => (inr x, st).
#[global] Instance M_bind : MBind M :=
  fun A B f m st =>
    match m st with
    | (inl e, st') => (inl e, st')
    | (inr x, st') => f x st'
    end.

Definition liftM {A} (c : E A) : M A := fun st => (c, st).

(** Runs rendering code against the current store and page. *)
Definition rendering {A} (c : R A) : M A :=
  fun st =>
    let '(res, pg') := c (SITE_DATA st) (pg st) in
    (res, mk_dstate (SITE_DATA st) pg' (calls st)).

Definition record (e : event) : M unit :=
  fun st => (inr tt, mk_dstate (SITE_DATA st) (pg st) (calls st ++ [e])).

Definition console_write (l : level) (msg : string) : M unit :=
  fun st =>
    (inr tt,
     mk_dstate (SITE_DATA st)
               (mk_page (title (pg st)) (body (pg st)) (console (pg st) ++ [(l, msg)]))
               (calls st)).

Definition set_store (sd : gmap string jsval) : M unit :=
  fun st => (inr tt, mk_dstate sd (pg st) (calls st)).

Definition get_store : M (gmap string jsval) :=
  fun st => (inr (SITE_DATA st), st).

Definition error_notice : string :=
  "<h1>Error loading site data. Please check console.</h1>".

(** [document.body.innerHTML = s] *)
Definition set_body_innerHTML (s : string) : M unit :=
  rendering (write [] (with_innerHTML s)).

(** [await Promise.all(fetchPromises)].  [settled] lists the file names in
    the order in which their fetch chains settle; a chain that fulfils has
    stored its data in [SITE_DATA] under the base name by then.  The join
    fulfils ([None]) once every chain has fulfilled and rejects at the first
    chain that rejects: the chains that settle after that are not awaited,
    and what they store arrives after the dispatcher has run.  A run of the
    program corresponds to a list that holds a chain that rejects or every
    file of [JSON_FILES] ([settles] below): on a shorter list the join would
    stay pending, where this function answers that it has fulfilled. *)
Fixpoint await_all (fetch : string -> response) (settled : list string)
  (sd : gmap string jsval) : option response * gmap string jsval :=
  match settled with
  | [] => (None, sd)
  | fileName :: rest =>
      match fetch (BASE_DATA_PATH +:+ fileName) with
      | Ok data =>
          let baseName := replace ".json" EmptyString fileName in
          await_all fetch rest (<[baseName := data]> sd)
      | failure => (Some failure, sd)
      end
  end.

(** [loadAllData()].  The console keeps the message of each entry. *)
Definition loadAllData (fetch : string -> response) (settled : list string)
  : M unit :=
  console_write Log "Starting data loading...";;
  sd ← get_store;
  let '(rejection, sd') := await_all fetch settled sd in
  set_store sd';;
  match rejection with
  | None => console_write Log "All core data loaded successfully."
  | Some _ =>
      console_write Error "Error during data loading:";;
      set_body_innerHTML error_notice
  end.

Section Dispatcher.

(** The collaborators: render calls outside the model, and the globals. *)
Variable ext : renderer -> list jsval -> R unit.
Variable globals : hook -> binding.

Definition arg (n : nat) (args : list jsval) : jsval := nth n args JUndefined.

Definition implementation (r : renderer) (args : list jsval) : R unit :=
  match r with
  | UpdateDocumentMetadata => updateDocumentMetadata (arg 0 args)
  | RenderHeader => renderHeader (arg 0 args) (arg 1 args)
  | RenderHero => renderHero (arg 0 args)
  | RenderAbout => renderAbout (arg 0 args)
  | _ => ext r args
  end.

Definition call (r : renderer) (args : list jsval) : M unit :=
  record (Call r args);;
  rendering (implementation r args).

(** [SITE_DATA.k] in the dispatcher. *)
Definition SITE_DATA_at (k : string) : M jsval :=
  sd ← get_store;
  mret (default JUndefined (sd !! k)).

(** [item => item.label.startsWith('Home')] *)
Definition label_starts_with_Home (item : jsval) : E bool :=
  label ← get item "label";
  match label with
  | JStr s => mret (startsWith "Home" s)
  | _ => inl TypeError
  end.

(** [items.find(f)], as the index of the item found. *)
Fixpoint find_index (f : jsval -> E bool) (items : list jsval) : E (option nat) :=
  match items with
  | [] => mret None
  | x :: rest =>
      found ← f x;
      if found : bool then mret (Some 0%nat)
      else i ← find_index f rest; mret (S <$> i)
  end.

Definition mainPages : list string := ["index.html"; EmptyString; "printable_cv.html"].

Definition includes (l : list string) (s : string) : bool :=
  existsb (String.eqb s) l.

(** The store after [homeItem.url = v], where [homeItem] is item [i] of
    [SITE_DATA.site.navigation.main_menu]. *)
Definition with_home_url (site nav : jsval) (items : list jsval) (i : nat)
  (v : jsval) (sd : gmap string jsval) : gmap string jsval :=
  let item' := set_prop (default JUndefined (items !! i)) "url" v in
  let nav' := set_prop nav "main_menu" (JArr (<[i := item']> items)) in
  <["site" := set_prop site "navigation" nav']> sd.

(** The menu selection of [initializeSite]; returns [menuToRender].  The
    menu is the array inside the store, so the assignment to [homeItem.url]
    changes both. *)
Definition select_menu (fileName : string) : M jsval :=
  if includes mainPages fileName then
    site ← SITE_DATA_at "site";
    nav ← liftM (get site "navigation");
    menuToRender ← liftM (get nav "main_menu");
    if String.eqb fileName "printable_cv.html" then
      items ← liftM (as_array menuToRender);
      homeItem ← liftM (find_index label_starts_with_Home items);
      match homeItem with
      | Some i =>
          sd ← get_store;
          set_store (with_home_url site nav items i (JStr "./index.html#about") sd);;
          mret (JArr (<[i := set_prop (default JUndefined (items !! i)) "url"
                                      (JStr "./index.html#about")]> items))
      | None => mret menuToRender
      end
    else mret menuToRender
  else
    site ← SITE_DATA_at "site";
    nav ← liftM (get site "navigation");
    liftM (get nav "details_menu").

(** The calls made on every page, before the page-specific ones. *)
Definition render_core (menuToRender : jsval) : M unit :=
  site_info ← (site ← SITE_DATA_at "site"; liftM (get site "site_info"));
  call UpdateDocumentMetadata [site_info];;
  personal_info ← SITE_DATA_at "personal_info";
  site ← SITE_DATA_at "site";
  call RenderHeader [personal_info; site];;
  footer_meta ← (site ← SITE_DATA_at "site"; liftM (get site "footer_meta"));
  assets ← (site ← SITE_DATA_at "site"; liftM (get site "assets"));
  call RenderMenuFooter [footer_meta; assets];;
  footer_meta ← (site ← SITE_DATA_at "site"; liftM (get site "footer_meta"));
  call RenderPageFooter [footer_meta];;
  call RenderNavigation [JObj [("main_menu", menuToRender)]];;
  call RenderNavDropdowns [].

(** The page variants, in the precedence of the dispatcher's tests. *)
Inductive detail_page : Type :=
  | SkillsAndTools | HonorsAndAwards | CoursesTrainingsAndCertificates
  | Projects | Memberships | SessionsAndEvents | Languages | Portfolios
  | Volunteerings | Publications.

Inductive variant : Type :=
  | PrintableCV
  | Details (d : detail_page)
  | Index.

Definition classify (fileName : string) : variant :=
  if String.eqb fileName "printable_cv.html" then PrintableCV
  else if String.eqb fileName "skillsAndTools-details.html" then Details SkillsAndTools
  else if String.eqb fileName "honorsAndAwards-details.html" then Details HonorsAndAwards
  else if String.eqb fileName "coursesTrainingsAndCertificates-details.html"
       then Details CoursesTrainingsAndCertificates
  else if String.eqb fileName "projects-details.html" then Details Projects
  else if String.eqb fileName "memberships-details.html" then Details Memberships
  else if String.eqb fileName "sessionsAndEvents-details.html" then Details SessionsAndEvents
  else if String.eqb fileName "languages-details.html" then Details Languages
  else if String.eqb fileName "portfolios-details.html" then Details Portfolios
  else if String.eqb fileName "volunteerings-details.html" then Details Volunteerings
  else if String.eqb fileName "publications-details.html" then Details Publications
  else Index.

(** [render(SITE_DATA.key)] *)
Definition call_with (step : renderer * string) : M unit :=
  v ← SITE_DATA_at (snd step);
  call (fst step) [v].

Fixpoint call_each (steps : list (renderer * string)) : M unit :=
  match steps with
  | [] => mret tt
  | step :: rest => call_with step;; call_each rest
  end.

Definition cv_sections : list (renderer * string) :=
  [ (RenderAboutCV, "personal_info");
    (RenderKeyMetricsCV, "key_metrics");
    (RenderEducationsCV, "education");
    (RenderProfessionalExperiencesCV, "professional_experience");
    (RenderExpertiseAndAchievementsCV, "expertise_achievements");
    (RenderSkillsToolsCV, "skills");
    (RenderHonorsAwardsCV, "honors_awards");
    (RenderCoursesTrainingsCertificatesCV, "courses_trainings_certificates");
    (RenderProjectsCV, "projects");
    (RenderMembershipsCV, "memberships");
    (RenderSessionsEventsCV, "sessions_events");
    (RenderLanguagesCV, "languages");
    (RenderPortfoliosCV, "portfolios");
    (RenderVolunteeringsCV, "volunteerings");
    (RenderPublicationsCV, "publications") ].

Definition index_sections : list (renderer * string) :=
  [ (RenderHero, "personal_info");
    (RenderAbout, "personal_info");
    (RenderKeyMetrics, "key_metrics");
    (RenderEducations, "education");
    (RenderProfessionalExperiences, "professional_experience");
    (RenderExpertiseAndAchievements, "expertise_achievements");
    (RenderSkillsTools, "skills");
    (RenderHonorsAwards, "honors_awards");
    (RenderCoursesTrainingsCertificates, "courses_trainings_certificates");
    (RenderProjects, "projects");
    (RenderMemberships, "memberships");
    (RenderSessionsEvents, "sessions_events");
    (RenderLanguages, "languages");
    (RenderPortfolios, "portfolios");
    (RenderVolunteerings, "volunteerings");
    (RenderPublications, "publications") ].

(** The one render call of a detail page and the store entry it is given. *)
Definition detail_section (d : detail_page) : renderer * string :=
  match d with
  | SkillsAndTools => (RenderSkillsToolsDetails, "skills")
  | HonorsAndAwards => (RenderHonorsAwardsDetails, "honors_awards")
  | CoursesTrainingsAndCertificates =>
      (RenderCoursesTrainingsCertificatesDetails, "courses_trainings_certificates")
  | Projects => (RenderProjectsDetails, "projects")
  | Memberships => (RenderMembershipsDetails, "memberships")
  | SessionsAndEvents => (RenderSessionsEventsDetails, "sessions_events")
  | Languages => (RenderLanguagesDetails, "languages")
  | Portfolios => (RenderPortfoliosDetails, "portfolios")
  | Volunteerings => (RenderVolunteeringsDetails, "volunteerings")
  | Publications => (RenderPublicationsDetails, "publications")
  end.

(** The page-specific calls. *)
Definition render_sections (fileName : string) : M unit :=
  match classify fileName with
  | PrintableCV => call_each cv_sections
  | Details Publications =>
      publications ← SITE_DATA_at "publications";
      if truthy publications then call_with (detail_section Publications)
      else mret tt
  | Details d => call_with (detail_section d)
  | Index => call_each index_sections
  end.

Definition invoke (h : hook) (run : node -> E unit * node) : M unit :=
  record (Invoke h);;
  rendering (fun _ p =>
               let '(res, body') := run (body p) in
               (res, mk_page (title p) body' (console p))).

(** The re-initialization of the dynamic libraries. *)
Definition reinit_hooks : M unit :=
  match globals InitTypedAnimation with
  | IsFunction run =>
      console_write Log "initTypedAnimation found! Rendering dynamic items on the site with loaded data...";;
      invoke InitTypedAnimation run
  | _ =>
      console_write Log "initTypedAnimation not found! ";;
      console_write Warn "initTypedAnimation not found. Ensure main.js is loaded and includes this global function."
  end;;
  match globals InitAOS with
  | IsFunction run => invoke InitAOS run
  | _ => mret tt
  end;;
  match globals InitPureCounter with
  | IsFunction run => invoke InitPureCounter run
  | _ => mret tt
  end;;
  console_write Log "Dynamic rendering complete.".

(** The final segment of [window.location.pathname]. *)
Definition fileName_of (pathName : string) : string :=
  substring_from (lastIndexOf "/" pathName + 1) pathName.

(** The body of the dispatcher's [if]. *)
Definition render_site (pathName : string) : M unit :=
  console_write Log "Rendering site with loaded data...";;
  let fileName := fileName_of pathName in
  menuToRender ← select_menu fileName;
  render_core menuToRender;;
  render_sections fileName;;
  reinit_hooks.

(** What [initializeSite] does once [loadAllData] has returned. *)
Definition dispatch (pathName : string) : M unit :=
  sd ← get_store;
  if (0 <? size sd)%nat then render_site pathName else mret tt.

(** [initializeSite()] *)
Definition initializeSite (fetch : string -> response) (settled : list string)
  (pathName : string) : M unit :=
  loadAllData fetch settled;;
  dispatch pathName.

End Dispatcher.

(** The state in which the script starts: an empty store, nothing called. *)
Definition page_load (document : page) : dstate :=
  mk_dstate ∅ document [].

(** The file name of each detail page. *)
Definition detail_file (d : detail_page) : string :=
  match d with
  | SkillsAndTools => "skillsAndTools-details.html"
  | HonorsAndAwards => "honorsAndAwards-details.html"
  | CoursesTrainingsAndCertificates => "coursesTrainingsAndCertificates-details.html"
  | Projects => "projects-details.html"
  | Memberships => "memberships-details.html"
  | SessionsAndEvents => "sessionsAndEvents-details.html"
  | Languages => "languages-details.html"
  | Portfolios => "portfolios-details.html"
  | Volunteerings => "volunteerings-details.html"
  | Publications => "publications-details.html"
  end.

Definition is_function (b : binding) : bool :=
  match b with IsFunction _ => true | _ => false end.

(** The hooks, in the order in which the dispatcher looks for them. *)
Definition hooks : list hook := [InitTypedAnimation; InitAOS; InitPureCounter].

(** [needle] occurs in [msg]. *)
Definition mentions (needle msg : string) : bool :=
  match String.index 0 needle msg with Some _ => true | None => false end.

(** [c] occurs in [s]. *)
Fixpoint occurs (c : ascii) (s : string) : bool :=
  match s with
  | EmptyString => false
  | String a s' => Ascii.eqb a c || occurs c s'
  end.

(** The key under which the loader stores a file. *)
Definition baseName (fileName : string) : string :=
  replace ".json" EmptyString fileName.

(** ** More of the document *)

(** The node at a path, if the path still leads somewhere. *)
Fixpoint node_at (p : path) (n : node) {struct p} : option node :=
  match p with
  | [] => Some n
  | k :: p' =>
      match n with
      | Element _ _ _ _ ch =>
          match ch !! k with
          | Some c => node_at p' c
          | None => None
          end
      | _ => None
      end
  end.

Definition is_element (n : node) : bool :=
  match n with Element _ _ _ _ _ => true | _ => false end.

(** The index of the first element among [l], whose head has index [k]. *)
Fixpoint first_element (k : nat) (l : list node) : option nat :=
  match l with
  | [] => None
  | x :: l' => if is_element x then Some k else first_element (S k) l'
  end.

(** The parent path and the child index of a path. *)
Fixpoint split_last (p : path) : option (path * nat) :=
  match p with
  | [] => None
  | k :: p' =>
      match split_last p' with
      | Some (parent, j) => Some (k :: parent, j)
      | None => Some ([], k)
      end
  end.

(** [el.nextElementSibling]; body has none. *)
Definition nextElementSibling_in (body : node) (p : path) : option path :=
  match split_last p with
  | Some (parent, k) =>
      match node_at parent body with
      | Some (Element _ _ _ _ ch) =>
          match first_element (S k) (drop (S k) ch) with
          | Some j => Some (parent ++ [j])%list
          | None => None
          end
      | _ => None
      end
  | None => None
  end.

(** [el.classList.contains(c)] *)
Definition classList_contains_in (body : node) (p : path) (c : string) : bool :=
  match node_at p body with
  | Some (Element _ _ classes _ _) => existsb (String.eqb c) classes
  | _ => false
  end.

Definition nextElementSibling (el : path) : R (option path) :=
  fun _ pg => (inr (nextElementSibling_in (body pg) el), pg).

Definition classList_contains (el : path) (c : string) : R bool :=
  fun _ pg => (inr (classList_contains_in (body pg) el c), pg).

(** [console.log], [console.warn], [console.error] in a render call; the
    console keeps the message, the first argument. *)
Definition console_out (l : level) (msg : string) : R unit :=
  fun _ pg => (inr tt, mk_page (title pg) (body pg) (console pg ++ [(l, msg)])).

(** ** Upper case *)

Definition upper_ascii (a : ascii) : ascii :=
  let n := nat_of_ascii a in
  if (97 <=? n)%nat && (n <=? 122)%nat then ascii_of_nat (n - 32) else a.

(** [s.toUpperCase()] on the letters a to z.  The source only compares the
    result with ['AUTO'], and the upper case of no other character is one of
    the letters A, U, T, O. *)
Fixpoint toUpperCase (s : string) : string :=
  match s with
  | EmptyString => EmptyString
  | String a s' => String (upper_ascii a) (toUpperCase s')
  end.

(** ** The footers and the navigation menu *)

(** [renderPageFooter(footerMeta)] *)
Definition renderPageFooter (footerMeta : jsval) : R unit :=
  if negb (truthy footerMeta) then mret tt else
  pageFooter ← liftE (get footerMeta "main_page_footer");
  if negb (truthy pageFooter) then mret tt else
  container ← getElementById "footer";
  when_found container (fun el =>
    sitename ← liftE (print pageFooter "sitename");
    design_link ← liftE (print pageFooter "design_link");
    design_credit ← liftE (print pageFooter "design_credit");
    set_innerHTML el
      (JStr (cat ["
        <div class="; dq; "container"; dq; ">
            <div class="; dq; "copyright text-center "; dq; ">
                <p>© <span>Copyright</span> <strong class="; dq; "px-1 sitename"; dq; ">"; sitename; "</strong><span>All Rights Reserved</span></p>
            </div>
            <div class="; dq; "credits"; dq; ">
                Designed by <a target="; dq; "_blank"; dq; " href="; dq; design_link; dq; ">"; design_credit; "</a>
            </div>
        </div>
    "]))).

(** The copyright year of [renderMenuFooter]: the configured one, or the
    current year when it is missing or ['AUTO'] in any letter case; the flag
    tells which.  Among the values of JSON only a string has [toUpperCase]. *)
Definition copyright_year_shown (currentYear : Z) (menuFooter : jsval)
  : E (bool * jsval) :=
  configured ← get menuFooter "copyright_year";
  let copyrightYear := if truthy configured then configured else JStr "AUTO" in
  match copyrightYear with
  | JStr s =>
      if String.eqb (toUpperCase s) "AUTO" then mret (true, JNum currentYear)
      else mret (false, copyrightYear)
  | _ => inl TypeError
  end.

(** The callback of [renderMenuFooter]'s links. *)
Definition footer_link_html (link : jsval) : E string :=
  url ← print link "url";
  label ← print link "label";
  mret (cat ["<a href="; dq; url; dq; "> "; label; " </a>"]).

(** [renderMenuFooter(footerMeta, assetData)]; [currentYear] is the value
    of [new Date().getFullYear()]. *)
Definition renderMenuFooter (currentYear : Z) (footerMeta assetData : jsval)
  : R unit :=
  if negb (truthy footerMeta) then mret tt else
  menuFooter ← liftE (get footerMeta "menu_footer");
  if negb (truthy menuFooter) then mret tt else
  container ← getElementById "menu_footer";
  when_found container (fun el =>
    shown ← liftE (copyright_year_shown currentYear menuFooter);
    (if fst shown : bool then console_out Log "Getting current year" else mret tt);;
    logo_png ← liftE (icons ← get assetData "icons"; print icons "logo_png");
    let logoPath := cat ["assets/img/"; logo_png] in
    copyrightYear ← liftE (ToString (snd shown));
    copyright_year ← liftE (print menuFooter "copyright_year");
    copyright_logo_link ← liftE (print menuFooter "copyright_logo_link");
    copyright_text_link ← liftE (print menuFooter "copyright_text_link");
    copyright_owner ← liftE (print menuFooter "copyright_owner");
    let copyrightHTML := cat ["
        <div class="; dq; "copyright"; dq; ">
          <p style="; dq; "text-align: center;"; dq; ">
            © Copyright · "; copyrightYear; " <strong><span> 
<!--            © Copyright · "; copyright_year; " <strong><span> -->
            <a href="; dq; copyright_logo_link; dq; "> <img style="; dq; "height: 20px;"; dq; " src="; dq; logoPath; dq; " alt="; dq; "Logo"; dq; " class="; dq; "img-fluid rounded-circle"; dq; "> </a> 
            <a href="; dq; copyright_text_link; dq; "> "; copyright_owner; " </a> 
            </span></strong>
          </p>
        </div>
    "] in
    linksHTML ← liftE (links ← get menuFooter "links";
                       items ← as_array links;
                       parts ← mapM footer_link_html items;
                       mret (join " | " parts));
    let creditsHTML := cat ["
        <div class="; dq; "credits"; dq; ">
            "; linksHTML; "
        </div>
    "] in
    set_innerHTML el
      (JStr (cat ["
        <div class="; dq; "container"; dq; ">
            "; copyrightHTML; "
            "; creditsHTML; "
        </div>
    "]))).

Section Navigation.

(** [StringToNumber(s) > 0], the comparison of the runtime: it decides
    [item.submenu.length > 0] only when [submenu] is an object of JSON whose
    own [length] is a string or an array. *)
Variable string_positive : string -> bool.

(** [v > 0] *)
Definition greater_than_zero (v : jsval) : E bool :=
  match v with
  | JUndefined | JNull => inr false
  | JBool b => inr b
  | JNum n => inr (0 <? n)
  | JStr s => inr (string_positive s)
  | JArr _ | JObj _ => s ← ToString v; inr (string_positive s)
  end.

(** [v.length > 0], for a truthy [v]. *)
Definition length_positive (v : jsval) : E bool :=
  match v with
  | JUndefined | JNull => inl TypeError
  | JArr items => inr (negb (Nat.eqb (List.length items) 0))
  | JStr s => inr (negb (String.eqb s EmptyString))
  | JObj props => greater_than_zero (default JUndefined (assoc "length" props))
  | JBool _ | JNum _ => inr false
  end.

(** [v === s] for a string literal [s]. *)
Definition is_string (v : jsval) (s : string) : bool :=
  match v with
  | JStr x => String.eqb x s
  | _ => false
  end.

(** The callback of a dropdown's submenu. *)
Definition nav_subitem_html (subItem : jsval) : E string :=
  url ← print subItem "url";
  icon_class ← print subItem "icon_class";
  label ← print subItem "label";
  mret (cat ["
                            <li>
                                <a href="; dq; url; dq; " class="; dq; "scrollto"; dq; "><i class="; dq; icon_class; " navicon"; dq; "></i> <span>"; label; "</span></a>
                            </li>
                        "]).

(** The class of a menu link: active only for the hero anchor. *)
Definition link_class (url : jsval) : string :=
  if is_string url "#hero" || is_string url "./" then "active scrollto" else "scrollto".

(** [item.is_dropdown && item.submenu && item.submenu.length > 0] *)
Definition has_submenu (item : jsval) : E bool :=
  is_dropdown ← get item "is_dropdown";
  if negb (truthy is_dropdown) then mret false else
  submenu ← get item "submenu";
  if negb (truthy submenu) then mret false else
  length_positive submenu.

(** The body of [renderNavigation]'s loop: what one item adds to [navHTML]. *)
Definition nav_item_html (item : jsval) : E string :=
  item_url ← get item "url";
  let finalLinkClass := link_class item_url in
  dropdown ← has_submenu item;
  if dropdown : bool then
    url ← print item "url";
    icon_class ← print item "icon_class";
    label ← print item "label";
    submenuHTML ← (submenu ← get item "submenu";
                   subItems ← as_array submenu;
                   parts ← mapM nav_subitem_html subItems;
                   mret (cat parts));
    mret (cat ["
                <li class="; dq; "dropdown"; dq; ">
                    <a href="; dq; url; dq; " class="; dq; finalLinkClass; dq; "><i class="; dq; icon_class; " navicon"; dq; "></i> <span>"; label; "</span> <i class="; dq; "bi bi-chevron-down toggle-dropdown"; dq; "></i></a>
                    <ul class="; dq; dq; "> 
                        "; submenuHTML; "
                    </ul>
                </li>
            "])
  else
    url ← print item "url";
    icon_class ← print item "icon_class";
    label ← print item "label";
    mret (cat ["
                <li><a href="; dq; url; dq; " class="; dq; finalLinkClass; dq; "><i class="; dq; icon_class; " navicon"; dq; "></i> <span>"; label; "</span></a> </li>
            "]).

(** The markup [renderNavigation] builds for a menu. *)
Definition nav_html (menu : jsval) : E string :=
  menuArray ← as_array menu;
  parts ← mapM nav_item_html menuArray;
  mret (cat ["<ul>"; cat parts; "</ul>"]).

(** [renderNavigation(navigation)] *)
Definition renderNavigation (navigation : jsval) : R unit :=
  if negb (truthy navigation) then mret tt else
  main_menu ← liftE (get navigation "main_menu");
  if negb (truthy main_menu) then mret tt else
  navContainer ← getElementById "navmenu";
  when_found navContainer (fun el =>
    navHTML ← liftE (nav_html main_menu);
    set_innerHTML el (JStr navHTML)).

End Navigation.

(** ** Section headers and key metrics *)

Definition sel_section_title (tag : string) : selector :=
  mk_selector [([ByClass "section-title"], Descendant)] [ByTag tag].
Definition sel_row_gy4 : selector := mk_selector [] [ByClass "row"; ByClass "gy-4"].
Definition sel_section_title_box : selector := mk_selector [] [ByClass "section-title"].
Definition sel_h6 : selector := mk_selector [] [ByTag "h6"].

(** The heading the sections write: [<i class="${icon_class}"></i> ${title}]. *)
Definition section_heading (sectionInfo : jsval) : E string :=
  icon_class ← print sectionInfo "icon_class";
  t ← print sectionInfo "title";
  mret (cat ["<i class="; dq; icon_class; dq; "></i> "; t]).

(** [if (el && sectionInfo) el.innerHTML = heading] *)
Definition write_heading (el : option path) (sectionInfo : jsval) : R unit :=
  when_found el (fun el =>
    if negb (truthy sectionInfo) then mret tt else
    heading ← liftE (section_heading sectionInfo);
    set_innerHTML el (JStr heading)).

(** [if (el && sectionInfo) el.textContent = sectionInfo.details] *)
Definition write_details (el : option path) (sectionInfo : jsval) : R unit :=
  when_found el (fun el =>
    if negb (truthy sectionInfo) then mret tt else
    details ← liftE (get sectionInfo "details");
    set_textContent el details).

(** The callback of [renderKeyMetrics]. *)
Definition metric_html (item : jsval) : E string :=
  icon_class ← print item "icon_class";
  value ← print item "value";
  strong_text ← print item "strong_text";
  description ← print item "description";
  mret (cat ["
        <div class="; dq; "col-lg-3 col-md-6"; dq; ">
            <div class="; dq; "stats-item"; dq; ">
                <i class="; dq; icon_class; dq; "></i>
                <span data-purecounter-start="; dq; "0"; dq; " data-purecounter-end="; dq; value; dq; " data-purecounter-duration="; dq; "0.75"; dq; " class="; dq; "purecounter"; dq; "></span>
                <p><strong>"; strong_text; "</strong> "; description; "</p>
            </div>
        </div>
    "]).

(** The callback of [renderKeyMetricsCV]. *)
Definition metric_cv_html (item : jsval) : E string :=
  icon_class ← print item "icon_class";
  value ← print item "value";
  strong_text ← print item "strong_text";
  description ← print item "description";
  mret (cat ["
        <div class="; dq; "col-lg-3 col-md-6"; dq; ">
            <div class="; dq; "stats-item"; dq; ">
                <p>
                    <i class="; dq; icon_class; dq; "></i> 
                    "; value; " <strong>"; strong_text; "</strong> "; description; "
                </p>
            </div>
        </div>
    "]).

(** [Array.isArray(v)] *)
Definition isArray (v : jsval) : bool :=
  match v with JArr _ => true | _ => false end.

(** [container.innerHTML = ''; container.innerHTML = items.map(f).join('')] *)
Definition fill_container (el : path) (f : jsval -> E string) (metricsArray : jsval)
  : R unit :=
  set_innerHTML el (JStr EmptyString);;
  html ← liftE (items ← as_array metricsArray;
                parts ← mapM f items;
                mret (cat parts));
  set_innerHTML el (JStr html).

(** [if (typeof PureCounter !== 'undefined') new PureCounter()] *)
Definition new_PureCounter (PureCounter : binding) : R unit :=
  match PureCounter with
  | Undeclared => mret tt
  | NotAFunction => liftE (inl TypeError)
  | IsFunction run =>
      fun _ p =>
        let '(res, body') := run (body p) in
        (res, mk_page (title p) body' (console p))
  end.

(** [renderKeyMetrics(keyMetricsData)]; [PureCounter] is what the global of
    that name is bound to. *)
Definition renderKeyMetrics (PureCounter : binding) (keyMetricsData : jsval)
  : R unit :=
  if negb (truthy keyMetricsData) then mret tt else
  metricsArray ← liftE (get keyMetricsData "metrics");
  if negb (isArray metricsArray) then mret tt else
  section ← getElementById "keyInfo";
  match section with
  | None => mret tt
  | Some section =>
      sectionInfo ← liftE (get keyMetricsData "section_info");
      titleH2 ← querySelector section (sel_section_title "h2");
      descriptionH6 ← querySelector section (sel_section_title "h6");
      write_heading titleH2 sectionInfo;;
      write_details descriptionH6 sectionInfo;;
      container ← querySelector section sel_row_gy4;
      when_found container (fun el =>
        fill_container el metric_html metricsArray;;
        new_PureCounter PureCounter)
  end.

Definition KeyMetricsCV_error : string :=
  "KeyMetricsCV: Could not find the target container. Check HTML structure.".

(** [renderKeyMetricsCV(keyMetricsData)] *)
Definition renderKeyMetricsCV (keyMetricsData : jsval) : R unit :=
  if negb (truthy keyMetricsData) then mret tt else
  metricsArray ← liftE (get keyMetricsData "metrics");
  if negb (isArray metricsArray) then mret tt else
  section ← getElementById "keyInfo";
  match section with
  | None => mret tt
  | Some section =>
      sectionInfo ← liftE (get keyMetricsData "section_info");
      titleH2 ← querySelector section (sel_section_title "h2");
      descriptionP ← querySelector section (sel_section_title "p");
      write_heading titleH2 sectionInfo;;
      write_details descriptionP sectionInfo;;
      container ← nextElementSibling section;
      match container with
      | None => console_out Error KeyMetricsCV_error
      | Some el =>
          is_row ← classList_contains el "row";
          if negb is_row then console_out Error KeyMetricsCV_error
          else fill_container el metric_cv_html metricsArray
      end
  end.

(** [renderExpertiseAndAchievements(expertiseData)] *)
Definition renderExpertiseAndAchievements (expertiseData : jsval) : R unit :=
  if negb (truthy expertiseData) then mret tt else
  sectionInfo ← liftE (get expertiseData "section_info");
  if negb (truthy sectionInfo) then mret tt else
  section ← getElementById "expertiseAndAchievements";
  match section with
  | None => mret tt
  | Some section =>
      sectionTitleContainer ← querySelector section sel_section_title_box;
      match sectionTitleContainer with
      | None => mret tt
      | Some box =>
          sectionTitleH2 ← querySelector box sel_h2;
          sectionDescriptionH6 ← querySelector box sel_h6;
          write_heading sectionTitleH2 sectionInfo;;
          write_details sectionDescriptionH6 sectionInfo
      end
  end.

(** [renderExpertiseAndAchievementsCV(expertiseData)] *)
Definition renderExpertiseAndAchievementsCV (expertiseData : jsval) : R unit :=
  if negb (truthy expertiseData) then mret tt else
  sectionInfo ← liftE (get expertiseData "section_info");
  if negb (truthy sectionInfo) then mret tt else
  section ← getElementById "expertiseAndAchievements";
  match section with
  | None => mret tt
  | Some section =>
      sectionTitleH2 ← querySelector section sel_h2;
      sectionDescriptionP ← querySelector section sel_first_p;
      write_heading sectionTitleH2 sectionInfo;;
      write_details sectionDescriptionP sectionInfo
  end.

(** ** The profile summary of the printable page *)

Definition in_about (left : list (compound * combinator)) (subject : compound)
  : selector :=
  mk_selector (([ById "about"], Descendant) :: left) subject.

Definition sel_cv_profile_img : selector :=
  in_about [([ByClass "col-lg-4"], Descendant)] [ByTag "img"].
Definition sel_cv_summary (subject : compound) : selector :=
  in_about [([ByClass "col-lg-8"; ByClass "content"], Descendant);
            ([ByClass "section-title"], Descendant)] subject.
Definition sel_cv_key_points (column : nat) : selector :=
  in_about [([ByClass "col-lg-8"; ByClass "content"], Descendant);
            ([ByClass "row"], Descendant);
            ([ByClass "col-lg-6"; NthChild column], Descendant)] [ByTag "ul"].

Section AboutCV.

(** The text the runtime prints for the built-in method of a name on
    [String.prototype]: a key point that is a string inherits [strong] and
    [link] from there. *)
Variable native_source : string -> string.

(** [item.k], where [k] is [strong] or [link]; the flag is its truthiness. *)
Definition print_inherited (item : jsval) (k : string) : E (bool * string) :=
  match item with
  | JStr _ => inr (true, native_source k)
  | _ => v ← get item k; s ← ToString v; inr (truthy v, s)
  end.

(** The callback of [renderAboutCV]'s key point lists. *)
Definition key_point_cv_html (item : jsval) : E string :=
  icon_class ← print item "icon_class";
  strong ← print_inherited item "strong";
  link ← print_inherited item "link";
  text ← print item "text";
  let span :=
    if fst link : bool
    then cat ["<a target="; dq; "_blank"; dq; " href="; dq; snd link; dq; ">"; text; "</a>"]
    else text in
  mret (cat ["<li><i class="; dq; icon_class; dq; "></i> <strong>"; snd strong; ":</strong> <span>"; span; "</span> </li>"]).

Definition key_points_cv_html (points : jsval) : E string :=
  items ← as_array points;
  parts ← mapM key_point_cv_html items;
  mret (cat parts).

(** [renderAboutCV(personalInfo)] *)
Definition renderAboutCV (personalInfo : jsval) : R unit :=
  if negb (truthy personalInfo) then mret tt else
  cvContainer ← getElementById "main_cv";
  match cvContainer with
  | None => mret tt
  | Some cvContainer =>
      summaryData ← liftE (get personalInfo "profile_summary");
      site ← site_data "site";
      siteAssets ← liftE (get site "assets");
      resume_pdf ← liftE (documents ← get siteAssets "documents";
                          get documents "resume_pdf");
      let resumePdfPath := if truthy resume_pdf then resume_pdf else JStr "#" in
      profileImg ← querySelector cvContainer sel_cv_profile_img;
      when_found profileImg (fun el =>
        if negb (truthy siteAssets) then mret tt else
        formal ← liftE (images ← get siteAssets "images";
                        print images "profile_image_formal");
        setAttribute el "src" (cat ["assets/img/"; formal]));;
      summaryHeader ← querySelector cvContainer (sel_cv_summary [ByTag "h2"]);
      when_found summaryHeader (fun el =>
        if negb (truthy summaryData) then mret tt else
        name ← liftE (print personalInfo "name");
        href ← liftE (ToString resumePdfPath);
        set_innerHTML el
          (JStr (cat ["
            Resume - "; name; " | 
            <a href="; dq; "javascript:void(0);"; dq; " onclick="; dq; "PrintElem('main_cv')"; dq; "> <i class="; dq; "bx bx-printer"; dq; "></i> | </a> 
            <a href="; dq; href; dq; " target="; dq; "_blank"; dq; "> <i class="; dq; "bx bx-download"; dq; "></i> </a>
        "])));;
      introParagraph ← querySelector cvContainer (sel_cv_summary [ByTag "p"; NthOfType 1]);
      when_found introParagraph (fun el =>
        if negb (truthy summaryData) then mret tt else
        intro ← liftE (get summaryData "intro_paragraph_html");
        set_innerHTML el intro);;
      leftList ← querySelector cvContainer (sel_cv_key_points 1);
      rightList ← querySelector cvContainer (sel_cv_key_points 2);
      match leftList, rightList with
      | Some l, Some r =>
          if negb (truthy summaryData) then mret tt else
          left ← liftE (points ← get summaryData "key_points_left";
                        key_points_cv_html points);
          set_innerHTML l (JStr left);;
          right ← liftE (points ← get summaryData "key_points_right";
                         key_points_cv_html points);
          set_innerHTML r (JStr right)
      | _, _ => mret tt
      end;;
      researchAreaParagraph ← getElementById "research-summary-area";
      when_found researchAreaParagraph (fun el =>
        if truthy summaryData then
          area ← liftE (print summaryData "research_area");
          works ← liftE (print summaryData "recent_works");
          set_innerHTML el
            (JStr (cat ["
            <b>Research Area:</b> "; area; " <br>
            <b>Recent Works:</b> "; works; "
        "]))
        else set_innerHTML el (JStr EmptyString))
  end.

End AboutCV.

(** ** Detail pages *)

(** An element that the source keeps in a variable while it writes
    elsewhere.  It is in the document, at a path, until a write replaces the
    content of an element above it; from then on the source still holds it,
    with the subtree it had, outside the document. *)
Inductive held : Type :=
  | InDocument (p : path)
  | Removed (subtree : node).

(** What [h] is after the content of the element at [el], if any, has been
    replaced; [before] is the body before that write. *)
Definition after_write (el : option path) (before : node) (h : held) : held :=
  match h, el with
  | InDocument p, Some written =>
      if below written p
      then match node_at p before with
           | Some subtree => Removed subtree
           | None => h
           end
      else h
  | _, _ => h
  end.

(** [h.querySelector(c)] for a compound selector [c], which looks at no
    ancestor: the answer tells whether the element found is in the
    document. *)
Definition held_querySelector (h : held) (c : compound) : R (option held) :=
  fun _ pg =>
    (inr match h with
         | InDocument p => InDocument <$> querySelector_in (body pg) p (mk_selector [] c)
         | Removed subtree =>
             match querySelector_in subtree [] (mk_selector [] c) with
             | Some q => Removed <$> node_at q subtree
             | None => None
             end
         end,
     pg).

(** [h.innerHTML = s]: a write outside the document does not show. *)
Definition held_set_innerHTML (h : held) (s : string) : R unit :=
  match h with
  | InDocument p => set_innerHTML p (JStr s)
  | Removed _ => mret tt
  end.

Definition body_now : R node := fun _ pg => (inr (body pg), pg).

(** [typeof v === 'object' && v !== null] *)
Definition is_object (v : jsval) : bool :=
  match v with
  | JArr _ | JObj _ => true
  | _ => false
  end.

(** [Array.isArray(arr) && arr.every(item => typeof item === 'object' && item !== null)] *)
Definition ArrayOfObjects (arr : jsval) : bool :=
  match arr with
  | JArr items => forallb is_object items
  | _ => false
  end.

Definition sel_page_title_h1 : selector :=
  mk_selector [([ByClass "page-title"], Descendant)] [ByTag "h1"].
Definition sel_breadcrumb_current : selector :=
  mk_selector [([ByClass "breadcrumbs"], Descendant)] [ByTag "li"; ByClass "current"].

(** The statements with which every detail page updates the title of the
    document, the heading of the page and the breadcrumb; [container] is the
    element the caller found before, and the result is what it holds
    afterwards. *)
Definition update_page_header (sectionInfo : jsval) (container : held) : R held :=
  if negb (truthy sectionInfo) then mret container else
  t ← liftE (print sectionInfo "title");
  set_title (JStr (cat ["Emran Ali - "; t; " Details"]));;
  pageTitleH1 ← document_querySelector sel_page_title_h1;
  before ← body_now;
  when_found pageTitleH1 (fun el =>
    icon_class ← liftE (print sectionInfo "icon_class");
    t ← liftE (print sectionInfo "title");
    set_innerHTML el (JStr (cat ["<i class="; dq; icon_class; dq; "></i> "; t; " Details"])));;
  let container := after_write pageTitleH1 before container in
  breadcrumbCurrent ← document_querySelector sel_breadcrumb_current;
  before ← body_now;
  when_found breadcrumbCurrent (fun el =>
    t ← liftE (print sectionInfo "title");
    set_textContent el (JStr (cat [t; " Details"])));;
  mret (after_write breadcrumbCurrent before container).

(** [${v.k || fallback}] *)
Definition print_or (v : jsval) (k fallback : string) : E string :=
  x ← get v k;
  ToString (if truthy x then x else JStr fallback).

(** [detailsContainer.innerHTML = ''; items.forEach(...); detailsContainer.innerHTML = all] *)
Definition fill_rows (rows : held) (f : jsval -> E string) (items : jsval) : R unit :=
  held_set_innerHTML rows EmptyString;;
  html ← liftE (l ← as_array items; parts ← mapM f l; mret (cat parts));
  held_set_innerHTML rows html.

(** The body of [renderProjectsDetails]'s loop. *)
Definition project_details_html (project : jsval) : E string :=
  collaboration ← get project "collaboration_organization";
  organization ← get project "organization";
  let orgsDisplay := if truthy collaboration then collaboration else organization in
  id_ref ← print project "id_ref";
  role ← print project "role";
  image_path ← get project "image_path";
  image ← (if truthy image_path
           then image_path ← ToString image_path;
                mret (cat ["<div>
                        <img src="; dq; image_path; dq; " alt="; dq; "Project Image"; dq; " class="; dq; "img-fluid"; dq; " style="; dq; "max-height: 150px;"; dq; ">
                    </div>"])
           else mret EmptyString);
  title ← print project "title";
  basic_details ← print project "basic_details";
  long_description ← print project "long_description";
  funding ← print project "funding";
  funding_organization ← print_or project "funding_organization" "N/A";
  orgsDisplay ← ToString orgsDisplay;
  timeframe_details ← print project "timeframe_details";
  url_link ← get project "url_link";
  link ← (if truthy url_link
          then url_link ← ToString url_link;
               mret (cat ["<strong>Link: </strong> <a target="; dq; "_blank"; dq; " href="; dq; url_link; dq; ">View Link <i class="; dq; "bx bx-link-external"; dq; "></i></a>"])
          else mret EmptyString);
  mret (cat ["
            <div id="; dq; id_ref; dq; " class="; dq; "general-info"; dq; " data-aos="; dq; "fade-up"; dq; " data-aos-delay="; dq; "200"; dq; ">
                <h3>"; role; " </h3>
                
                "; image; "

                <p class="; dq; "description"; dq; ">
                    <strong>Title: </strong> "; title; " <br>
                    <strong>Basi Details: </strong> "; basic_details; " <br>
                    <strong>Description: </strong> "; long_description; " <br>
                    <strong>Fund: </strong> "; funding; " <br>
                    <strong>Funding Organisation: </strong> "; funding_organization; " <br>
                    <strong>Collaboration Organisation: </strong> "; orgsDisplay; " <br>
                    <strong>Period: </strong> "; timeframe_details; " <br>
                    "; link; "
                </p>
            </div> "]).

(** [renderProjectsDetails(projectsData)] *)
Definition renderProjectsDetails (projectsData : jsval) : R unit :=
  if negb (truthy projectsData) then mret tt else
  projects ← liftE (get projectsData "projects");
  if negb (ArrayOfObjects projects) then mret tt else
  sectionInfo ← liftE (get projectsData "section_info");
  container ← getElementById "projectsDetails_main";
  match container with
  | None => mret tt
  | Some container =>
      container ← update_page_header sectionInfo (InDocument container);
      detailsContainer ← held_querySelector container [ByClass "row"];
      match detailsContainer with
      | None => mret tt
      | Some rows => fill_rows rows project_details_html projects
      end
  end.

(** The body of [renderMembershipsDetails]'s loop. *)
Definition membership_details_html (membership : jsval) : E string :=
  has_expiry ← get membership "has_expiry";
  let hasExpiryDisplay := if truthy has_expiry then "True" else "False" in
  url_link ← get membership "url_link";
  roleLink ← (if truthy url_link
              then url_link ← ToString url_link;
                   role ← print membership "role";
                   mret (JStr (cat ["<a target="; dq; "_blank"; dq; " href="; dq; url_link; dq; ">"; role; " <i class="; dq; "bx bx-link-external"; dq; "></i></a>"]))
              else get membership "role");
  id_ref ← print membership "id_ref";
  title ← print membership "title";
  roleLink ← ToString roleLink;
  organization_name ← print_or membership "organization_name" "N/A";
  institute ← print_or membership "organization_name" "N/A";
  location ← print_or membership "location" "N/A";
  timeframe ← print membership "timeframe";
  description_full ← print_or membership "description_full" "N/A";
  mret (cat ["
            <div id="; dq; id_ref; dq; " class="; dq; "general-info"; dq; " data-aos="; dq; "fade-up"; dq; " data-aos-delay="; dq; "200"; dq; ">
                <h3>"; title; " </h3>
                
                <p class="; dq; "description"; dq; ">
                    <strong>Role: </strong> "; roleLink; " <br>
                    <strong>Organisation: </strong> "; organization_name; " <br>
                    <strong>Institute: </strong> "; institute; " <br>
                    <strong>Address: </strong> "; location; " <br>
                    <strong>Has Expiry: </strong> "; hasExpiryDisplay; " <br>
                    <strong>Validity Period: </strong> "; timeframe; " <br>
                    <strong>Description: </strong> "; description_full; " <br>
                </p>
            </div> "]).

(** [renderMembershipsDetails(membershipsData)] *)
Definition renderMembershipsDetails (membershipsData : jsval) : R unit :=
  if negb (truthy membershipsData) then mret tt else
  memberships ← liftE (get membershipsData "memberships");
  if negb (ArrayOfObjects memberships) then mret tt else
  sectionInfo ← liftE (get membershipsData "section_info");
  own ← getElementById "membershipsDetails_main";
  container ← match own with
              | Some _ => mret own
              | None => getElementById "honorsAwardsDetails_main"
              end;
  match container with
  | None => mret tt
  | Some container =>
      container ← update_page_header sectionInfo (InDocument container);
      detailsContainer ← held_querySelector container [ByClass "row"];
      match detailsContainer with
      | None => mret tt
      | Some rows => fill_rows rows membership_details_html memberships
      end
  end.

(** The body of [renderPortfoliosDetails]'s loop. *)
Definition portfolio_details_html (item : jsval) : E string :=
  id_ref ← print item "id_ref";
  title ← print item "title";
  description ← print item "description";
  portfolio_url ← print item "portfolio_url";
  portfolio_text ← print item "portfolio_url";
  mret (cat ["
            <div id="; dq; id_ref; dq; " class="; dq; "general-info"; dq; " data-aos="; dq; "fade-up"; dq; " data-aos-delay="; dq; "200"; dq; ">
                <h3>"; title; " </h3>
                <p class="; dq; "description"; dq; ">
                    <strong>Platform: </strong> GitHub <br>
                    <strong>Description: </strong> "; description; " <br>
                    <strong>Link: </strong> <a target="; dq; "_blank"; dq; " href="; dq; portfolio_url; dq; ">"; portfolio_text; " <i class="; dq; "bx bx-link-external"; dq; "></i></a> <br>
                </p>
            </div> "]).

Definition portfolios_data_error : string :=
  "renderPortfoliosDetails: Data wrapper object or 'portfolios' array is missing/invalid.".
Definition portfolios_main_error : string :=
  "renderPortfoliosDetails: Main details container (portfoliosDetails_main) not found.".
Definition portfolios_row_error : string :=
  "renderPortfoliosDetails: Inner details container (.row) not found.".

(** [renderPortfoliosDetails(portfoliosData)] *)
Definition renderPortfoliosDetails (portfoliosData : jsval) : R unit :=
  if negb (truthy portfoliosData) then console_out Error portfolios_data_error else
  portfolios ← liftE (get portfoliosData "portfolios");
  if negb (ArrayOfObjects portfolios) then console_out Error portfolios_data_error else
  sectionInfo ← liftE (get portfoliosData "section_info");
  innerMainContainer ← getElementById "portfoliosDetails_main";
  match innerMainContainer with
  | None => console_out Error portfolios_main_error
  | Some container =>
      container ← update_page_header sectionInfo (InDocument container);
      detailsContainer ← held_querySelector container [ByClass "row"];
      match detailsContainer with
      | None => console_out Error portfolios_row_error
      | Some rows => fill_rows rows portfolio_details_html portfolios
      end
  end.

(** ** The dispatcher with the modelled calls *)

(** The collaborators of the dispatcher with the functions modelled above in
    their place; [other] stands for the remaining ones. *)
Definition with_modelled (currentYear : Z) (string_positive : string -> bool)
  (native_source : string -> string) (PureCounter : binding)
  (other : renderer -> list jsval -> R unit) (r : renderer) (args : list jsval)
  : R unit :=
  match r with
  | RenderMenuFooter => renderMenuFooter currentYear (arg 0 args) (arg 1 args)
  | RenderPageFooter => renderPageFooter (arg 0 args)
  | RenderNavigation => renderNavigation string_positive (arg 0 args)
  | RenderKeyMetrics => renderKeyMetrics PureCounter (arg 0 args)
  | RenderKeyMetricsCV => renderKeyMetricsCV (arg 0 args)
  | RenderExpertiseAndAchievements => renderExpertiseAndAchievements (arg 0 args)
  | RenderExpertiseAndAchievementsCV => renderExpertiseAndAchievementsCV (arg 0 args)
  | RenderAboutCV => renderAboutCV native_source (arg 0 args)
  | RenderProjectsDetails => renderProjectsDetails (arg 0 args)
  | RenderMembershipsDetails => renderMembershipsDetails (arg 0 args)
  | RenderPortfoliosDetails => renderPortfoliosDetails (arg 0 args)
  | _ => other r args
  end.

(** ** Vocabulary of the properties *)

(** [st'] comes after [st] in a run that only renders: the store is the
    same and the history has grown. *)
Definition extends (st st' : dstate) : Prop :=
  SITE_DATA st' = SITE_DATA st /\ exists more, calls st' = (calls st ++ more)%list.

(** [m] only renders: it neither writes the store nor forgets a call. *)
Definition rendering_only {A} (m : M A) : Prop :=
  forall st, extends st (snd (m st)).

(** The address from which the loader fetches a file. *)
Definition data_url (fileName : string) : string := BASE_DATA_PATH +:+ fileName.

(** The chain of a fetch rejects. *)
Definition is_failure (r : response) : Prop :=
  match r with Ok _ => False | _ => True end.

(** The store after the chains of [files] have stored what they parsed. *)
Definition stored (parsed : string -> jsval) (files : list string)
  (sd : gmap string jsval) : gmap string jsval :=
  foldl (fun m f => <[baseName f := parsed f]> m) sd files.

(** [c] throws nothing but a [TypeError]. *)
Definition only_TypeError {A} (c : E A) : Prop :=
  forall e, c = inl e -> e = TypeError.

(** Every run of [m] takes a page to one that [P] relates to it. *)
Definition preserves (P : page -> page -> Prop) {A} (m : R A) : Prop :=
  forall sd pg, P pg (snd (m sd pg)).

Definition same_console (pg pg' : page) : Prop := console pg' = console pg.

(** The paths part: neither element is the other or lies inside it. *)
Fixpoint apart (p q : path) : bool :=
  match p, q with
  | i :: p', j :: q' => if Nat.eqb i j then apart p' q' else true
  | _, _ => false
  end.

(** [pg'] differs from [pg] inside the element at [scope] at most: the
    title, the console and every element apart from [scope] are the same. *)
Definition only_inside (scope : path) (pg pg' : page) : Prop :=
  title pg' = title pg /\ console pg' = console pg /\
  forall q, apart scope q = true -> node_at q (body pg') = node_at q (body pg).

Definition same_title (pg pg' : page) : Prop := title pg' = title pg.

(** The first of [ids] that the document has an element for. *)
Fixpoint first_by_id (ids : list string) (b : node) : option path :=
  match ids with
  | [] => None
  | i :: rest =>
      match getElementById_in b i with
      | Some p => Some p
      | None => first_by_id rest b
      end
  end.

(** The modelled renderers of detail pages, each with the key of its list in
    its data and the ids it looks for its container under, in order. *)
Definition detail_renderers : list ((jsval -> R unit) * string * list string) :=
  [ (renderProjectsDetails, "projects", ["projectsDetails_main"]);
    (renderMembershipsDetails, "memberships",
     ["membershipsDetails_main"; "honorsAwardsDetails_main"]);
    (renderPortfoliosDetails, "portfolios", ["portfoliosDetails_main"]) ].

Definition sel_row : selector := mk_selector [] [ByClass "row"].

(** [SITE_DATA.k], read from a store. *)
Definition entry (sd : gmap string jsval) (k : string) : jsval :=
  default JUndefined (sd !! k).

(** The join of the loader settles: a chain of [settled] rejects, or every
    chain is in the list. *)
Definition settles (fetch : string -> response) (settled : list string) : Prop :=
  (exists f, f ∈ settled /\ is_failure (fetch (data_url f)))
  \/ (forall f, f ∈ JSON_FILES -> f ∈ settled).

(** From [st], [m] leaves the store alone and enters a prefix of the calls
    [expected], in this order and with these arguments: all of them when it
    returns. *)
Definition enters {A} (m : M A) (expected : list event) (st : dstate) : Prop :=
  SITE_DATA (snd (m st)) = SITE_DATA st
  /\ exists entries,
       calls (snd (m st)) = (calls st ++ entries)%list
       /\ entries `prefix_of` expected
       /\ (forall x, fst (m st) = inr x -> entries = expected).


(** The state in which the dispatcher selects the menu: its first log line
    is on the console. *)
Definition logged (st : dstate) : dstate :=
  mk_dstate (SITE_DATA st)
    (mk_page (title (pg st)) (body (pg st))
       (console (pg st) ++ [(Log, "Rendering site with loaded data...")]))
    (calls st).



(** A section header given in strings whose heading, the markup
    [<i class=icon></i> t], the parser reads as one [i] element without the
    class [cls] and text: [icon] stays inside the quotes of the attribute
    and is free of character references and of [cls], and no tag opens in
    [t]. *)
Definition plain_section_info (cls : string) (sectionInfo : jsval) : Prop :=
  exists icon t,
    get sectionInfo "icon_class" = inr (JStr icon)
    /\ get sectionInfo "title" = inr (JStr t)
    /\ (get sectionInfo "details" = inr JUndefined
        \/ exists details, get sectionInfo "details" = inr (JStr details))
    /\ mentions dq icon = false /\ occurs "&" icon = false
    /\ mentions cls icon = false
    /\ occurs "<" t = false.

(** What an entry of the history says was entered. *)
Definition entered (e : event) : renderer + hook :=
  match e with
  | Call r _ => inl r
  | Invoke h => inr h
  end.







(** ** Sample data *)

Definition home_item (url : string) : jsval :=
  JObj [("label", JStr "Home"); ("url", JStr url); ("icon_class", JStr "bi bi-house")].

Definition about_item : jsval :=
  JObj [("label", JStr "About"); ("url", JStr "#about"); ("icon_class", JStr "bi bi-person")].

Definition back_item : jsval :=
  JObj [("label", JStr "Back"); ("url", JStr "./index.html"); ("icon_class", JStr "bi bi-arrow-left")].

Definition sample_navigation (home_url : string) : jsval :=
  JObj [("main_menu", JArr [home_item home_url; about_item]);
        ("details_menu", JArr [back_item])].

Definition sample_assets : jsval :=
  JObj [("images", JObj [("profile_image_pp", JStr "pp.png");
                         ("profile_image_formal", JStr "formal.png")]);
        ("icons", JObj [("logo_png", JStr "logo.png")])].

(** A [site.json] with the entries the dispatcher reads. *)
Definition sample_site (home_url : string) : jsval :=
  JObj [("site_info", JObj [("title", JStr "Portfolio")]);
        ("navigation", sample_navigation home_url);
        ("assets", sample_assets);
        ("footer_meta", JObj [])].

(** A [site.json] without its [assets] entry. *)
Definition site_without_assets : jsval :=
  JObj [("site_info", JObj [("title", JStr "Portfolio")]);
        ("navigation", sample_navigation "#hero");
        ("footer_meta", JObj [])].

Definition sample_hero : jsval :=
  JObj [("title_main", JStr "A. Person"); ("typed_items", JStr "Researcher, Developer");
        ("title_researcher", JStr "PhD Researcher");
        ("title_institute_primary", JStr "Institute One");
        ("title_institute_secondary", JStr "Institute Two");
        ("tagline", JStr "Tagline")].

Definition sample_key_point : jsval :=
  JObj [("icon_class", JStr "bi bi-chevron-right"); ("strong", JStr "City");
        ("text", JStr "Melbourne")].

Definition sample_personal_info : jsval :=
  JObj [("name", JStr "A. Person");
        ("hero", sample_hero);
        ("profile_summary",
         JObj [("title", JStr "Profile Summary");
               ("link_printable_cv", JStr "printable_cv.html");
               ("intro_paragraph_html", JStr "<b>Intro</b>");
               ("key_points_left", JArr [sample_key_point]);
               ("key_points_right", JArr [])])].

(** A [personal_info.json] whose profile summary has no key point lists. *)
Definition personal_info_without_key_points : jsval :=
  JObj [("name", JStr "A. Person");
        ("hero", sample_hero);
        ("profile_summary",
         JObj [("title", JStr "Profile Summary");
               ("link_printable_cv", JStr "printable_cv.html");
               ("intro_paragraph_html", JStr "<b>Intro</b>")])].

Definition el (tag ident : string) (classes : list string) (children : list node)
  : node :=
  Element tag ident classes [] children.

Definition sample_header : node :=
  el "header" "header" ["header"]
    [ el "div" EmptyString ["profile-img"] [el "img" EmptyString [] []];
      el "a" EmptyString ["logo"]
        [el "img" EmptyString [] []; el "h1" EmptyString ["sitename"] [Text "Name"]];
      el "div" EmptyString ["social-links"] [];
      el "nav" "navmenu" ["navmenu"] [] ].

(** A hero section with its heading, and one without. *)
Definition sample_hero_section (with_h2 : bool) : node :=
  el "section" "hero" ["hero"]
    ((if with_h2 then [el "h2" EmptyString [] [Text "Name"]] else []) ++
     [ el "p" EmptyString [] [Text "I am "; el "span" EmptyString ["typed"] []];
       el "p" EmptyString [] [];
       el "p" EmptyString [] [] ])%list.

Definition sample_about_section : node :=
  el "section" "about" ["about"]
    [ el "div" EmptyString ["container"]
        [ el "div" EmptyString ["row"]
            [ el "div" EmptyString ["col-lg-4"] [el "img" EmptyString [] []];
              el "div" EmptyString ["col-lg-8"; "content"]
                [ el "div" EmptyString ["section-title"]
                    [ el "h2" EmptyString [] [Text "Profile"];
                      el "p" EmptyString [] [];
                      el "div" EmptyString ["row"]
                        [ el "div" EmptyString ["col-lg-6"] [el "ul" EmptyString [] []];
                          el "div" EmptyString ["col-lg-6"] [el "ul" EmptyString [] []] ] ] ] ] ] ].

(** The static shell of the index page, as far as the modelled calls look. *)
Definition sample_body (with_h2 : bool) : node :=
  el "body" EmptyString ["index-page"]
    [ sample_header;
      el "main" EmptyString ["main"]
        [sample_hero_section with_h2; sample_about_section] ].

Definition sample_page (with_h2 : bool) : page :=
  mk_page "Static title" (sample_body with_h2) [].

(** Collaborators that do nothing, and an environment without hooks. *)
Definition no_render : renderer -> list jsval -> R unit := fun _ _ => mret tt.
Definition no_hooks : hook -> binding := fun _ => Undeclared.

(** A server on which every resource parses to an empty object, except
    [site.json] and [personal_info.json]. *)
Definition sample_server (url : string) : response :=
  if String.eqb url (data_url "site.json") then Ok (sample_site "#hero")
  else if String.eqb url (data_url "personal_info.json") then Ok sample_personal_info
  else Ok (JObj []).

(** The same server, answering 404 for one file. *)
Definition failing_server (missing : string) (url : string) : response :=
  if String.eqb url (data_url missing) then NotOk "Not Found"
  else sample_server url.


(** What [sample_server] serves under each file name. *)
Definition sample_parsed (fileName : string) : jsval :=
  match sample_server (data_url fileName) with
  | Ok data => data
  | _ => JUndefined
  end.

(** A settle order in which [site.json] comes first. *)
Definition site_first : list string :=
  "site.json" :: "personal_info.json" :: drop 2 JSON_FILES.

(** The state after every file of [sample_server] has loaded. *)
Definition loaded_state : dstate :=
  snd (loadAllData sample_server JSON_FILES (page_load (sample_page true))).

(** An environment in which only the typing-effect hook is defined. *)
Definition only_typed : hook -> binding :=
  fun h =>
    match h with
    | InitTypedAnimation => IsFunction (fun document => (inr tt, document))
    | _ => Undeclared
    end.

(** An environment in which the typing-effect hook throws and the
    scroll-animation hook is defined. *)
Definition typed_throws : hook -> binding :=
  fun h =>
    match h with
    | InitTypedAnimation =>
        IsFunction (fun document => (inl (OtherError "Typed is not defined"), document))
    | InitAOS => IsFunction (fun document => (inr tt, document))
    | InitPureCounter => Undeclared
    end.

(** A document in which the first image of the about section lies inside
    the element that [renderAbout] later overwrites with the research
    summary. *)
Definition nested_about_page : page :=
  mk_page "Static title"
    (el "body" EmptyString []
       [ el "section" "about" ["about"]
           [ el "div" "research-summary-area" []
               [el "div" EmptyString ["col-lg-4"] [el "img" EmptyString [] []]];
             el "div" EmptyString ["col-lg-4"] [el "img" EmptyString [] []] ] ])
    [].

(** A [footer_meta] entry with a given copyright year. *)
Definition sample_menu_footer (year : jsval) : jsval :=
  JObj [("copyright_year", year);
        ("copyright_owner", JStr "A. Person");
        ("copyright_logo_link", JStr "./");
        ("copyright_text_link", JStr "./");
        ("links", JArr [JObj [("url", JStr "#about"); ("label", JStr "About")]])].

Definition sample_footer_meta (year : jsval) : jsval :=
  JObj [("menu_footer", sample_menu_footer year);
        ("main_page_footer",
         JObj [("sitename", JStr "Portfolio");
               ("design_link", JStr "https://example.org");
               ("design_credit", JStr "A. Person")])].

(** A [site.json] with its footer. *)
Definition site_with_footer (year : jsval) : jsval :=
  JObj [("site_info", JObj [("title", JStr "Portfolio")]);
        ("navigation", sample_navigation "#hero");
        ("assets", sample_assets);
        ("footer_meta", sample_footer_meta year)].

(** A navigation entry without the menu of the detail pages. *)
Definition navigation_without_details : jsval :=
  JObj [("main_menu", JArr [home_item "#hero"; about_item])].

Definition sample_sidebar : node :=
  el "header" "header" ["header"]
    [ el "nav" "navmenu" ["navmenu"] [el "ul" EmptyString [] []];
      el "div" "menu_footer" [] [] ].

(** The key metrics section as the index page has it: the row of the
    metrics lies inside the section. *)
Definition sample_key_info : node :=
  el "section" "keyInfo" ["stats"; "section"]
    [ el "div" EmptyString ["container"; "section-title"]
        [el "h2" EmptyString [] [Text "Key Information"]; el "h6" EmptyString [] []];
      el "div" EmptyString ["container"]
        [el "div" EmptyString ["row"; "gy-4"] [el "div" EmptyString ["col-lg-3"] []]] ].

Definition sample_expertise : node :=
  el "section" "expertiseAndAchievements" ["section"]
    [ el "div" EmptyString ["container"; "section-title"]
        [el "h2" EmptyString [] [Text "Expertise"]; el "h6" EmptyString [] []] ].

(** A page with the sidebar, two sections and the footer. *)
Definition sections_page : page :=
  mk_page "Static title"
    (el "body" EmptyString ["index-page"]
       [ sample_sidebar;
         el "main" EmptyString ["main"] [sample_key_info; sample_expertise];
         el "footer" "footer" ["footer"] [] ])
    [].

Definition sample_section_info : jsval :=
  JObj [("icon_class", JStr "bi bi-graph-up"); ("title", JStr "Key Information");
        ("details", JStr "At a glance")].

Definition sample_key_metrics (items : list jsval) : jsval :=
  JObj [("section_info", sample_section_info); ("metrics", JArr items)].

(** The container of the printable page. *)
Definition cv_page : page :=
  mk_page "Static title"
    (el "body" EmptyString []
       [el "div" "main_cv" [] [el "section" "about" ["about"] []]])
    [].

(** A state whose store holds [site.json] only. *)
Definition site_store (site : jsval) (document : page) : dstate :=
  mk_dstate {["site" := site]} document [].

(** A detail page: the page title, the breadcrumb and the container with
    its row; [nested] puts the container inside the heading of the page. *)
Definition sample_details_container (id : string) : node :=
  el "section" id ["section"]
    [el "div" EmptyString ["container"] [el "div" EmptyString ["row"] [Text "static"]]].

Definition sample_details_page (id : string) (nested : bool) : page :=
  mk_page "Static title"
    (el "body" EmptyString ["details-page"]
       [ el "div" EmptyString ["page-title"]
           [ el "h1" EmptyString []
               (if nested then [sample_details_container id] else [Text "Details"]);
             el "nav" EmptyString ["breadcrumbs"]
               [el "ol" EmptyString [] [el "li" EmptyString ["current"] [Text "Details"]]] ];
         el "main" EmptyString ["main"]
           (if nested then [] else [sample_details_container id]) ])
    [].

Definition sample_portfolio (title : jsval) : jsval :=
  JObj [("id_ref", JStr "p1"); ("title", title); ("description", JStr "Code");
        ("portfolio_url", JStr "https://example.org/p1")].

Definition portfolios_titled (t : string) (items : list jsval) : jsval :=
  JObj [("section_info", JObj [("icon_class", JStr "bi bi-folder"); ("title", JStr t)]);
        ("portfolios", JArr items)].

Definition sample_portfolios (items : list jsval) : jsval :=
  JObj [("section_info",
         JObj [("icon_class", JStr "bi bi-folder"); ("title", JStr "Portfolios")]);
        ("portfolios", JArr items)].

(** * Properties *)

(** ** Strings *)

Lemma append_cons a s t : String a s +:+ t = String a (s +:+ t).
Proof. reflexivity. Qed.

Lemma append_empty t : EmptyString +:+ t = t.
Proof. reflexivity. Qed.

Lemma append_assoc s t u : (s +:+ t) +:+ u = s +:+ t +:+ u.
Proof. induction s as [|a s IH]; [done|]. rewrite !append_cons. by rewrite IH. Qed.

Lemma length_append s t :
  String.length (s +:+ t) = (String.length s + String.length t)%nat.
Proof.
  induction s as [|a s IH]; [done|]. rewrite append_cons. simpl. by rewrite IH.
Qed.

Lemma lastIndexOf_from_absent c i s :
  occurs c s = false -> lastIndexOf_from c i s = -1.
Proof.
  revert i. induction s as [|a s IH]; intros i H; simpl in *; [done|].
  apply orb_false_iff in H as [Ha Hs].
  rewrite (IH _ Hs), Ha. done.
Qed.

Lemma lastIndexOf_from_last c i s1 s2 :
  0 <= i -> occurs c s2 = false ->
  lastIndexOf_from c i (s1 +:+ String c s2) = i + Z.of_nat (String.length s1).
Proof.
  revert i. induction s1 as [|a s1 IH]; intros i Hi H.
  - rewrite append_empty. simpl.
    rewrite (lastIndexOf_from_absent _ _ _ H), Ascii.eqb_refl. simpl. lia.
  - rewrite append_cons. simpl. rewrite IH by (done || lia).
    destruct (0 <=? _) eqn:E; [lia|]. apply Z.leb_gt in E. lia.
Qed.

Lemma substring_whole s : String.substring 0 (String.length s) s = s.
Proof. induction s as [|b s IH]; simpl; [done|]. by rewrite IH. Qed.

Lemma substring_append_right s1 s2 :
  String.substring (String.length s1) (String.length s2) (s1 +:+ s2) = s2.
Proof.
  induction s1 as [|a s1 IH]; [apply substring_whole|done].
Qed.

(** [fileName_of] is the final segment of a path. *)
Lemma fileName_of_segment dir name :
  occurs "/" name = false -> fileName_of (dir +:+ "/" +:+ name) = name.
Proof.
  intros H. unfold fileName_of, lastIndexOf, substring_from.
  change ("/" +:+ name) with (String "/" name).
  rewrite lastIndexOf_from_last by (done || lia).
  replace (Z.to_nat (0 + Z.of_nat (String.length dir) + 1))
    with (String.length (dir +:+ "/")) by (rewrite length_append; simpl; lia).
  change (String "/" name) with ("/" +:+ name).
  rewrite <- append_assoc, (length_append (dir +:+ "/") name).
  replace (String.length (dir +:+ "/") + String.length name
           - String.length (dir +:+ "/"))%nat
    with (String.length name) by lia.
  apply substring_append_right.
Qed.

Example fileName_of_root : fileName_of "/" = EmptyString.
Proof. reflexivity. Qed.

Example fileName_of_index : fileName_of "/testsite/index.html" = "index.html".
Proof. reflexivity. Qed.

Lemma fileName_of_no_slash name :
  occurs "/" name = false -> fileName_of name = name.
Proof.
  intros H. unfold fileName_of, lastIndexOf, substring_from.
  rewrite (lastIndexOf_from_absent _ _ _ H). simpl.
  rewrite Nat.sub_0_r. apply substring_whole.
Qed.

(** ** String conversion *)

(** Reading a property of a truthy value does not throw. *)
Lemma get_truthy v k : truthy v = true -> exists x, get v k = inr x.
Proof. destruct v; simpl; try done; eauto. Qed.

Lemma ToString_throws v e : ToString v = inl e -> e = TypeError.
Proof.
  revert v e. fix IH 1. intros [| |[]|n|s|items|props] e; simpl; try discriminate.
  - match goal with |- context [match ?f items with _ => _ end] =>
      set (each := f) end.
    destruct (each items) eqn:Ei; [|discriminate].
    intros [= <-]. revert items e0 Ei.
    fix IHl 1. intros [|x l] e'; [discriminate|].
    change (each (x :: l)) with
        (match match x with
               | JUndefined | JNull => inr EmptyString
               | _ => ToString x
               end with
         | inl e => inl e
         | inr s => match each l with inl e => inl e | inr rest => inr (s :: rest) end
         end).
    pose proof (IH x) as IHx.
    destruct (match x with JUndefined | JNull => inr EmptyString | _ => ToString x end) eqn:Ex.
    + intros [= <-]. destruct x; try discriminate; eapply IHx; exact Ex.
    + destruct (each l) eqn:El; [intros [= <-]; eapply IHl; exact El | discriminate].
  - destruct (assoc "toString" props); [intros [= <-]; reflexivity|discriminate].
Qed.

Lemma bind_inr {A B} (x : A) (k : A -> E B) : (inr x ≫= k) = k x.
Proof. reflexivity. Qed.

Lemma bind_inl {A B} (e : exn) (k : A -> E B) : (inl e ≫= k) = inl e.
Proof. reflexivity. Qed.

Lemma only_TypeError_ret {A} (x : A) : only_TypeError (mret x).
Proof. intros e. discriminate. Qed.

Lemma only_TypeError_bind {A B} (c : E A) (k : A -> E B) :
  only_TypeError c -> (forall x, only_TypeError (k x)) -> only_TypeError (c ≫= k).
Proof.
  intros Hc Hk e. unfold mbind, E_bind. destruct c as [e'|x].
  - intros [= <-]. by apply Hc.
  - apply Hk.
Qed.

Lemma only_TypeError_get v k : only_TypeError (get v k).
Proof. intros e. destruct v; simpl; congruence. Qed.

Lemma only_TypeError_ToString v : only_TypeError (ToString v).
Proof. intros e. apply ToString_throws. Qed.

Lemma only_TypeError_print v k : only_TypeError (print v k).
Proof.
  apply only_TypeError_bind; [apply only_TypeError_get|apply only_TypeError_ToString].
Qed.

Lemma only_TypeError_as_array v : only_TypeError (as_array v).
Proof. intros e. destruct v; simpl; congruence. Qed.

Lemma mapM_cons {A B} (f : A -> E B) x l :
  mapM f (x :: l) = (y ← f x; k ← mapM f l; mret (y :: k)).
Proof. reflexivity. Qed.

Lemma only_TypeError_mapM {A B} (f : A -> E B) l :
  (forall x, only_TypeError (f x)) -> only_TypeError (mapM f l).
Proof.
  intros Hf. induction l as [|x l IH]; [apply only_TypeError_ret|].
  rewrite mapM_cons.
  apply only_TypeError_bind; [apply Hf|]. intros y.
  apply only_TypeError_bind; [apply IH|]. intros ys. apply only_TypeError_ret.
Qed.

(** A callback that fails on one item makes [map] fail. *)
Lemma mapM_throws {A B} (f : A -> E B) l x :
  (forall y, only_TypeError (f y)) -> x ∈ l -> f x = inl TypeError ->
  mapM f l = inl TypeError.
Proof.
  intros Hf Hx Hfx. induction l as [|y l IH]; [by apply elem_of_nil in Hx|].
  rewrite mapM_cons. destruct (f y) as [e|z] eqn:Hy.
  - by rewrite (Hf _ _ Hy).
  - apply elem_of_cons in Hx as [->|Hx]; [congruence|].
    by rewrite bind_inr, (IH Hx).
Qed.

Ltac only_TypeError_steps :=
  repeat first
    [ apply only_TypeError_print
    | apply only_TypeError_ret
    | apply only_TypeError_get
    | apply only_TypeError_as_array
    | apply only_TypeError_bind; [|intros ?] ].

(** ** Running a render call *)

Lemma R_bind_inr {A B} (m : R A) (k : A -> R B) sd pg x pg1 :
  m sd pg = (inr x, pg1) -> (m ≫= k) sd pg = k x sd pg1.
Proof. intros H. unfold mbind, R_bind. by rewrite H. Qed.

Lemma R_bind_inl {A B} (m : R A) (k : A -> R B) sd pg e pg1 :
  m sd pg = (inl e, pg1) -> (m ≫= k) sd pg = (inl e, pg1).
Proof. intros H. unfold mbind, R_bind. by rewrite H. Qed.

Lemma R_bind_returns {A B} (m : R A) (k : A -> R B) sd pg y pg' :
  (m ≫= k) sd pg = (inr y, pg') ->
  exists x pg0, m sd pg = (inr x, pg0) /\ k x sd pg0 = (inr y, pg').
Proof.
  unfold mbind, R_bind. destruct (m sd pg) as [[e|x] pg0]; [done|]. eauto.
Qed.

Section Preserves.

Variable P : page -> page -> Prop.
Hypothesis P_refl : forall pg, P pg pg.
Hypothesis P_trans : forall a b c, P a b -> P b c -> P a c.

Lemma preserves_ret {A} (x : A) : preserves P (mret x).
Proof. intros sd pg. apply P_refl. Qed.

Lemma preserves_bind {A B} (m : R A) (k : A -> R B) :
  preserves P m -> (forall x, preserves P (k x)) -> preserves P (m ≫= k).
Proof.
  intros Hm Hk sd pg. specialize (Hm sd pg). unfold mbind, R_bind.
  destruct (m sd pg) as [[e|x] pg1]; simpl in *; [done|].
  eapply P_trans; [exact Hm|apply Hk].
Qed.

Lemma preserves_liftE {A} (c : E A) : preserves P (liftE c).
Proof. intros sd pg. apply P_refl. Qed.

Lemma preserves_when_found el (f : path -> R unit) :
  (forall e, el = Some e -> preserves P (f e)) -> preserves P (when_found el f).
Proof. intros H. destruct el as [e|]; simpl; [by apply H|apply preserves_ret]. Qed.

End Preserves.

Lemma same_console_refl pg : same_console pg pg.
Proof. done. Qed.

Lemma same_console_trans a b c :
  same_console a b -> same_console b c -> same_console a c.
Proof. unfold same_console. congruence. Qed.

Lemma same_console_write el f : preserves same_console (write el f).
Proof. by intros sd pg. Qed.

Ltac keeps_console :=
  repeat first
    [ apply same_console_write
    | apply (preserves_ret _ same_console_refl)
    | apply (preserves_liftE _ same_console_refl)
    | apply (preserves_when_found _ same_console_refl); intros ? ?
    | apply (preserves_bind _ same_console_trans); [|intros ?] ].

Lemma console_after_bind {A B} (m : R A) (k : A -> R B) sd pg x pg1 :
  m sd pg = (inr x, pg1) ->
  preserves same_console (k x) ->
  console (snd ((m ≫= k) sd pg)) = console pg1.
Proof. intros Hm Hk. unfold mbind, R_bind. rewrite Hm. apply Hk. Qed.


(** ** Running the dispatcher monad *)

Lemma run_bind {A B} (m : M A) (k : A -> M B) st x st1 :
  m st = (inr x, st1) -> (m ≫= k) st = k x st1.
Proof. intros H. unfold mbind, M_bind. by rewrite H. Qed.

Lemma run_bind_throw {A B} (m : M A) (k : A -> M B) st e st1 :
  m st = (inl e, st1) -> (m ≫= k) st = (inl e, st1).
Proof. intros H. unfold mbind, M_bind. by rewrite H. Qed.

Lemma extends_refl st : extends st st.
Proof. split; [done|]. exists []. by rewrite app_nil_r. Qed.

Lemma extends_trans st1 st2 st3 :
  extends st1 st2 -> extends st2 st3 -> extends st1 st3.
Proof.
  intros [H1 [m1 E1]] [H2 [m2 E2]]. split; [congruence|].
  exists (m1 ++ m2)%list. by rewrite E2, E1, app_assoc.
Qed.

Lemma rendering_only_ret {A} (x : A) : rendering_only (mret x).
Proof. intros st. apply extends_refl. Qed.

Lemma rendering_only_bind {A B} (m : M A) (k : A -> M B) :
  rendering_only m -> (forall x, rendering_only (k x)) -> rendering_only (m ≫= k).
Proof.
  intros Hm Hk st. specialize (Hm st). unfold mbind, M_bind.
  destruct (m st) as [[e|x] st1]; simpl in *; [done|].
  eapply extends_trans; [exact Hm|apply Hk].
Qed.

Lemma rendering_only_liftM {A} (c : E A) : rendering_only (liftM c).
Proof. intros st. apply extends_refl. Qed.

Lemma rendering_only_get_store : rendering_only get_store.
Proof. intros st. apply extends_refl. Qed.

Lemma rendering_only_rendering {A} (c : R A) : rendering_only (rendering c).
Proof.
  intros st. unfold rendering. destruct (c _ _) as [res pg']. simpl.
  split; [done|]. exists []. by rewrite app_nil_r.
Qed.

Lemma rendering_only_record e : rendering_only (record e).
Proof. intros st. split; [done|]. by exists [e]. Qed.

Lemma rendering_only_console_write l msg : rendering_only (console_write l msg).
Proof. intros st. split; [done|]. exists []. simpl. by rewrite app_nil_r. Qed.

Create HintDb rendering.
#[local] Hint Resolve rendering_only_ret rendering_only_liftM
  rendering_only_get_store rendering_only_rendering rendering_only_record
  rendering_only_console_write : rendering.

Ltac rendering_steps :=
  repeat first
    [ solve [eauto with rendering]
    | apply rendering_only_bind; [|intros ?] ].

Section Frames.

Variable ext : renderer -> list jsval -> R unit.
Variable globals : hook -> binding.

Lemma rendering_only_SITE_DATA_at k : rendering_only (SITE_DATA_at k).
Proof. unfold SITE_DATA_at. rendering_steps. Qed.

Lemma rendering_only_call r args : rendering_only (call ext r args).
Proof. unfold call. rendering_steps. Qed.

Lemma rendering_only_call_with step : rendering_only (call_with ext step).
Proof.
  unfold call_with. apply rendering_only_bind;
    [apply rendering_only_SITE_DATA_at | intros; apply rendering_only_call].
Qed.

Lemma rendering_only_call_each steps : rendering_only (call_each ext steps).
Proof.
  induction steps as [|step steps IH]; simpl; [apply rendering_only_ret|].
  apply rendering_only_bind; [apply rendering_only_call_with | by intros].
Qed.

Lemma rendering_only_render_core menu : rendering_only (render_core ext menu).
Proof.
  unfold render_core.
  repeat first
    [ apply rendering_only_SITE_DATA_at
    | apply rendering_only_call
    | apply rendering_only_liftM
    | apply rendering_only_bind; [|intros ?] ].
Qed.

Lemma rendering_only_render_sections fileName :
  rendering_only (render_sections ext fileName).
Proof.
  unfold render_sections.
  destruct (classify fileName) as [|d|];
    [apply rendering_only_call_each| |apply rendering_only_call_each].
  destruct d; try apply rendering_only_call_with.
  apply rendering_only_bind; [apply rendering_only_SITE_DATA_at|].
  intros v. destruct (truthy v);
    [apply rendering_only_call_with | apply rendering_only_ret].
Qed.

Lemma rendering_only_invoke h run : rendering_only (invoke h run).
Proof. unfold invoke. rendering_steps. Qed.

Lemma rendering_only_reinit_hooks : rendering_only (reinit_hooks globals).
Proof.
  unfold reinit_hooks.
  repeat first
    [ apply rendering_only_invoke
    | apply rendering_only_console_write
    | apply rendering_only_ret
    | match goal with |- rendering_only (match ?b with _ => _ end) => destruct b end
    | apply rendering_only_bind; [|intros ?] ].
Qed.

End Frames.

Lemma run_call ext r args st :
  call ext r args st
  = (fst (implementation ext r args (SITE_DATA st) (pg st)),
     mk_dstate (SITE_DATA st)
       (snd (implementation ext r args (SITE_DATA st) (pg st)))
       (calls st ++ [Call r args])).
Proof.
  unfold call, mbind, M_bind, record, rendering. simpl.
  by destruct (implementation _ _ _ _ _).
Qed.

(** ** The loader *)

Lemma await_all_fulfilled fetch parsed settled sd :
  (forall f, f ∈ settled -> fetch (data_url f) = Ok (parsed f)) ->
  await_all fetch settled sd = (None, stored parsed settled sd).
Proof.
  revert sd. induction settled as [|f rest IH]; intros sd H; simpl; [done|].
  fold (data_url f). rewrite (H f) by left.
  apply IH. intros g Hg. apply H. by right.
Qed.

Lemma await_all_rejected fetch parsed pre f post sd :
  (forall g, g ∈ pre -> fetch (data_url g) = Ok (parsed g)) ->
  is_failure (fetch (data_url f)) ->
  await_all fetch (pre ++ f :: post) sd
  = (Some (fetch (data_url f)), stored parsed pre sd).
Proof.
  revert sd. induction pre as [|g pre IH]; intros sd H Hf; simpl.
  - fold (data_url f). by destruct (fetch (data_url f)).
  - fold (data_url g). rewrite (H g) by left.
    apply IH; [|done]. intros g' Hg'. apply H. by right.
Qed.

Lemma stored_union parsed files sd :
  NoDup (baseName <$> files) ->
  stored parsed files sd
  = list_to_map ((fun f => (baseName f, parsed f)) <$> files) ∪ sd.
Proof.
  revert sd. induction files as [|f files IH]; intros sd Hnd.
  - simpl. by rewrite (left_id_L ∅ (∪)).
  - rewrite fmap_cons in Hnd. apply NoDup_cons in Hnd as [Hf Hnd].
    unfold stored in *. rewrite fmap_cons, list_to_map_cons. simpl.
    rewrite IH by done.
    rewrite <- insert_union_l. symmetry. apply insert_union_r.
    apply not_elem_of_list_to_map_1.
    by rewrite <- list_fmap_compose.
Qed.

Lemma stored_empty parsed files :
  NoDup (baseName <$> files) ->
  stored parsed files ∅ = list_to_map ((fun f => (baseName f, parsed f)) <$> files).
Proof. intros H. by rewrite stored_union, (right_id_L ∅ (∪)). Qed.

Lemma baseNames_NoDup : NoDup (baseName <$> JSON_FILES).
Proof. apply (bool_decide_unpack _). by vm_compute. Qed.

Lemma loadAllData_fulfilled fetch settled st sd' :
  await_all fetch settled (SITE_DATA st) = (None, sd') ->
  loadAllData fetch settled st
  = (inr tt,
     mk_dstate sd'
       (mk_page (title (pg st)) (body (pg st))
          (console (pg st) ++ [(Log, "Starting data loading...");
                               (Log, "All core data loaded successfully.")]))
       (calls st)).
Proof.
  intros H. unfold loadAllData, mbind, M_bind. simpl. rewrite H.
  unfold console_write, set_body_innerHTML, rendering, write. simpl.
  by rewrite <- app_assoc.
Qed.

Lemma loadAllData_rejected fetch settled st r sd' :
  await_all fetch settled (SITE_DATA st) = (Some r, sd') ->
  loadAllData fetch settled st
  = (inr tt,
     mk_dstate sd'
       (mk_page (title (pg st))
          (update_at [] (with_innerHTML error_notice) (body (pg st)))
          (console (pg st) ++ [(Log, "Starting data loading...");
                               (Error, "Error during data loading:")]))
       (calls st)).
Proof.
  intros H. unfold loadAllData, mbind, M_bind. simpl. rewrite H.
  unfold console_write, set_body_innerHTML, rendering, write. simpl.
  by rewrite <- app_assoc.
Qed.

Lemma loadAllData_all_fulfilled fetch parsed files settled document :
  settled ≡ₚ files ->
  NoDup (baseName <$> files) ->
  (forall f, f ∈ files -> fetch (data_url f) = Ok (parsed f)) ->
  loadAllData fetch settled (page_load document)
  = (inr tt,
     mk_dstate (list_to_map ((fun f => (baseName f, parsed f)) <$> files))
       (mk_page (title document) (body document)
          (console document ++ [(Log, "Starting data loading...");
                                (Log, "All core data loaded successfully.")]))
       []).
Proof.
  intros Hperm Hnd Hok.
  erewrite loadAllData_fulfilled.
  2:{ apply await_all_fulfilled with (parsed := parsed).
      intros f Hf. apply Hok. by rewrite <- Hperm. }
  unfold page_load. cbn [SITE_DATA pg calls].
  rewrite stored_empty by (by rewrite Hperm).
  do 2 f_equal. apply list_to_map_proper; [|by rewrite Hperm].
  rewrite <- list_fmap_compose. by rewrite Hperm.
Qed.

(** C2.  When the sixteen fetch chains all settle with parsed JSON, in
    whatever order, [loadAllData] returns with the store holding exactly one
    entry per file of [JSON_FILES]: the key is the file name without its
    [.json] extension, the value is what the file parsed to, and there is no
    other entry; the page is not touched. *)
Theorem loadAllData_populates_store fetch parsed settled document :
  settled ≡ₚ JSON_FILES ->
  (forall f, f ∈ JSON_FILES -> fetch (data_url f) = Ok (parsed f)) ->
  let result := loadAllData fetch settled (page_load document) in
  fst result = inr tt
  /\ SITE_DATA (snd result)
     = list_to_map ((fun f => (baseName f, parsed f)) <$> JSON_FILES)
  /\ (forall f, f ∈ JSON_FILES ->
        SITE_DATA (snd result) !! baseName f = Some (parsed f)
        /\ baseName f +:+ ".json" = f)
  /\ dom (SITE_DATA (snd result)) = list_to_set (baseName <$> JSON_FILES)
  /\ size (SITE_DATA (snd result)) = 16%nat
  /\ body (pg (snd result)) = body document.
Proof.
  intros Hperm Hok result. unfold result.
  rewrite (loadAllData_all_fulfilled fetch parsed JSON_FILES)
    by (done || apply baseNames_NoDup).
  cbn [fst snd SITE_DATA pg body].
  assert (Hfst : ((fun f => (baseName f, parsed f)) <$> JSON_FILES).*1
                 = baseName <$> JSON_FILES).
  { by rewrite <- list_fmap_compose. }
  split; [done|]. split; [done|]. split; [|split; [|split; [|done]]].
  - intros f Hf. split.
    + apply elem_of_list_to_map_1.
      * rewrite Hfst. apply baseNames_NoDup.
      * apply list_elem_of_fmap. by exists f.
    + revert f Hf. apply Forall_forall. unfold JSON_FILES. repeat constructor.
  - rewrite dom_list_to_map_L. by rewrite Hfst.
  - change 16%nat with (List.length JSON_FILES).
    rewrite <- (length_fmap (fun f => (baseName f, parsed f)) JSON_FILES).
    rewrite <- length_map_to_list.
    apply Permutation_length, map_to_list_to_map.
    rewrite Hfst. apply baseNames_NoDup.
Qed.

(** C2, at the sample server. *)
Lemma loadAllData_populates_store_witness :
  JSON_FILES ≡ₚ JSON_FILES
  /\ (forall f, f ∈ JSON_FILES -> sample_server (data_url f) = Ok (sample_parsed f))
  /\ SITE_DATA (snd (loadAllData sample_server JSON_FILES (page_load (sample_page true))))
     = list_to_map ((fun f => (baseName f, sample_parsed f)) <$> JSON_FILES).
Proof.
  assert (H : forall f, f ∈ JSON_FILES ->
                sample_server (data_url f) = Ok (sample_parsed f)).
  { apply Forall_forall. unfold JSON_FILES. repeat constructor. }
  split; [done|]. split; [exact H|].
  exact (proj1 (proj2 (loadAllData_populates_store sample_server sample_parsed
                         JSON_FILES (sample_page true) (reflexivity _) H))).
Defined.

(** The run in which [personal_info.json] settles first and parses, and
    [site.json] then answers 404. *)
Lemma failed_load_of_site :
  loadAllData (failing_server "site.json") JSON_FILES (page_load (sample_page true))
  = (inr tt,
     mk_dstate {[ "personal_info" := sample_personal_info ]}
       (mk_page "Static title" (with_innerHTML error_notice (sample_body true))
          [(Log, "Starting data loading..."); (Error, "Error during data loading:")])
       []).
Proof.
  assert (E : await_all (failing_server "site.json") JSON_FILES ∅
              = (Some (NotOk "Not Found"), {[ "personal_info" := sample_personal_info ]})).
  { reflexivity. }
  by rewrite (loadAllData_rejected _ _ (page_load (sample_page true)) _ _ E).
Qed.

(** C5, as the spec states it, fails: [personal_info.json] settles first and
    parses, [site.json] answers 404; [loadAllData] shows the error notice and
    returns with the entry of [personal_info.json] still in the store. *)
Lemma loadAllData_keeps_partial_store :
  let st := snd (loadAllData (failing_server "site.json") JSON_FILES
                   (page_load (sample_page true))) in
  body (pg st) = with_innerHTML error_notice (sample_body true)
  /\ SITE_DATA st !! "personal_info" = Some sample_personal_info
  /\ SITE_DATA st <> ∅.
Proof.
  intros st. unfold st. rewrite failed_load_of_site. cbn [snd pg body SITE_DATA].
  split; [reflexivity|]. split; [apply lookup_singleton_eq|].
  apply insert_non_empty.
Qed.

(** C5, amended.  When the chains of [pre] settle with parsed JSON and the
    chain of [f] then fails, [loadAllData] returns normally with the error
    notice in place of the body and with the store holding exactly the
    entries of [pre]; the store is left empty only when the failing chain is
    the first to settle. *)
Theorem loadAllData_failure_keeps_earlier_entries
  fetch parsed pre f post document :
  NoDup (baseName <$> pre) ->
  (forall g, g ∈ pre -> fetch (data_url g) = Ok (parsed g)) ->
  is_failure (fetch (data_url f)) ->
  let result := loadAllData fetch (pre ++ f :: post) (page_load document) in
  fst result = inr tt
  /\ SITE_DATA (snd result)
     = list_to_map ((fun g => (baseName g, parsed g)) <$> pre)
  /\ dom (SITE_DATA (snd result)) = list_to_set (baseName <$> pre)
  /\ (SITE_DATA (snd result) = ∅ <-> pre = [])
  /\ body (pg (snd result))
     = update_at [] (with_innerHTML error_notice) (body document).
Proof.
  intros Hnd Hok Hf result. unfold result.
  erewrite loadAllData_rejected
    by (apply await_all_rejected with (parsed := parsed); done).
  unfold page_load. cbn [fst snd SITE_DATA pg body].
  rewrite stored_empty by done.
  split; [done|]. split; [done|]. split; [|split; [|done]].
  - rewrite dom_list_to_map_L. by rewrite <- list_fmap_compose.
  - destruct pre as [|g pre]; [done|]. split; [|done].
    rewrite fmap_cons, list_to_map_cons. intros H.
    by apply insert_non_empty in H.
Qed.

(** C5 amended, at the run of the counterexample. *)
Lemma loadAllData_failure_keeps_earlier_entries_witness :
  SITE_DATA (snd (loadAllData (failing_server "site.json")
                    (["personal_info.json"] ++ "site.json" :: drop 2 JSON_FILES)
                    (page_load (sample_page true))))
  = list_to_map ((fun g => (baseName g, sample_parsed g)) <$> ["personal_info.json"]).
Proof.
  refine (proj1 (proj2 (loadAllData_failure_keeps_earlier_entries
            (failing_server "site.json") sample_parsed ["personal_info.json"]
            "site.json" (drop 2 JSON_FILES) (sample_page true) _ _ _))).
  - apply (bool_decide_unpack _). by vm_compute.
  - intros g Hg. apply list_elem_of_singleton in Hg. by subst g.
  - exact I.
Defined.


(** The join changes no entry but those of the chains that fulfilled. *)
Lemma await_all_only_adds fetch settled sd k :
  let sd' := snd (await_all fetch settled sd) in
  sd' !! k = sd !! k
  \/ exists fileName data,
       fileName ∈ settled /\ fetch (data_url fileName) = Ok data
       /\ k = baseName fileName /\ sd' !! k = Some data.
Proof.
  revert sd. induction settled as [|f rest IH]; intros sd; simpl; [by left|].
  fold (data_url f). fold (baseName f).
  destruct (fetch (data_url f)) as [data| | |] eqn:Hf; simpl; try by left.
  destruct (IH (<[baseName f := data]> sd)) as [Hsame | (g & d & Hg & Hd & -> & Hk)].
  - destruct (decide (k = baseName f)) as [->|Hne].
    + right. exists f, data. repeat split; [by left|done|].
      by rewrite Hsame, lookup_insert_eq.
    + left. by rewrite Hsame, lookup_insert_ne.
  - right. exists g, d. repeat split; [by right|done|done].
Qed.



(** ** The dispatcher *)

Lemma size_positive (sd : gmap string jsval) :
  sd <> ∅ -> (0 <? size sd)%nat = true.
Proof.
  intros H. apply Nat.ltb_lt. apply map_size_non_empty_iff in H. lia.
Qed.


Lemma dispatch_nonempty_store ext globals pathName st :
  SITE_DATA st <> ∅ ->
  dispatch ext globals pathName st = render_site ext globals pathName st.
Proof.
  intros H. unfold dispatch, mbind, M_bind, get_store.
  by rewrite size_positive.
Qed.


Lemma loadAllData_returns fetch settled st :
  fst (loadAllData fetch settled st) = inr tt.
Proof.
  destruct (await_all fetch settled (SITE_DATA st)) as [[r|] sd'] eqn:E.
  - by erewrite loadAllData_rejected.
  - by erewrite loadAllData_fulfilled.
Qed.

(** ** The calls of a page load *)

Lemma enters_silent {A} (m : M A) st :
  SITE_DATA (snd (m st)) = SITE_DATA st -> calls (snd (m st)) = calls st ->
  (forall x, fst (m st) = inr x -> True) -> enters m [] st.
Proof.
  intros Hsd Hcalls _. split; [done|]. exists []. rewrite app_nil_r.
  split; [done|]. split; [done|]. done.
Qed.




Lemma enters_liftM {A} (c : E A) st : enters (liftM c) [] st.
Proof.
  split; [done|]. exists []. rewrite app_nil_r. by repeat split.
Qed.



Section Calls.

Variable ext : renderer -> list jsval -> R unit.
Variable globals : hook -> binding.













End Calls.


(** ** Menu selection *)

Lemma assoc_set_same k v props : assoc k (assoc_set k v props) = Some v.
Proof.
  induction props as [|[k' v'] props IH]; simpl.
  - by rewrite String.eqb_refl.
  - destruct (String.eqb k k') eqn:E; simpl; rewrite E; done.
Qed.

Lemma assoc_set_other k k' v props :
  k <> k' -> assoc k' (assoc_set k v props) = assoc k' props.
Proof.
  intros Hne.
  assert (Hk : String.eqb k' k = false) by (apply String.eqb_neq; congruence).
  induction props as [|[k0 v0] props IH]; simpl.
  - by rewrite Hk.
  - destruct (String.eqb k k0) eqn:E; simpl; [|by rewrite IH].
    apply String.eqb_eq in E as <-. by rewrite Hk.
Qed.

(** [find] returns the first item on which the callback answers [true]. *)
Lemma find_index_first f items i :
  find_index f items = inr (Some i) ->
  exists item,
    items !! i = Some item /\ f item = inr true
    /\ forall j x, (j < i)%nat -> items !! j = Some x -> f x = inr false.
Proof.
  revert i. induction items as [|x items IH]; intros i H; simpl in H; [done|].
  destruct (f x) as [e|[|]] eqn:Hx; simpl in H; [done| |].
  - injection H as <-. exists x. repeat split; [done|]. intros j y Hj. lia.
  - destruct (find_index f items) as [e|[i'|]] eqn:Hrest; simpl in H; try done.
    injection H as <-. destruct (IH i' eq_refl) as (item & Hi & Hf & Hbefore).
    exists item. repeat split; [done..|].
    intros [|j] y Hj Hy; simpl in Hy; [congruence|].
    apply (Hbefore j); [lia|done].
Qed.

(** The callback accepts exactly the objects whose [label] is a string that
    starts with [Home]. *)
Lemma label_starts_with_Home_true item :
  label_starts_with_Home item = inr true ->
  exists props s,
    item = JObj props /\ assoc "label" props = Some (JStr s)
    /\ startsWith "Home" s = true.
Proof.
  unfold label_starts_with_Home. destruct item as [| | | | |?|props]; try done.
  simpl. destruct (assoc "label" props) as [[]|] eqn:E; simpl; try done.
  intros [= H]. eauto.
Qed.

Section MenuSelection.

Variables (st : dstate) (site nav : jsval).
Hypothesis Hsite : SITE_DATA st !! "site" = Some site.
Hypothesis Hnav : get site "navigation" = inr nav.

Lemma select_menu_details fileName details :
  get nav "details_menu" = inr details ->
  includes mainPages fileName = false ->
  select_menu fileName st = (inr details, st).
Proof.
  intros Hd Hf. unfold select_menu. rewrite Hf.
  cbv [mbind M_bind SITE_DATA_at get_store mret M_ret liftM].
  by rewrite Hsite; simpl; rewrite Hnav, Hd.
Qed.

Lemma select_menu_main fileName main :
  get nav "main_menu" = inr main ->
  includes mainPages fileName = true ->
  fileName <> "printable_cv.html" ->
  select_menu fileName st = (inr main, st).
Proof.
  intros Hm Hf Hcv. unfold select_menu. rewrite Hf.
  apply String.eqb_neq in Hcv as ->.
  cbv [mbind M_bind SITE_DATA_at get_store mret M_ret liftM].
  by rewrite Hsite; simpl; rewrite Hnav, Hm.
Qed.

Lemma select_menu_cv_found items i :
  get nav "main_menu" = inr (JArr items) ->
  find_index label_starts_with_Home items = inr (Some i) ->
  select_menu "printable_cv.html" st
  = (inr (JArr (<[i := set_prop (default JUndefined (items !! i)) "url"
                                (JStr "./index.html#about")]> items)),
     mk_dstate
       (with_home_url site nav items i (JStr "./index.html#about") (SITE_DATA st))
       (pg st) (calls st)).
Proof.
  intros Hm Hfind. unfold select_menu.
  change (includes mainPages "printable_cv.html") with true.
  change (String.eqb "printable_cv.html" "printable_cv.html") with true.
  cbv [mbind M_bind SITE_DATA_at get_store set_store mret M_ret liftM].
  rewrite Hsite; simpl; rewrite Hnav, Hm. simpl. by rewrite Hfind.
Qed.


End MenuSelection.

(** What menu selection does to the state: nothing, except for the
    assignment to the url of the Home entry on the printable CV page. *)
Lemma select_menu_effect fileName st :
  let st' := snd (select_menu fileName st) in
  pg st' = pg st /\ calls st' = calls st
  /\ (SITE_DATA st' = SITE_DATA st
      \/ fileName = "printable_cv.html"
         /\ exists site nav items i,
              SITE_DATA st !! "site" = Some site
              /\ get site "navigation" = inr nav
              /\ get nav "main_menu" = inr (JArr items)
              /\ find_index label_starts_with_Home items = inr (Some i)
              /\ SITE_DATA st'
                 = with_home_url site nav items i (JStr "./index.html#about")
                     (SITE_DATA st)).
Proof.
  unfold select_menu.
  destruct (includes mainPages fileName) eqn:Hf.
  2:{ cbv [mbind M_bind SITE_DATA_at get_store mret M_ret liftM].
      destruct (get _ "navigation") as [e|nav]; simpl; [by auto|].
      by auto. }
  destruct (String.eqb_spec fileName "printable_cv.html") as [->|Hcv].
  2:{ cbv [mbind M_bind SITE_DATA_at get_store mret M_ret liftM].
      destruct (get _ "navigation") as [e|nav]; simpl; [by auto|].
      destruct (get nav "main_menu"); simpl; by auto. }
  cbv [mbind M_bind SITE_DATA_at get_store set_store mret M_ret liftM].
  destruct (SITE_DATA st !! "site") as [site|] eqn:Hsite; simpl; [|by auto].
  destruct (get site "navigation") as [e|nav] eqn:Hnav; simpl; [by auto|].
  destruct (get nav "main_menu") as [e|menu] eqn:Hmenu; simpl; [by auto|].
  destruct (as_array menu) as [e|items] eqn:Harr; simpl; [by auto|].
  destruct menu; try done. injection Harr as ->.
  destruct (find_index label_starts_with_Home items) as [e|[i|]] eqn:Hfind;
    simpl; [by auto| |by auto].
  split; [done|]. split; [done|]. right. split; [done|].
  by exists site, nav, items, i.
Qed.




(** ** The store after population *)

Lemma get_object v k props : get v k = inr (JObj props) -> exists ps, v = JObj ps.
Proof. destruct v; simpl; try done; eauto. Qed.

Lemma get_array v k items : get v k = inr (JArr items) -> exists ps, v = JObj ps.
Proof. destruct v; simpl; try done; eauto. Qed.

Lemma get_set_prop_same ps k v : get (set_prop (JObj ps) k v) k = inr v.
Proof. simpl. by rewrite assoc_set_same. Qed.

Lemma get_set_prop_other o k k' v : k <> k' -> get (set_prop o k v) k' = get o k'.
Proof. intros H. destruct o; simpl; try done. by rewrite assoc_set_other. Qed.

Lemma render_site_selects ext globals pathName st :
  render_site ext globals pathName st
  = (menuToRender ← select_menu (fileName_of pathName);
     render_core ext menuToRender;;
     render_sections ext (fileName_of pathName);;
     reinit_hooks globals) (logged st).
Proof. unfold render_site. by erewrite run_bind by reflexivity. Qed.

(** The dispatcher writes the store through the menu selection only. *)
Lemma dispatch_store ext globals pathName st :
  SITE_DATA (snd (dispatch ext globals pathName st))
  = if (0 <? size (SITE_DATA st))%nat
    then SITE_DATA (snd (select_menu (fileName_of pathName) (logged st)))
    else SITE_DATA st.
Proof.
  unfold dispatch. erewrite run_bind by reflexivity.
  destruct (0 <? size (SITE_DATA st))%nat; [|done].
  rewrite render_site_selects.
  destruct (select_menu (fileName_of pathName) (logged st)) as [[e|menu] st2] eqn:E.
  { by erewrite run_bind_throw by exact E. }
  erewrite run_bind by exact E.
  assert (Hrest : rendering_only
                    (render_core ext menu;;
                     render_sections ext (fileName_of pathName);;
                     reinit_hooks globals)).
  { apply rendering_only_bind; [apply rendering_only_render_core|intros _].
    apply rendering_only_bind; [apply rendering_only_render_sections|intros _].
    apply rendering_only_reinit_hooks. }
  by destruct (Hrest st2) as [-> _].
Qed.

Lemma store_with_site_not_empty (sd : gmap string jsval) site :
  sd !! "site" = Some site -> (0 <? size sd)%nat = true.
Proof. intros H. apply size_positive. intros ->. by rewrite lookup_empty in H. Qed.


(** C4, as the spec states it, fails: on the printable CV page the
    dispatcher assigns to the url of the Home entry of
    [SITE_DATA.site.navigation.main_menu], so the store after the dispatcher
    has run differs from the store the loader left. *)
Lemma dispatcher_mutates_store_on_cv :
  let st' := snd (dispatch no_render no_hooks "/printable_cv.html" loaded_state) in
  SITE_DATA loaded_state !! "site" = Some (sample_site "#hero")
  /\ SITE_DATA st' !! "site" = Some (sample_site "./index.html#about")
  /\ SITE_DATA st' <> SITE_DATA loaded_state.
Proof.
  assert (H1 : SITE_DATA loaded_state !! "site" = Some (sample_site "#hero"))
    by (by vm_compute).
  assert (H2 : SITE_DATA (snd (dispatch no_render no_hooks "/printable_cv.html"
                                 loaded_state)) !! "site"
               = Some (sample_site "./index.html#about"))
    by (by vm_compute).
  split; [done|]. split; [done|].
  intros Heq. rewrite Heq, H1 in H2.
  assert (Hurl : "#hero" = "./index.html#about"); [|by inversion Hurl].
  unfold sample_site, sample_navigation, home_item in H2. congruence.
Qed.

(** C4, amended.  Whatever the collaborators do, the store after the
    dispatcher is the store before it on every page but
    [printable_cv.html].  There, when [find] returns an entry of the main
    menu (the menu is an array, and the entries before the first whose label
    starts with [Home] have string labels), the store differs in the [url]
    of that entry only, which is [./index.html#about]: the entry keeps its
    other properties, the menu its other entries, the navigation and the
    site their other properties, and the store its other entries; the store
    has changed unless the url was that already.  When [find] returns no
    entry, or throws, the store is unchanged. *)
Theorem dispatch_store_effect ext globals pathName st :
  let sd := SITE_DATA st in
  let sd' := SITE_DATA (snd (dispatch ext globals pathName st)) in
  (fileName_of pathName <> "printable_cv.html" -> sd' = sd)
  /\ (forall site nav items i item,
        fileName_of pathName = "printable_cv.html" ->
        sd !! "site" = Some site ->
        get site "navigation" = inr nav ->
        get nav "main_menu" = inr (JArr items) ->
        find_index label_starts_with_Home items = inr (Some i) ->
        items !! i = Some item ->
        let home := set_prop item "url" (JStr "./index.html#about") in
        let nav' := set_prop nav "main_menu" (JArr (<[i := home]> items)) in
        let site' := set_prop site "navigation" nav' in
        sd' = <["site" := site']> sd
        /\ get site' "navigation" = inr nav'
        /\ get nav' "main_menu" = inr (JArr (<[i := home]> items))
        /\ (<[i := home]> items) !! i = Some home
        /\ get home "url" = inr (JStr "./index.html#about")
        /\ (forall k, k <> "url" -> get home k = get item k)
        /\ (forall j, j <> i -> (<[i := home]> items) !! j = items !! j)
        /\ (forall k, k <> "main_menu" -> get nav' k = get nav k)
        /\ (forall k, k <> "navigation" -> get site' k = get site k)
        /\ (forall k, k <> "site" -> sd' !! k = sd !! k)
        /\ (get item "url" <> inr (JStr "./index.html#about") -> sd' <> sd)
        /\ label_starts_with_Home item = inr true
        /\ (forall j x, (j < i)%nat -> items !! j = Some x ->
              label_starts_with_Home x = inr false))
  /\ (fileName_of pathName = "printable_cv.html" ->
      (forall site nav items i,
         sd !! "site" = Some site ->
         get site "navigation" = inr nav ->
         get nav "main_menu" = inr (JArr items) ->
         find_index label_starts_with_Home items <> inr (Some i)) ->
      sd' = sd).
Proof.
  intros sd sd'. subst sd sd'. rewrite dispatch_store.
  pose proof (select_menu_effect (fileName_of pathName) (logged st)) as Hsel.
  cbv zeta in Hsel. destruct Hsel as (_ & _ & Hsel). cbn [logged SITE_DATA] in Hsel.
  split; [|split].
  - intros Hcv. destruct (0 <? _)%nat; [|done].
    by destruct Hsel as [->|[? _]].
  - intros site nav items i item Hcv Hsite Hnav Hmain Hfind Hitem home nav' site'.
    rewrite (store_with_site_not_empty _ _ Hsite), Hcv.
    assert (Hsite' : SITE_DATA (logged st) !! "site" = Some site) by done.
    rewrite (select_menu_cv_found (logged st) site nav Hsite' Hnav items i Hmain Hfind).
    cbn [snd SITE_DATA logged]. unfold with_home_url. rewrite Hitem.
    cbn [from_option id]. fold home. fold nav'. fold site'.
    destruct (get_array _ _ _ Hmain) as [np ->].
    destruct (get_object _ _ _ Hnav) as [sp ->].
    destruct (find_index_first _ _ _ Hfind) as (item' & Hi & Hhome & Hbefore).
    rewrite Hitem in Hi. injection Hi as <-.
    destruct (label_starts_with_Home_true _ Hhome) as (props & s & -> & _ & _).
    assert (Hnav' : get site' "navigation" = inr nav').
    { unfold site'. apply get_set_prop_same. }
    assert (Hmain' : get nav' "main_menu" = inr (JArr (<[i := home]> items))).
    { unfold nav'. apply get_set_prop_same. }
    assert (Hi' : (<[i := home]> items) !! i = Some home).
    { apply list_lookup_insert_eq. by eapply lookup_lt_Some. }
    assert (Hurl : get home "url" = inr (JStr "./index.html#about")).
    { unfold home. apply get_set_prop_same. }
    split; [done|]. split; [done|]. split; [done|]. split; [done|]. split; [done|].
    split; [intros k Hk; by apply get_set_prop_other|].
    split; [intros j Hj; by apply list_lookup_insert_ne|].
    split; [intros k Hk; by apply get_set_prop_other|].
    split; [intros k Hk; by apply get_set_prop_other|].
    split; [intros k Hk; by apply lookup_insert_ne|].
    split; [|done].
    intros Hdiff Heq. apply Hdiff.
    assert (Hs : site' = JObj sp).
    { apply (f_equal (fun m => m !! "site")) in Heq.
      rewrite lookup_insert_eq, Hsite in Heq. congruence. }
    assert (Hn : nav' = JObj np).
    { rewrite Hs in Hnav'. rewrite Hnav in Hnav'. congruence. }
    rewrite Hn, Hmain in Hmain'.
    assert (Hitems : <[i := home]> items = items) by congruence.
    rewrite Hitems, Hitem in Hi'.
    assert (Hh : home = JObj props) by congruence.
    by rewrite <- Hh.
  - intros Hcv Hnone. destruct (0 <? _)%nat; [|done].
    destruct Hsel as [->|(_ & site & nav & items & i & H1 & H2 & H3 & H4 & _)];
      [done|].
    by destruct (Hnone site nav items i H1 H2 H3).
Qed.

(** C4 amended, on the loaded sample store: after the dispatcher has run on
    the printable CV page, the store is the loaded store with the url of the
    Home entry, which was [#hero], replaced. *)
Lemma dispatch_store_effect_witness :
  SITE_DATA (snd (dispatch no_render no_hooks "/printable_cv.html" loaded_state))
  = <["site" := sample_site "./index.html#about"]> (SITE_DATA loaded_state).
Proof.
  assert (Hsite : SITE_DATA loaded_state !! "site" = Some (sample_site "#hero"))
    by (by vm_compute).
  destruct (dispatch_store_effect no_render no_hooks "/printable_cv.html" loaded_state)
    as (_ & H & _).
  destruct (H (sample_site "#hero") (sample_navigation "#hero")
              [home_item "#hero"; about_item] 0%nat (home_item "#hero")
              eq_refl Hsite eq_refl eq_refl eq_refl eq_refl)
    as (-> & _).
  reflexivity.
Defined.

(** ** Menu selection policy *)









(** ** The calls a file name selects *)







(** ** A store without the site entry *)





(** ** Rendering after a failed load *)

(** The run in which [site.json] settles first and parses, and
    [personal_info.json] then answers 404. *)
Lemma failed_load_of_personal_info :
  loadAllData (failing_server "personal_info.json") site_first
    (page_load (sample_page true))
  = (inr tt,
     mk_dstate {[ "site" := sample_site "#hero" ]}
       (mk_page "Static title" (with_innerHTML error_notice (sample_body true))
          [(Log, "Starting data loading..."); (Error, "Error during data loading:")])
       []).
Proof.
  assert (E : await_all (failing_server "personal_info.json") site_first ∅
              = (Some (NotOk "Not Found"), {[ "site" := sample_site "#hero" ]})).
  { reflexivity. }
  by rewrite (loadAllData_rejected _ _ (page_load (sample_page true)) _ _ E).
Qed.

(** What a computation has recorded is still there after rendering code
    that follows it. *)
Lemma calls_prefix_bind {A B} (m : M A) (k : A -> M B) st evs :
  (forall x, rendering_only (k x)) ->
  (exists rest, calls (snd (m st)) = (evs ++ rest)%list) ->
  exists rest, calls (snd ((m ≫= k) st)) = (evs ++ rest)%list.
Proof.
  intros Hk [rest Hm]. unfold mbind, M_bind.
  destruct (m st) as [[e|x] st1]; simpl in *; [by exists rest|].
  destruct (Hk x st1) as [_ [more ->]]. rewrite Hm.
  exists (rest ++ more)%list. by rewrite app_assoc.
Qed.

(** [updateDocumentMetadata] returns when the title it is given has a string
    conversion. *)
Lemma updateDocumentMetadata_returns siteInfo sd p :
  (forall t, get siteInfo "title" = inr t -> exists s, ToString t = inr s) ->
  fst (updateDocumentMetadata siteInfo sd p) = inr tt.
Proof.
  intros Hs. unfold updateDocumentMetadata.
  destruct (truthy siteInfo) eqn:Ht; simpl; [|done].
  destruct (get_truthy siteInfo "title" Ht) as [t Hget].
  destruct (Hs t Hget) as [s Hstr].
  unfold mbind, R_bind, liftE. rewrite Hget.
  destruct (truthy t); cbn [negb]; [|done].
  unfold set_title, mbind, R_bind, liftE. by rewrite Hstr.
Qed.

(** With a [site] entry and no [personal_info] entry, the dispatcher's
    first three calls are entered whatever the collaborators do. *)
Lemma render_core_begins ext menu st site site_info footer_meta assets :
  SITE_DATA st !! "site" = Some site ->
  SITE_DATA st !! "personal_info" = None ->
  get site "site_info" = inr site_info ->
  (forall t, get site_info "title" = inr t -> exists s, ToString t = inr s) ->
  get site "footer_meta" = inr footer_meta ->
  get site "assets" = inr assets ->
  exists rest,
    calls (snd (render_core ext menu st))
    = ((calls st ++ [ Call UpdateDocumentMetadata [site_info];
                      Call RenderHeader [JUndefined; site];
                      Call RenderMenuFooter [footer_meta; assets] ]) ++ rest)%list.
Proof.
  intros Hsite Hpi Hinfo Htitle Hfm Hassets. unfold render_core.
  assert (Hat : forall k st', SITE_DATA st' = SITE_DATA st ->
            SITE_DATA_at k st' = (inr (default JUndefined (SITE_DATA st !! k)), st')).
  { intros k st' <-. reflexivity. }
  erewrite run_bind.
  2:{ erewrite run_bind by (by apply Hat). rewrite Hsite. simpl.
      unfold liftM. by rewrite Hinfo. }
  pose proof (updateDocumentMetadata_returns site_info (SITE_DATA st) (pg st) Htitle)
    as Hu.
  erewrite run_bind.
  2:{ rewrite run_call. unfold implementation, arg. cbn [nth]. by rewrite Hu. }
  erewrite run_bind by (by apply Hat). rewrite Hpi. simpl.
  erewrite run_bind by (by apply Hat). rewrite Hsite. simpl.
  erewrite run_bind by (by rewrite run_call).
  erewrite run_bind.
  2:{ erewrite run_bind by (by apply Hat). rewrite Hsite. simpl.
      unfold liftM. by rewrite Hfm. }
  erewrite run_bind.
  2:{ erewrite run_bind by (by apply Hat). rewrite Hsite. simpl.
      unfold liftM. by rewrite Hassets. }
  apply calls_prefix_bind.
  { intros _.
    repeat first
      [ apply rendering_only_SITE_DATA_at
      | apply rendering_only_call
      | apply rendering_only_liftM
      | apply rendering_only_bind; [|intros ?] ]. }
  rewrite run_call. cbn [snd calls]. exists []. by rewrite app_nil_r, <- !app_assoc.
Qed.

(** C1.  The code does not keep the invariant: [site.json] settles first
    and parses, [personal_info.json] then answers 404.  [loadAllData] puts
    the error notice in place of the body, but it leaves the entry of
    [site.json] in the store, the dispatcher finds the store not empty, and
    the render calls are entered, whatever the collaborators and hooks are.
    With collaborators that return, the whole index sequence runs and the
    dispatcher completes. *)
Theorem initializeSite_renders_after_failed_load :
  let fetch := failing_server "personal_info.json" in
  let start := page_load (sample_page true) in
  let loaded := snd (loadAllData fetch site_first start) in
  body (pg loaded) = with_innerHTML error_notice (sample_body true)
  /\ SITE_DATA loaded = {[ "site" := sample_site "#hero" ]}
  /\ (forall ext globals, exists rest,
        calls (snd (initializeSite ext globals fetch site_first "/index.html" start))
        = Call UpdateDocumentMetadata [JObj [("title", JStr "Portfolio")]]
            :: Call RenderHeader [JUndefined; sample_site "#hero"]
            :: Call RenderMenuFooter [JObj []; sample_assets] :: rest)
  /\ (let result :=
         initializeSite no_render no_hooks fetch site_first "/index.html" start in
       fst result = inr tt
       /\ title (pg (snd result)) = "Portfolio"
       /\ calls (snd result)
          = [ Call UpdateDocumentMetadata [JObj [("title", JStr "Portfolio")]];
              Call RenderHeader [JUndefined; sample_site "#hero"];
              Call RenderMenuFooter [JObj []; sample_assets];
              Call RenderPageFooter [JObj []];
              Call RenderNavigation
                [JObj [("main_menu", JArr [home_item "#hero"; about_item])]];
              Call RenderNavDropdowns [];
              Call RenderHero [JUndefined];
              Call RenderAbout [JUndefined];
              Call RenderKeyMetrics [JUndefined];
              Call RenderEducations [JUndefined];
              Call RenderProfessionalExperiences [JUndefined];
              Call RenderExpertiseAndAchievements [JUndefined];
              Call RenderSkillsTools [JUndefined];
              Call RenderHonorsAwards [JUndefined];
              Call RenderCoursesTrainingsCertificates [JUndefined];
              Call RenderProjects [JUndefined];
              Call RenderMemberships [JUndefined];
              Call RenderSessionsEvents [JUndefined];
              Call RenderLanguages [JUndefined];
              Call RenderPortfolios [JUndefined];
              Call RenderVolunteerings [JUndefined];
              Call RenderPublications [JUndefined] ]).
Proof.
  intros fetch start loaded. unfold loaded, fetch, start.
  rewrite failed_load_of_personal_info. cbn [snd pg body SITE_DATA].
  split; [done|]. split; [done|]. split; [|by vm_compute].
  intros ext globals. unfold initializeSite.
  erewrite run_bind by apply failed_load_of_personal_info.
  rewrite dispatch_nonempty_store by apply insert_non_empty.
  unfold render_site.
  erewrite run_bind by reflexivity.
  change (fileName_of "/index.html") with "index.html".
  set (st := mk_dstate _ _ _).
  assert (Hsite : SITE_DATA st !! "site" = Some (sample_site "#hero"))
    by apply lookup_singleton_eq.
  erewrite run_bind
    by (by apply (select_menu_main st _ _ Hsite eq_refl "index.html"
                    (JArr [home_item "#hero"; about_item]))).
  apply (calls_prefix_bind _ _ _ [_; _; _]).
  { intros ?. apply rendering_only_bind;
      [apply rendering_only_render_sections|intros ?].
    apply rendering_only_reinit_hooks. }
  apply (render_core_begins ext _ st (sample_site "#hero")); try done.
  intros t [= <-]. by eexists.
Qed.

(** ** The hooks *)

(** C9, as the spec states it, fails: with [initAOS] and [initPureCounter]
    undeclared the dispatcher completes, and the console has no entry about
    either of them; only a missing [initTypedAnimation] is logged.  And
    a hook that throws ends the dispatcher: [initAOS], though a function, is
    not invoked after [initTypedAnimation] has thrown. *)
Lemma missing_hooks_are_not_logged :
  let st := mk_dstate ∅ (sample_page true) [] in
  let result := reinit_hooks only_typed st in
  only_typed InitAOS = Undeclared
  /\ only_typed InitPureCounter = Undeclared
  /\ fst result = inr tt
  /\ console (pg (snd result))
     = [ (Log, "initTypedAnimation found! Rendering dynamic items on the site with loaded data...");
         (Log, "Dynamic rendering complete.") ]
  /\ Forall (fun entry => mentions "initAOS" (snd entry) = false
                          /\ mentions "initPureCounter" (snd entry) = false)
            (console (pg (snd result)))
  /\ is_function (typed_throws InitAOS) = true
  /\ calls (snd (reinit_hooks typed_throws st)) = [Invoke InitTypedAnimation].
Proof.
  intros st result.
  assert (E : console (pg (snd result))
              = [ (Log, "initTypedAnimation found! Rendering dynamic items on the site with loaded data...");
                  (Log, "Dynamic rendering complete.") ]) by reflexivity.
  split; [done|]. split; [done|]. split; [done|]. split; [done|].
  split; [|by split].
  rewrite E. repeat constructor.
Qed.

(** C9, amended.  When the hooks that are functions return, the dispatcher
    invokes exactly those, each once and in the order typing effect, scroll
    animation, counters, for every combination of present and absent hooks,
    and completes.  A missing [initTypedAnimation] is logged, with one log
    line and one warning; a missing [initAOS] or [initPureCounter] is skipped
    without a trace. *)
Theorem reinit_hooks_protocol globals st :
  (forall h run document, globals h = IsFunction run -> fst (run document) = inr tt) ->
  let result := reinit_hooks globals st in
  fst result = inr tt
  /\ calls (snd result)
     = (calls st
        ++ List.map Invoke (List.filter (fun h => is_function (globals h)) hooks))%list
  /\ console (pg (snd result))
     = (console (pg st)
        ++ (if is_function (globals InitTypedAnimation)
            then [(Log, "initTypedAnimation found! Rendering dynamic items on the site with loaded data...")]
            else [(Log, "initTypedAnimation not found! ");
                  (Warn, "initTypedAnimation not found. Ensure main.js is loaded and includes this global function.")])
        ++ [(Log, "Dynamic rendering complete.")])%list
  /\ SITE_DATA (snd result) = SITE_DATA st.
Proof.
  intros Hok result. unfold result, reinit_hooks, hooks.
  destruct (globals InitTypedAnimation) as [| |run1] eqn:E1;
    destruct (globals InitAOS) as [| |run2] eqn:E2;
    destruct (globals InitPureCounter) as [| |run3] eqn:E3;
    cbv [mbind M_bind mret M_ret invoke record rendering console_write];
    cbn [SITE_DATA pg calls title body console List.filter List.map is_function];
    rewrite ?E1, ?E2, ?E3; cbn [List.filter List.map is_function];
    repeat match goal with
           | Hg : globals ?h = IsFunction ?run |- context [?run ?document] =>
               let Hr := fresh "Hr" in
               pose proof (Hok h run document Hg) as Hr;
               destruct (run document) as [[?|[]] ?];
               cbn [fst] in Hr; [discriminate|];
               cbn [SITE_DATA pg calls title body console fst snd]
           end;
    cbn [fst snd SITE_DATA pg calls title body console];
    rewrite <- ?app_assoc, ?app_nil_r; repeat split; reflexivity.
Qed.

(** C9 amended, where only the typing-effect hook is defined. *)
Lemma reinit_hooks_protocol_witness :
  calls (snd (reinit_hooks only_typed (mk_dstate ∅ (sample_page true) [])))
  = [Invoke InitTypedAnimation].
Proof.
  refine (proj1 (proj2 (reinit_hooks_protocol only_typed
                          (mk_dstate ∅ (sample_page true) []) _))).
  intros [] run document H; by inversion H.
Defined.

(** ** The guards of the render calls *)

Lemma renderHeader_without_data personalInfo siteData sd p :
  truthy personalInfo = false \/ truthy siteData = false ->
  renderHeader personalInfo siteData sd p = (inr tt, p).
Proof. unfold renderHeader. by intros [-> | ->]; rewrite ?orb_true_r. Qed.


Lemma renderHero_without_data personalInfo sd p :
  truthy personalInfo = false -> renderHero personalInfo sd p = (inr tt, p).
Proof.
  intros H. unfold renderHero, mbind, R_bind, getElementById.
  destruct (getElementById_in _ _); by rewrite ?H.
Qed.


Lemma renderAbout_without_data personalInfo sd p :
  truthy personalInfo = false -> renderAbout personalInfo sd p = (inr tt, p).
Proof. intros H. unfold renderAbout. by rewrite H. Qed.

(** An assignment to [textContent] returns, or it throws a [TypeError] and
    leaves the page as it was. *)
Lemma set_textContent_outcome el v sd p :
  (exists p', set_textContent el v sd p = (inr tt, p'))
  \/ set_textContent el v sd p = (inl TypeError, p).
Proof.
  unfold set_textContent. remember (ToString v) as r eqn:Hr. symmetry in Hr.
  destruct v; try (left; by eexists); unfold mbind, R_bind, liftE;
    (destruct r as [e|s0];
     [right; by rewrite (ToString_throws _ _ Hr) | left; by eexists]).
Qed.

(** Without [siteData.assets], [renderHeader] throws on every page. *)
Lemma renderHeader_throws_without_assets personalInfo siteData sd p :
  truthy personalInfo = true -> truthy siteData = true ->
  get siteData "assets" = inr JUndefined ->
  fst (renderHeader personalInfo siteData sd p) = inl TypeError.
Proof.
  intros Hp Hs Ha. unfold renderHeader. rewrite Hp, Hs. cbn [negb orb].
  destruct (get_truthy personalInfo "name" Hp) as [name Hname].
  erewrite R_bind_inr by reflexivity.
  assert (Hassets : forall p1 (k : jsval -> R unit),
            fst ((liftE (assets ← get siteData "assets"; get assets "images") ≫= k) sd p1)
            = inl TypeError).
  { intros p1 k. erewrite R_bind_inl; [reflexivity|]. unfold liftE. by rewrite Ha. }
  destruct (querySelector_doc (body p) sel_header_sitename) as [el0|];
    cbn [when_found].
  - destruct (set_textContent_outcome el0 name sd p) as [[p' Hset]|Hset].
    + erewrite R_bind_inr; [apply Hassets|].
      erewrite R_bind_inr by (unfold liftE; rewrite Hname; reflexivity). exact Hset.
    + erewrite R_bind_inl; [reflexivity|].
      erewrite R_bind_inr by (unfold liftE; rewrite Hname; reflexivity). exact Hset.
  - erewrite R_bind_inr by reflexivity. apply Hassets.
Qed.

(** Without a heading in the hero section, [renderHero] throws and leaves
    the page as it was. *)
Lemma renderHero_throws_without_h2 personalInfo sd p hero heroData :
  getElementById_in (body p) "hero" = Some hero ->
  truthy personalInfo = true ->
  get personalInfo "hero" = inr heroData ->
  truthy heroData = true ->
  querySelector_in (body p) hero sel_h2 = None ->
  renderHero personalInfo sd p = (inl TypeError, p).
Proof.
  intros Hhero Hp Hdata Ht Hh2.
  unfold renderHero, mbind, R_bind, getElementById. rewrite Hhero, Hp.
  cbn [negb]. unfold liftE at 1. rewrite Hdata, Ht. cbn [negb].
  unfold querySelector at 1. by rewrite Hh2.
Qed.

(** C6.  The guards do not cover every malformed input.  On the sample
    index page [renderHeader] throws when [site.json] has no [assets];
    [renderHero] throws when the hero section has no [h2]; [renderAbout]
    throws when the profile summary has no key point lists.  With the
    missing part in place each of the three calls returns. *)
Theorem render_calls_throw_on_malformed_input :
  fst (renderHeader sample_personal_info site_without_assets ∅ (sample_page true))
  = inl TypeError
  /\ fst (renderHero sample_personal_info ∅ (sample_page false)) = inl TypeError
  /\ fst (renderAbout personal_info_without_key_points
            {[ "site" := sample_site "#hero" ]} (sample_page true))
     = inl TypeError
  /\ fst (renderHeader sample_personal_info (sample_site "#hero") ∅ (sample_page true))
     = inr tt
  /\ fst (renderHero sample_personal_info ∅ (sample_page true)) = inr tt
  /\ fst (renderAbout sample_personal_info
            {[ "site" := sample_site "#hero" ]} (sample_page true))
     = inr tt.
Proof. repeat split; by vm_compute. Qed.

(** ** Rendering twice *)

(** A second pass of a render call need not leave the document as the first
    pass left it.  On [nested_about_page] the first pass of [renderAbout]
    sets the source of the image it finds first and then overwrites the
    element that contains it; the second pass finds the other image. *)
Example renderAbout_second_pass_differs :
  let sd : gmap string jsval := {[ "site" := sample_site "#hero" ]} in
  let first := renderAbout sample_personal_info sd nested_about_page in
  let second := renderAbout sample_personal_info sd (snd first) in
  fst first = inr tt /\ fst second = inr tt
  /\ querySelectorAll_doc (body (snd first)) sel_col4_img = [[0; 1; 0]%nat]
  /\ body (snd second)
     = update_at [0; 1; 0]%nat (with_attribute "src" "assets/img/formal.png")
         (body (snd first))
  /\ body (snd second) <> body (snd first).
Proof.
  cbv zeta. split; [by vm_compute|]. split; [by vm_compute|].
  split; [by vm_compute|]. split; [by vm_compute|].
  intros H. vm_compute in H. congruence.
Qed.

(** ** The footers *)

(** X1.  [renderPageFooter] writes the document in its last statement only.
    It returns with the page as it was (a guard failed), or it throws a
    [TypeError] with the page as it was (one of the three fields it prints
    has no string conversion), or it returns having replaced the content of
    [#footer]: the title, the console and every other element are never
    touched. *)
Theorem renderPageFooter_replaces_footer_content footerMeta sd pg :
  renderPageFooter footerMeta sd pg = (inr tt, pg) \/
  (renderPageFooter footerMeta sd pg = (inl TypeError, pg) /\
   exists pageFooter k,
     get footerMeta "main_page_footer" = inr pageFooter /\
     k ∈ ["sitename"; "design_link"; "design_credit"] /\
     print pageFooter k = inl TypeError) \/
  exists el html,
    getElementById_in (body pg) "footer" = Some el /\
    renderPageFooter footerMeta sd pg =
      (inr tt, mk_page (title pg) (update_at el (with_innerHTML html) (body pg)) (console pg)).
Proof.
  unfold renderPageFooter.
  destruct (truthy footerMeta) eqn:Ht; cbn [negb]; [|by left].
  unfold mbind, R_bind, liftE, getElementById.
  destruct (get footerMeta "main_page_footer") as [e|pageFooter] eqn:Hget.
  { by destruct footerMeta. }
  destruct (truthy pageFooter); cbn [negb]; [|by left].
  destruct (getElementById_in (body pg) "footer") as [el|] eqn:Hel; cbn [when_found]; [|by left].
  destruct (print pageFooter "sitename") as [e|s1] eqn:H1.
  { right; left. pose proof (only_TypeError_print _ _ _ H1) as ->.
    split; [done|]. exists pageFooter, "sitename". set_solver. }
  destruct (print pageFooter "design_link") as [e|s2] eqn:H2.
  { right; left. pose proof (only_TypeError_print _ _ _ H2) as ->.
    split; [done|]. exists pageFooter, "design_link". set_solver. }
  destruct (print pageFooter "design_credit") as [e|s3] eqn:H3.
  { right; left. pose proof (only_TypeError_print _ _ _ H3) as ->.
    split; [done|]. exists pageFooter, "design_credit". set_solver. }
  right; right. eexists el, _. split; [done|]. reflexivity.
Qed.

Lemma renderMenuFooter_year_no_string
  currentYear footerMeta menuFooter configured assetData el sd pg :
  get footerMeta "menu_footer" = inr menuFooter ->
  get menuFooter "copyright_year" = inr configured ->
  truthy configured = true ->
  (forall s, configured <> JStr s) ->
  getElementById_in (body pg) "menu_footer" = Some el ->
  renderMenuFooter currentYear footerMeta assetData sd pg = (inl TypeError, pg).
Proof.
  intros Hmf Hc Ht Hs Hel.
  assert (Hmt : truthy menuFooter = true).
  { destruct menuFooter; simpl in Hc; try done; injection Hc as <-; done. }
  assert (Hft : truthy footerMeta = true).
  { destruct footerMeta; simpl in Hmf; try done; injection Hmf as <-; done. }
  unfold renderMenuFooter. rewrite Hft. cbn [negb].
  unfold mbind, R_bind, liftE, getElementById. rewrite Hmf. cbn beta iota.
  rewrite Hmt. cbn [negb]. rewrite Hel. cbn [when_found].
  unfold copyright_year_shown, mbind, E_bind. rewrite Hc, Ht.
  destruct configured; try done. by destruct (Hs s).
Qed.

(** X2.  A [copyright_year] that is truthy and not a string, such as the
    number 2024, has no [toUpperCase]: on a page with [#menu_footer],
    [renderMenuFooter] throws a [TypeError] before it has written or logged
    anything. *)
Theorem renderMenuFooter_rejects_year_that_is_no_string
  currentYear footerMeta menuFooter configured assetData el sd pg :
  get footerMeta "menu_footer" = inr menuFooter ->
  get menuFooter "copyright_year" = inr configured ->
  truthy configured = true ->
  (forall s, configured <> JStr s) ->
  getElementById_in (body pg) "menu_footer" = Some el ->
  renderMenuFooter currentYear footerMeta assetData sd pg = (inl TypeError, pg).
Proof. apply renderMenuFooter_year_no_string. Qed.

(** X2, for the year 2024 given as a number. *)
Lemma renderMenuFooter_rejects_year_that_is_no_string_witness :
  renderMenuFooter 2026 (sample_footer_meta (JNum 2024)) sample_assets ∅ sections_page
  = (inl TypeError, sections_page).
Proof.
  apply (renderMenuFooter_rejects_year_that_is_no_string 2026 _
           (sample_menu_footer (JNum 2024)) (JNum 2024) _ [0; 1]%nat);
    try reflexivity.
  intros s H. discriminate H.
Defined.

(** X3.  [renderMenuFooter] reads the clock, and logs that it does, exactly
    when the configured year is missing or falsy or spells [auto] in any
    letter case.  The log line is written before the assets and the links
    are read: it is there, and nothing else is, also when the call then
    throws. *)
Theorem renderMenuFooter_logs_reading_the_clock
  currentYear footerMeta menuFooter configured assetData el sd pg :
  get footerMeta "menu_footer" = inr menuFooter ->
  truthy menuFooter = true ->
  get menuFooter "copyright_year" = inr configured ->
  getElementById_in (body pg) "menu_footer" = Some el ->
  let pg' := snd (renderMenuFooter currentYear footerMeta assetData sd pg) in
  console pg' =
    (console pg ++
     if negb (truthy configured)
        || match configured with
           | JStr s => String.eqb (toUpperCase s) "AUTO"
           | _ => false
           end
     then [(Log, "Getting current year")]
     else [])%list.
Proof.
  intros Hmf Hmt Hc Hel.
  assert (Hft : truthy footerMeta = true).
  { destruct footerMeta; simpl in Hmf; try done; injection Hmf as <-; done. }
  cbv zeta. unfold renderMenuFooter. rewrite Hft. cbn [negb].
  unfold mbind at 1 2, R_bind at 1 2, liftE at 1, getElementById.
  rewrite Hmf. cbn beta iota. rewrite Hmt. cbn [negb]. rewrite Hel. cbn [when_found].
  unfold mbind at 1, R_bind at 1, liftE at 1.
  unfold copyright_year_shown, mbind at 1, E_bind. rewrite Hc. cbn beta iota.
  destruct (truthy configured) eqn:Ht; cbn [negb orb].
  - destruct configured as [| |b|n|s|items|props]; try done;
      try (cbn [snd console]; by rewrite app_nil_r).
    destruct (String.eqb (toUpperCase s) "AUTO") eqn:Es; cbn [mret E_ret fst].
    + etransitivity;
        [eapply console_after_bind; [reflexivity|keeps_console]|reflexivity].
    + rewrite app_nil_r.
      etransitivity;
        [eapply console_after_bind; [reflexivity|keeps_console]|reflexivity].
  - change (String.eqb (toUpperCase "AUTO") "AUTO") with true. cbn [mret E_ret fst].
    etransitivity;
      [eapply console_after_bind; [reflexivity|keeps_console]|reflexivity].
Qed.

(** X3, for a year configured as [Auto]. *)
Lemma renderMenuFooter_logs_reading_the_clock_witness :
  console (snd (renderMenuFooter 2026 (sample_footer_meta (JStr "Auto")) sample_assets ∅
                  sections_page))
  = [(Log, "Getting current year")].
Proof.
  apply (renderMenuFooter_logs_reading_the_clock 2026 (sample_footer_meta (JStr "Auto"))
           (sample_menu_footer (JStr "Auto")) (JStr "Auto") sample_assets [0; 1]%nat);
    reflexivity.
Defined.

(** ** The navigation menu *)

Section NavigationErrors.

Variable string_positive : string -> bool.

Lemma only_TypeError_nav_subitem_html x : only_TypeError (nav_subitem_html x).
Proof. unfold nav_subitem_html. only_TypeError_steps. Qed.

Lemma only_TypeError_has_submenu item :
  only_TypeError (has_submenu string_positive item).
Proof.
  unfold has_submenu.
  apply only_TypeError_bind; [apply only_TypeError_get|intros d].
  destruct (negb (truthy d)); [apply only_TypeError_ret|].
  apply only_TypeError_bind; [apply only_TypeError_get|intros s].
  destruct (negb (truthy s)); [apply only_TypeError_ret|].
  intros e. destruct s as [| |b|n|s|items|props]; simpl; try congruence.
  destruct (default JUndefined (assoc "length" props)) as [| |b|n|s|items|ps] eqn:El;
    unfold greater_than_zero; try congruence.
  - apply only_TypeError_bind;
      [apply only_TypeError_ToString|intros; apply only_TypeError_ret].
  - apply only_TypeError_bind;
      [apply only_TypeError_ToString|intros; apply only_TypeError_ret].
Qed.

Lemma only_TypeError_nav_item_html item :
  only_TypeError (nav_item_html string_positive item).
Proof.
  unfold nav_item_html.
  apply only_TypeError_bind; [apply only_TypeError_get|intros url].
  apply only_TypeError_bind; [apply only_TypeError_has_submenu|intros [|]].
  - repeat first
      [ apply only_TypeError_mapM; apply only_TypeError_nav_subitem_html
      | progress only_TypeError_steps ].
  - only_TypeError_steps.
Qed.

End NavigationErrors.

(** X4.  The markup of the menu is built before the one write.  A menu that
    is truthy and not an array, or an array with a [null] entry, makes
    [renderNavigation] throw a [TypeError] with the page as it was: the
    static menu stays. *)
Theorem renderNavigation_rejects_malformed_menu
  string_positive navigation menu el sd pg :
  get navigation "main_menu" = inr menu ->
  truthy menu = true ->
  getElementById_in (body pg) "navmenu" = Some el ->
  (forall items, menu = JArr items -> JNull ∈ items) ->
  renderNavigation string_positive navigation sd pg = (inl TypeError, pg).
Proof.
  intros Hm Ht Hel Hbad.
  assert (Hnt : truthy navigation = true).
  { destruct navigation; simpl in Hm; try done; injection Hm as <-; done. }
  unfold renderNavigation. rewrite Hnt. cbn [negb].
  unfold mbind at 1 2 3, R_bind, liftE, getElementById.
  rewrite Hm. cbn beta iota. rewrite Ht. cbn [negb]. rewrite Hel. cbn [when_found].
  assert (Hhtml : nav_html string_positive menu = inl TypeError).
  { unfold nav_html. destruct menu as [| |b|n|s|items|props]; try done.
    simpl. unfold mbind at 1, E_bind.
    rewrite (mapM_throws _ items JNull); try done.
    - apply only_TypeError_nav_item_html.
    - by apply Hbad. }
  by rewrite Hhtml.
Qed.

(** X4, for a menu given as an object instead of an array. *)
Lemma renderNavigation_rejects_malformed_menu_witness :
  renderNavigation (fun _ => false)
    (JObj [("main_menu", JObj [("Home", JStr "#hero")])]) ∅ sections_page
  = (inl TypeError, sections_page).
Proof.
  apply (renderNavigation_rejects_malformed_menu _ _ (JObj [("Home", JStr "#hero")])
           [0; 0]%nat); try reflexivity.
  intros items H. discriminate H.
Defined.

(** X5.  When [site.navigation] has no [details_menu], or a falsy one, menu
    selection on a page outside [mainPages] returns that value and leaves
    the state alone, and [renderNavigation], given the wrapper the
    dispatcher builds around it, returns without writing: a detail page
    keeps its static menu, and nothing is logged or thrown. *)
Theorem missing_details_menu_keeps_static_menu
  string_positive fileName site nav menu st :
  includes mainPages fileName = false ->
  SITE_DATA st !! "site" = Some site ->
  get site "navigation" = inr nav ->
  get nav "details_menu" = inr menu ->
  truthy menu = false ->
  select_menu fileName st = (inr menu, st)
  /\ forall sd pg,
       renderNavigation string_positive (JObj [("main_menu", menu)]) sd pg = (inr tt, pg).
Proof.
  intros Hf Hs Hn Hd Ht. split.
  - by apply (select_menu_details st site nav Hs Hn).
  - intros sd pg. unfold renderNavigation. cbn [truthy negb].
    change (get (JObj [("main_menu", menu)]) "main_menu") with (inr menu : E jsval).
    unfold mbind at 1, R_bind, liftE. by rewrite Ht.
Qed.

(** X5, for a store whose navigation has a main menu only. *)
Lemma missing_details_menu_keeps_static_menu_witness :
  let st := site_store (JObj [("navigation", navigation_without_details)])
              sections_page in
  select_menu "projects-details.html" st = (inr JUndefined, st)
  /\ renderNavigation (fun _ => false) (JObj [("main_menu", JUndefined)]) (SITE_DATA st)
       (pg st) = (inr tt, pg st).
Proof.
  intros st.
  destruct (missing_details_menu_keeps_static_menu (fun _ => false)
              "projects-details.html"
              (JObj [("navigation", navigation_without_details)])
              navigation_without_details JUndefined st) as [H1 H2];
    try reflexivity.
  split; [exact H1|apply H2].
Defined.

(** ** Key metrics *)

Lemma only_TypeError_metric_html item : only_TypeError (metric_html item).
Proof. unfold metric_html. only_TypeError_steps. Qed.

Lemma only_TypeError_metric_cv_html item : only_TypeError (metric_cv_html item).
Proof. unfold metric_cv_html. only_TypeError_steps. Qed.

Lemma fill_container_fails el f items sd pg :
  (forall x, only_TypeError (f x)) -> f JNull = inl TypeError -> JNull ∈ items ->
  fill_container el f (JArr items) sd pg =
    (inl TypeError,
     mk_page (title pg) (update_at el (with_innerHTML EmptyString) (body pg)) (console pg)).
Proof.
  intros Hf Hnull Hin. unfold fill_container.
  erewrite R_bind_inr by reflexivity.
  apply R_bind_inl. unfold liftE. cbn [as_array]. rewrite bind_inr.
  by rewrite (mapM_throws f items JNull).
Qed.

(** X6.  [renderKeyMetrics] empties its container before it builds the new
    markup.  When an entry of [metrics] is [null], the call throws a
    [TypeError] after the section header has been rewritten ([pg1]), and
    what it leaves is that page with the container emptied: the static
    metrics are gone and no metric is rendered.  The section header is
    missing or plain: its heading brings no element of the container's class
    into the section, so that the container is the one of the static
    page. *)
Theorem renderKeyMetrics_clears_container_before_failing
  PureCounter keyMetricsData items sectionInfo section pg1 container sd pg :
  get keyMetricsData "metrics" = inr (JArr items) ->
  get keyMetricsData "section_info" = inr sectionInfo ->
  (truthy sectionInfo = true -> plain_section_info "gy-4" sectionInfo) ->
  getElementById_in (body pg) "keyInfo" = Some section ->
  (write_heading (querySelector_in (body pg) section (sel_section_title "h2")) sectionInfo;;
   write_details (querySelector_in (body pg) section (sel_section_title "h6")) sectionInfo)
    sd pg = (inr tt, pg1) ->
  querySelector_in (body pg1) section sel_row_gy4 = Some container ->
  JNull ∈ items ->
  renderKeyMetrics PureCounter keyMetricsData sd pg =
    (inl TypeError,
     mk_page (title pg1)
             (update_at container (with_innerHTML EmptyString) (body pg1))
             (console pg1)).
Proof.
  intros Hm Hi _ Hsec Hhead Hc Hnull.
  assert (Ht : truthy keyMetricsData = true).
  { destruct keyMetricsData; simpl in Hm; try done. }
  unfold renderKeyMetrics. rewrite Ht. cbn [negb].
  erewrite R_bind_inr by (unfold liftE; rewrite Hm; reflexivity).
  cbn [isArray negb].
  erewrite R_bind_inr by (unfold getElementById; rewrite Hsec; reflexivity).
  cbn beta iota.
  erewrite R_bind_inr by (unfold liftE; rewrite Hi; reflexivity).
  erewrite R_bind_inr by (unfold querySelector; reflexivity).
  erewrite R_bind_inr by (unfold querySelector; reflexivity).
  apply R_bind_returns in Hhead as ([] & pg0 & Hh2 & Hh6).
  erewrite R_bind_inr by exact Hh2.
  erewrite R_bind_inr by exact Hh6.
  erewrite R_bind_inr by (unfold querySelector; rewrite Hc; reflexivity).
  cbn [when_found]. apply R_bind_inl.
  apply fill_container_fails; [apply only_TypeError_metric_html|done|done].
Qed.

(** X6, on the key metrics section of the index page, for metrics that
    hold one [null]: the row of the metrics is left empty. *)
Lemma renderKeyMetrics_clears_container_before_failing_witness :
  let out := renderKeyMetrics Undeclared (sample_key_metrics [JNull]) ∅ sections_page in
  fst out = inl TypeError
  /\ node_at [1; 0; 1; 0]%nat (body (snd out))
     = Some (el "div" EmptyString ["row"; "gy-4"] []).
Proof.
  intros out. subst out.
  rewrite (renderKeyMetrics_clears_container_before_failing Undeclared
             (sample_key_metrics [JNull]) [JNull] sample_section_info [1; 0]%nat
             (snd ((write_heading (Some [1; 0; 0; 0]%nat) sample_section_info;;
                    write_details (Some [1; 0; 0; 1]%nat) sample_section_info)
                     ∅ sections_page))
             [1; 0; 1; 0]%nat ∅ sections_page);
    [by vm_compute|reflexivity|reflexivity| |reflexivity|by vm_compute|by vm_compute
    |by left].
  intros _. exists "bi bi-graph-up", "Key Information".
  split; [reflexivity|]. split; [reflexivity|].
  split; [right; by exists "At a glance"|]. by repeat split.
Defined.

(** X7.  [renderKeyMetricsCV] looks for its container after [#keyInfo], not
    inside it.  When the next element sibling of the section is missing or
    has no class [row], the call rewrites the section header ([pg1]), logs
    one error and returns without rendering a metric, whatever the section
    contains. *)
Theorem renderKeyMetricsCV_needs_row_after_section
  keyMetricsData items sectionInfo section pg1 sd pg :
  get keyMetricsData "metrics" = inr (JArr items) ->
  get keyMetricsData "section_info" = inr sectionInfo ->
  getElementById_in (body pg) "keyInfo" = Some section ->
  (write_heading (querySelector_in (body pg) section (sel_section_title "h2")) sectionInfo;;
   write_details (querySelector_in (body pg) section (sel_section_title "p")) sectionInfo)
    sd pg = (inr tt, pg1) ->
  match nextElementSibling_in (body pg1) section with
  | Some el => classList_contains_in (body pg1) el "row" = false
  | None => True
  end ->
  renderKeyMetricsCV keyMetricsData sd pg =
    (inr tt,
     mk_page (title pg1) (body pg1) (console pg1 ++ [(Error, KeyMetricsCV_error)])).
Proof.
  intros Hm Hi Hsec Hhead Hsib.
  assert (Ht : truthy keyMetricsData = true).
  { destruct keyMetricsData; simpl in Hm; try done. }
  unfold renderKeyMetricsCV. rewrite Ht. cbn [negb].
  erewrite R_bind_inr by (unfold liftE; rewrite Hm; reflexivity).
  cbn [isArray negb].
  erewrite R_bind_inr by (unfold getElementById; rewrite Hsec; reflexivity).
  cbn beta iota.
  erewrite R_bind_inr by (unfold liftE; rewrite Hi; reflexivity).
  erewrite R_bind_inr by (unfold querySelector; reflexivity).
  erewrite R_bind_inr by (unfold querySelector; reflexivity).
  apply R_bind_returns in Hhead as ([] & pg0 & Hh2 & Hhp).
  erewrite R_bind_inr by exact Hh2.
  erewrite R_bind_inr by exact Hhp.
  erewrite R_bind_inr by (unfold nextElementSibling; reflexivity).
  destruct (nextElementSibling_in (body pg1) section) as [el|]; [|done].
  erewrite R_bind_inr by (unfold classList_contains; reflexivity).
  by rewrite Hsib.
Qed.

(** X7, on the index page, where the row lies inside the section and the
    section is followed by another section. *)
Lemma renderKeyMetricsCV_needs_row_after_section_witness :
  console (snd (renderKeyMetricsCV (sample_key_metrics []) ∅ sections_page))
  = [(Error, KeyMetricsCV_error)].
Proof.
  rewrite (renderKeyMetricsCV_needs_row_after_section
             (sample_key_metrics []) [] sample_section_info [1; 0]%nat
             (snd ((write_heading (Some [1; 0; 0; 0]%nat) sample_section_info;;
                    write_details None sample_section_info)
                     ∅ sections_page))
             ∅ sections_page);
    [reflexivity|reflexivity|reflexivity|reflexivity|by vm_compute|by vm_compute].
Defined.

(** ** Section headers *)

Lemma update_at_apart f p q n :
  apart p q = true -> node_at q (update_at p f n) = node_at q n.
Proof.
  revert q n. induction p as [|k p IH]; intros q n H; [done|].
  destruct q as [|j q]; [done|].
  destruct n as [t i c a ch| |]; [|done|done].
  simpl in H |- *. revert k j H.
  induction ch as [|x ch IHch]; intros [|k] [|j] H; simpl in *; try done.
  - by rewrite IH.
  - by apply IHch.
Qed.

Lemma below_apart scope el q :
  below scope el = true -> apart scope q = true -> apart el q = true.
Proof.
  revert el q. induction scope as [|i scope IH]; intros el q Hb Ha; [done|].
  destruct el as [|i' el]; [done|]. destruct q as [|j q]; [done|].
  simpl in *. apply andb_true_iff in Hb as [Hi Hb].
  apply Nat.eqb_eq in Hi as <-.
  destruct (Nat.eqb i j); [by apply IH|done].
Qed.

Lemma below_trans a b c : below a b = true -> below b c = true -> below a c = true.
Proof.
  revert b c. induction a as [|i a IH]; intros b c Hab Hbc.
  - destruct b; [done|]. by destruct c.
  - destruct b as [|j b]; [done|]. destruct c as [|k c]; [done|].
    simpl in *. apply andb_true_iff in Hab as [Hi Hab].
    apply andb_true_iff in Hbc as [Hj Hbc].
    apply Nat.eqb_eq in Hi as ->. rewrite Hj. simpl. by eapply IH.
Qed.

(** What a query on an element finds lies inside the element. *)
Lemma querySelector_in_below b scope s el :
  querySelector_in b scope s = Some el -> below scope el = true.
Proof.
  unfold querySelector_in, querySelectorAll_in.
  induction (document_order b) as [|[[p info] anc] l IH]; [done|].
  simpl. destruct (below scope p) eqn:Hb; simpl; [|exact IH].
  destruct (matches_compound _ _ && matches_left _ _); simpl; [|exact IH].
  by intros [= <-].
Qed.

Lemma only_inside_refl scope pg : only_inside scope pg pg.
Proof. by repeat split. Qed.

Lemma only_inside_trans scope a b c :
  only_inside scope a b -> only_inside scope b c -> only_inside scope a c.
Proof.
  intros (H1 & H2 & H3) (H4 & H5 & H6). repeat split; [congruence|congruence|].
  intros q Hq. by rewrite H6, H3.
Qed.

Lemma only_inside_write scope el f :
  below scope el = true -> preserves (only_inside scope) (write el f).
Proof.
  intros Hb sd pg. repeat split. intros q Hq. simpl.
  apply update_at_apart. by eapply below_apart.
Qed.

Lemma only_inside_write_heading scope el sectionInfo :
  (forall e, el = Some e -> below scope e = true) ->
  preserves (only_inside scope) (write_heading el sectionInfo).
Proof.
  intros Hb. unfold write_heading.
  apply (preserves_when_found _ (only_inside_refl scope)). intros e He.
  destruct (negb (truthy sectionInfo)); [apply (preserves_ret _ (only_inside_refl scope))|].
  apply (preserves_bind _ (only_inside_trans scope));
    [apply (preserves_liftE _ (only_inside_refl scope))|intros h].
  apply only_inside_write. by apply Hb.
Qed.

Lemma only_inside_set_textContent scope el v :
  below scope el = true -> preserves (only_inside scope) (set_textContent el v).
Proof.
  intros Hb. unfold set_textContent.
  destruct v; try (by apply only_inside_write);
    (apply (preserves_bind _ (only_inside_trans scope));
      [apply (preserves_liftE _ (only_inside_refl scope))|intros h];
     by apply only_inside_write).
Qed.

Lemma only_inside_write_details scope el sectionInfo :
  (forall e, el = Some e -> below scope e = true) ->
  preserves (only_inside scope) (write_details el sectionInfo).
Proof.
  intros Hb. unfold write_details.
  apply (preserves_when_found _ (only_inside_refl scope)). intros e He.
  destruct (negb (truthy sectionInfo)); [apply (preserves_ret _ (only_inside_refl scope))|].
  apply (preserves_bind _ (only_inside_trans scope));
    [apply (preserves_liftE _ (only_inside_refl scope))|intros h].
  apply only_inside_set_textContent. by apply Hb.
Qed.

(** X8.  Both expertise headers write inside [#expertiseAndAchievements]
    only: the title, the console and every element apart from the section
    are as before, whatever the data is and whether the call returns or
    throws. *)
Theorem expertise_headers_stay_in_their_section expertiseData section sd pg :
  getElementById_in (body pg) "expertiseAndAchievements" = Some section ->
  only_inside section pg (snd (renderExpertiseAndAchievements expertiseData sd pg))
  /\ only_inside section pg (snd (renderExpertiseAndAchievementsCV expertiseData sd pg)).
Proof.
  intros Hsec. split.
  - unfold renderExpertiseAndAchievements.
    destruct (truthy expertiseData) eqn:Ht; cbn [negb]; [|apply only_inside_refl].
    destruct (get_truthy _ "section_info" Ht) as [info Hi].
    erewrite R_bind_inr by (unfold liftE; rewrite Hi; reflexivity). cbn beta iota.
    destruct (negb (truthy info)); [apply only_inside_refl|].
    erewrite R_bind_inr by (unfold getElementById; rewrite Hsec; reflexivity).
    cbn beta iota.
    erewrite R_bind_inr by (unfold querySelector; reflexivity).
    destruct (querySelector_in (body pg) section sel_section_title_box) as [box|] eqn:Hbox;
      [|apply only_inside_refl].
    apply querySelector_in_below in Hbox.
    erewrite R_bind_inr by (unfold querySelector; reflexivity).
    erewrite R_bind_inr by (unfold querySelector; reflexivity).
    apply (preserves_bind _ (only_inside_trans section)).
    + apply only_inside_write_heading. intros e He.
      apply querySelector_in_below in He. by eapply below_trans.
    + intros _. apply only_inside_write_details. intros e He.
      apply querySelector_in_below in He. by eapply below_trans.
  - unfold renderExpertiseAndAchievementsCV.
    destruct (truthy expertiseData) eqn:Ht; cbn [negb]; [|apply only_inside_refl].
    destruct (get_truthy _ "section_info" Ht) as [info Hi].
    erewrite R_bind_inr by (unfold liftE; rewrite Hi; reflexivity). cbn beta iota.
    destruct (negb (truthy info)); [apply only_inside_refl|].
    erewrite R_bind_inr by (unfold getElementById; rewrite Hsec; reflexivity).
    cbn beta iota.
    erewrite R_bind_inr by (unfold querySelector; reflexivity).
    erewrite R_bind_inr by (unfold querySelector; reflexivity).
    apply (preserves_bind _ (only_inside_trans section)).
    + apply only_inside_write_heading. intros e He.
      by apply querySelector_in_below in He.
    + intros _. apply only_inside_write_details. intros e He.
      by apply querySelector_in_below in He.
Qed.

(** X8, on the sample page: the footer is as before. *)
Lemma expertise_headers_stay_in_their_section_witness :
  node_at [2]%nat
    (body (snd (renderExpertiseAndAchievements
                  (JObj [("section_info", sample_section_info)]) ∅ sections_page)))
  = Some (el "footer" "footer" ["footer"] []).
Proof.
  destruct (expertise_headers_stay_in_their_section
              (JObj [("section_info", sample_section_info)]) [1; 1]%nat ∅ sections_page)
    as [(_ & _ & H) _]; [reflexivity|].
  rewrite (H [2]%nat); reflexivity.
Defined.

(** ** The profile summary of the printable page *)

(** X9.  [renderAboutCV] reads [SITE_DATA.site.assets.documents.resume_pdf]
    before any guard on the assets: when the assets have no [documents]
    entry, on a page with [#main_cv] the call throws a [TypeError] and
    leaves the page as it was. *)
Theorem renderAboutCV_throws_without_documents
  native_source personalInfo cvContainer site assets documents sd pg :
  truthy personalInfo = true ->
  getElementById_in (body pg) "main_cv" = Some cvContainer ->
  sd !! "site" = Some site ->
  get site "assets" = inr assets ->
  get assets "documents" = inr documents ->
  documents = JUndefined \/ documents = JNull ->
  renderAboutCV native_source personalInfo sd pg = (inl TypeError, pg).
Proof.
  intros Ht Hcv Hsite Ha Hd Hnone.
  unfold renderAboutCV. rewrite Ht. cbn [negb].
  erewrite R_bind_inr by (unfold getElementById; rewrite Hcv; reflexivity).
  cbn beta iota.
  destruct (get_truthy personalInfo "profile_summary" Ht) as [summaryData Hp].
  erewrite R_bind_inr by (unfold liftE; rewrite Hp; reflexivity).
  erewrite R_bind_inr by (unfold site_data; rewrite Hsite; reflexivity).
  cbn [from_option id].
  erewrite R_bind_inr by (unfold liftE; rewrite Ha; reflexivity).
  apply R_bind_inl. unfold liftE. rewrite Hd, bind_inr.
  by destruct Hnone as [-> | ->].
Qed.

(** X9, for the sample assets, which have images and icons only. *)
Lemma renderAboutCV_throws_without_documents_witness :
  renderAboutCV (fun _ => EmptyString) sample_personal_info
    {["site" := sample_site "#hero"]} cv_page
  = (inl TypeError, cv_page).
Proof.
  apply (renderAboutCV_throws_without_documents _ _ [0]%nat (sample_site "#hero")
           sample_assets JUndefined); try reflexivity.
  by left.
Defined.

(** ** After the error notice *)












(** ** What the loader changes *)

(** X11.  Whenever the join settles, [loadAllData] returns normally, from
    every state and whatever the chains have settled to; it leaves the title
    and the call history alone; and every store entry it changes is the base
    name of a file whose fetch succeeded, and holds the data of such a file:
    the loader never removes an entry. *)
Theorem loadAllData_only_adds_what_it_fetched fetch settled st :
  settles fetch settled ->
  let out := loadAllData fetch settled st in
  fst out = inr tt
  /\ title (pg (snd out)) = title (pg st)
  /\ calls (snd out) = calls st
  /\ forall k,
       SITE_DATA (snd out) !! k = SITE_DATA st !! k
       \/ exists fileName data,
            fileName ∈ settled /\ fetch (data_url fileName) = Ok data
            /\ k = baseName fileName /\ SITE_DATA (snd out) !! k = Some data.
Proof.
  intros _. cbv zeta.
  pose proof (await_all_only_adds fetch settled (SITE_DATA st)) as Hadd.
  destruct (await_all fetch settled (SITE_DATA st)) as [[r|] sd'] eqn:E.
  - rewrite (loadAllData_rejected _ _ _ _ _ E). by repeat split.
  - rewrite (loadAllData_fulfilled _ _ _ _ E). by repeat split.
Qed.

(** X11, at the load in which [site.json] answers 404: the loader returns
    and the title is the static one. *)
Lemma loadAllData_only_adds_what_it_fetched_witness :
  let out := loadAllData (failing_server "site.json") JSON_FILES
               (page_load (sample_page true)) in
  fst out = inr tt /\ title (pg (snd out)) = "Static title".
Proof.
  destruct (loadAllData_only_adds_what_it_fetched (failing_server "site.json")
              JSON_FILES (page_load (sample_page true)))
    as (H1 & H2 & _).
  - left. exists "site.json". split; [unfold JSON_FILES; right; left|by vm_compute].
  - by split.
Defined.

(** ** The file name *)

Lemma last_slash s :
  occurs "/" s = false
  \/ exists dir name, s = dir +:+ "/" +:+ name /\ occurs "/" name = false.
Proof.
  induction s as [|a s IH]; [by left|].
  destruct IH as [Hno | (dir & name & -> & Hname)].
  - simpl. destruct (Ascii.eqb a "/") eqn:Ea; [|by left].
    right. apply Ascii.eqb_eq in Ea as ->. by exists EmptyString, s.
  - right. by exists (String a dir), name.
Qed.

(** X12.  The file name the dispatcher works with contains no slash, and
    the path is a directory part, empty or ending in a slash, followed by
    that name: nothing of the path is lost or invented. *)
Theorem fileName_of_is_the_last_segment pathName :
  occurs "/" (fileName_of pathName) = false
  /\ exists dir,
       pathName = dir +:+ fileName_of pathName
       /\ (dir = EmptyString \/ exists d, dir = d +:+ "/").
Proof.
  destruct (last_slash pathName) as [Hno | (dir & name & -> & Hname)].
  - rewrite (fileName_of_no_slash _ Hno). split; [done|].
    exists EmptyString. split; [done|by left].
  - rewrite (fileName_of_segment _ _ Hname). split; [done|].
    exists (dir +:+ "/"). split; [by rewrite append_assoc|]. right. by exists dir.
Qed.

(** ** Menu selection twice *)

Lemma assoc_set_idem k v props :
  assoc_set k v (assoc_set k v props) = assoc_set k v props.
Proof.
  induction props as [|[k' v'] props IH]; simpl.
  - by rewrite String.eqb_refl.
  - destruct (String.eqb k k') eqn:E; simpl; rewrite E; [done|by rewrite IH].
Qed.

Lemma set_prop_idem o k v : set_prop (set_prop o k v) k v = set_prop o k v.
Proof. destruct o; simpl; try done. by rewrite assoc_set_idem. Qed.

Lemma label_after_set_url item v :
  label_starts_with_Home (set_prop item "url" v) = label_starts_with_Home item.
Proof.
  destruct item as [| | | | | |props]; try done.
  unfold label_starts_with_Home. simpl. by rewrite assoc_set_other.
Qed.

Lemma find_index_after_set_url items i v :
  find_index label_starts_with_Home items = inr (Some i) ->
  find_index label_starts_with_Home
    (<[i := set_prop (default JUndefined (items !! i)) "url" v]> items) = inr (Some i).
Proof.
  revert i. induction items as [|x items IH]; intros i H; simpl in H; [done|].
  destruct (label_starts_with_Home x) as [e|[|]] eqn:Hx; simpl in H; [done| |].
  - injection H as <-. simpl. by rewrite label_after_set_url, Hx.
  - destruct (find_index label_starts_with_Home items) as [e|[i'|]] eqn:Hrest;
      simpl in H; try done.
    injection H as <-. simpl. rewrite Hx. simpl. by rewrite (IH i' eq_refl).
Qed.

(** X13.  Menu selection is idempotent: run again on the state it left, it
    returns the same menu and changes nothing.  On the printable page the
    assignment to the url of the Home entry is the same assignment the
    second time. *)
Theorem select_menu_is_idempotent fileName st menu st1 :
  select_menu fileName st = (inr menu, st1) ->
  select_menu fileName st1 = (inr menu, st1).
Proof.
  intros H.
  destruct (select_menu_effect fileName st) as (Hpg & Hcalls & Hstore).
  rewrite H in Hpg, Hcalls, Hstore. cbn [snd] in *.
  destruct Hstore as [Hsame | (-> & site & nav & items & i & Hsite & Hnav & Hmenu & Hfind & Hst1)].
  { assert (st1 = st) as -> by (destruct st, st1; simpl in *; congruence). done. }
  rewrite (select_menu_cv_found st site nav Hsite Hnav items i Hmenu Hfind) in H.
  injection H as <- <-.
  set (v := JStr "./index.html#about").
  destruct (find_index_first _ _ _ Hfind) as (item & Hi & Hitem & _).
  set (item' := set_prop (default JUndefined (items !! i)) "url" v).
  set (items' := <[i := item']> items).
  assert (Hi' : items' !! i = Some item').
  { apply list_lookup_insert_eq. by eapply lookup_lt_Some. }
  destruct nav as [| | | | | |nprops]; try done.
  destruct site as [| | | | | |sprops]; try done.
  set (nav' := set_prop (JObj nprops) "main_menu" (JArr items')).
  set (site' := set_prop (JObj sprops) "navigation" nav').
  set (st1 := mk_dstate (with_home_url (JObj sprops) (JObj nprops) items i v (SITE_DATA st))
                (pg st) (calls st)).
  assert (Hsite1 : SITE_DATA st1 !! "site" = Some site').
  { unfold st1, with_home_url. simpl. by rewrite lookup_insert_eq. }
  assert (Hnav1 : get site' "navigation" = inr nav').
  { unfold site'. simpl. by rewrite assoc_set_same. }
  assert (Hmenu1 : get nav' "main_menu" = inr (JArr items')).
  { unfold nav'. simpl. by rewrite assoc_set_same. }
  rewrite (select_menu_cv_found st1 site' nav' Hsite1 Hnav1 items' i Hmenu1
             (find_index_after_set_url items i v Hfind)).
  fold v. rewrite Hi'. cbn [from_option id].
  assert (Hitem' : set_prop item' "url" v = item') by apply set_prop_idem.
  rewrite Hitem'.
  assert (Hitems' : <[i := item']> items' = items').
  { unfold items'. apply list_insert_insert_eq. }
  rewrite Hitems'. f_equal. unfold st1 at 2. f_equal.
  unfold with_home_url. rewrite Hi'. cbn [from_option id].
  rewrite Hitem', Hitems'.
  fold nav'. unfold nav' at 1. rewrite set_prop_idem. fold nav'.
  fold site'. unfold site' at 1. rewrite set_prop_idem. fold site'.
  unfold st1. cbn [SITE_DATA]. unfold with_home_url. fold item' items' nav' site'.
  apply insert_insert_eq.
Qed.

(** X13, on the printable page. *)
Lemma select_menu_is_idempotent_witness :
  let out := select_menu "printable_cv.html"
               (site_store (sample_site "#hero") (sample_page true)) in
  select_menu "printable_cv.html" (snd out) = out.
Proof.
  intros out.
  rewrite (select_menu_is_idempotent "printable_cv.html"
             (site_store (sample_site "#hero") (sample_page true))
             (JArr [home_item "./index.html#about"; about_item]) (snd out));
    [by vm_compute|by vm_compute].
Defined.

(** ** The order of the calls *)




Section Plan.

Variable ext : renderer -> list jsval -> R unit.
Variable globals : hook -> binding.











End Plan.


(** ** A failing call and the rest of the page *)

(** X15.  With the modelled functions in the dispatcher: on a main page
    other than the printable one, when [updateDocumentMetadata] has returned
    ([pg1]), the header has rendered ([pg2]) and
    [site.footer_meta.menu_footer.copyright_year] is truthy and not a
    string, the [TypeError] of [renderMenuFooter] leaves the dispatcher.
    Three calls were entered; the page footer, the navigation menu, every
    section and every hook are never reached, and the page stays as the
    header left it. *)
Theorem copyright_year_that_is_no_string_stops_the_page
  currentYear string_positive native_source PureCounter other globals pathName
  st site nav menu site_info footer_meta assets menuFooter configured pg1 pg2 el :
  let ext := with_modelled currentYear string_positive native_source PureCounter other in
  let sd := SITE_DATA st in
  let personal_info := default JUndefined (sd !! "personal_info") in
  includes mainPages (fileName_of pathName) = true ->
  fileName_of pathName <> "printable_cv.html" ->
  sd !! "site" = Some site ->
  get site "navigation" = inr nav ->
  get nav "main_menu" = inr menu ->
  get site "site_info" = inr site_info ->
  get site "assets" = inr assets ->
  get site "footer_meta" = inr footer_meta ->
  get footer_meta "menu_footer" = inr menuFooter ->
  get menuFooter "copyright_year" = inr configured ->
  truthy configured = true ->
  (forall s, configured <> JStr s) ->
  updateDocumentMetadata site_info sd
    (mk_page (title (pg st)) (body (pg st))
       (console (pg st) ++ [(Log, "Rendering site with loaded data...")]))
  = (inr tt, pg1) ->
  renderHeader personal_info site sd pg1 = (inr tt, pg2) ->
  getElementById_in (body pg2) "menu_footer" = Some el ->
  dispatch ext globals pathName st
  = (inl TypeError,
     mk_dstate sd pg2
       (calls st ++ [ Call UpdateDocumentMetadata [site_info];
                      Call RenderHeader [personal_info; site];
                      Call RenderMenuFooter [footer_meta; assets] ])).
Proof.
  intros ext sd personal_info Hmain Hcv Hsite Hnav Hmenu Hinfo Hassets Hfm Hmf Hyear Ht Hs
    Hmeta Hheader Hel.
  assert (Hne : (0 <? size sd)%nat = true).
  { apply Nat.ltb_lt. destruct (decide (size sd = 0%nat)) as [H0|]; [|lia].
    apply map_size_empty_iff in H0. rewrite H0 in Hsite. done. }
  unfold dispatch. erewrite run_bind by reflexivity. fold sd. rewrite Hne.
  unfold render_site.
  erewrite run_bind by reflexivity.
  match goal with |- (select_menu _ ≫= _) ?s = _ => remember s as st0 eqn:Hst0 end.
  assert (Hsd0 : SITE_DATA st0 = sd) by (by subst st0).
  assert (Hpg0 : pg st0 = mk_page (title (pg st)) (body (pg st))
                            (console (pg st) ++ [(Log, "Rendering site with loaded data...")]))
    by (by subst st0).
  assert (Hcalls0 : calls st0 = calls st) by (by subst st0).
  clear Hst0.
  assert (Hsite0 : SITE_DATA st0 !! "site" = Some site) by (by rewrite Hsd0).
  erewrite run_bind
    by (apply (select_menu_main st0 _ nav Hsite0 Hnav _ menu Hmenu Hmain Hcv)).
  assert (Hat : forall k st', SITE_DATA st' = sd ->
            SITE_DATA_at k st' = (inr (default JUndefined (sd !! k)), st')).
  { intros k st' <-. reflexivity. }
  cbn beta. apply run_bind_throw. unfold render_core.
  erewrite run_bind.
  2:{ erewrite run_bind by (by apply Hat). rewrite Hsite. cbn [from_option id].
      unfold liftM. by rewrite Hinfo. }
  erewrite run_bind.
  2:{ rewrite run_call. unfold implementation, arg. cbn [nth].
      rewrite Hsd0, Hpg0, Hmeta. reflexivity. }
  erewrite run_bind by (by apply Hat).
  erewrite run_bind by (by apply Hat). rewrite Hsite. cbn [from_option id].
  rewrite Hcalls0. fold personal_info.
  erewrite run_bind.
  2:{ rewrite run_call. unfold implementation, arg. cbn [nth SITE_DATA pg snd].
      rewrite Hheader. reflexivity. }
  erewrite run_bind.
  2:{ erewrite run_bind by (by apply Hat). rewrite Hsite. cbn [from_option id].
      unfold liftM. by rewrite Hfm. }
  erewrite run_bind.
  2:{ erewrite run_bind by (by apply Hat). rewrite Hsite. cbn [from_option id].
      unfold liftM. by rewrite Hassets. }
  apply run_bind_throw. rewrite run_call.
  unfold implementation, ext, with_modelled, arg. cbn [nth SITE_DATA pg calls snd].
  rewrite (renderMenuFooter_year_no_string currentYear footer_meta
             menuFooter configured assets el sd pg2 Hmf Hyear Ht Hs Hel).
  cbn [fst snd]. by rewrite <- !app_assoc.
Qed.

(** X15, on the index page, for a [site.json] whose footer gives the year
    as the number 2024. *)
Lemma copyright_year_that_is_no_string_stops_the_page_witness :
  let st := site_store (site_with_footer (JNum 2024)) sections_page in
  let out := dispatch (with_modelled 2026 (fun _ => false) (fun _ => EmptyString)
                         Undeclared no_render) no_hooks "/index.html" st in
  fst out = inl TypeError
  /\ List.map entered (calls (snd out))
     = [inl UpdateDocumentMetadata; inl RenderHeader; inl RenderMenuFooter].
Proof.
  intros st out. subst out.
  rewrite (copyright_year_that_is_no_string_stops_the_page
             2026 (fun _ => false) (fun _ => EmptyString) Undeclared no_render no_hooks
             "/index.html" st (site_with_footer (JNum 2024)) (sample_navigation "#hero")
             (JArr [home_item "#hero"; about_item]) (JObj [("title", JStr "Portfolio")])
             (sample_footer_meta (JNum 2024)) sample_assets
             (sample_menu_footer (JNum 2024)) (JNum 2024)
             (snd (updateDocumentMetadata (JObj [("title", JStr "Portfolio")])
                     (SITE_DATA st)
                     (mk_page (title (pg st)) (body (pg st))
                        (console (pg st)
                         ++ [(Log, "Rendering site with loaded data...")]))))
             (snd (renderHeader JUndefined (site_with_footer (JNum 2024)) (SITE_DATA st)
                     (snd (updateDocumentMetadata (JObj [("title", JStr "Portfolio")])
                             (SITE_DATA st)
                             (mk_page (title (pg st)) (body (pg st))
                                (console (pg st)
                                 ++ [(Log, "Rendering site with loaded data...")]))))))
             [0; 1]%nat);
    [ by vm_compute | reflexivity | by vm_compute | by vm_compute | reflexivity
    | reflexivity | reflexivity | reflexivity | reflexivity | reflexivity | reflexivity
    | reflexivity | (intros s H; discriminate H) | by vm_compute | by vm_compute
    | by vm_compute ].
Defined.

(** ** Detail pages *)

Lemma preserves_read {A} (P : page -> page -> Prop) (m : R A) :
  (forall pg, P pg pg) -> (forall sd pg, snd (m sd pg) = pg) -> preserves P m.
Proof. intros HP Hm sd pg. rewrite Hm. apply HP. Qed.

Lemma same_title_refl pg : same_title pg pg.
Proof. done. Qed.

Lemma same_title_trans a b c : same_title a b -> same_title b c -> same_title a c.
Proof. unfold same_title. congruence. Qed.

Lemma same_title_write el f : preserves same_title (write el f).
Proof. by intros sd pg. Qed.

Lemma same_console_write_title s : preserves same_console (write_title s).
Proof. by intros sd pg. Qed.

Lemma same_console_held_set_innerHTML h s :
  preserves same_console (held_set_innerHTML h s).
Proof. destruct h; by intros sd pg. Qed.

Lemma same_title_held_set_innerHTML h s :
  preserves same_title (held_set_innerHTML h s).
Proof. destruct h; by intros sd pg. Qed.

(** Steps through a render call that keeps what [refl], [trans] and [write]
    speak of. *)
Ltac keeps refl trans write held_write :=
  repeat first
    [ apply write
    | apply held_write
    | apply (preserves_ret _ refl)
    | apply (preserves_liftE _ refl)
    | apply (preserves_read _ _ refl); reflexivity
    | apply (preserves_when_found _ refl); intros ? ?
    | apply (preserves_bind _ trans); [|intros ?]
    | match goal with
      | |- preserves _ (if ?b then _ else _) => destruct b
      | |- preserves _ (match ?x with Some _ => _ | None => _ end) => destruct x
      end ].

Lemma same_console_update_page_header sectionInfo h :
  preserves same_console (update_page_header sectionInfo h).
Proof.
  unfold update_page_header, set_innerHTML, set_textContent.
  keeps same_console_refl same_console_trans same_console_write
        same_console_held_set_innerHTML.
  apply same_console_write_title.
  all: keeps same_console_refl same_console_trans same_console_write
        same_console_held_set_innerHTML.
Qed.

Ltac keeps_console_held :=
  keeps same_console_refl same_console_trans same_console_write
        same_console_held_set_innerHTML.
Ltac keeps_title :=
  keeps same_title_refl same_title_trans same_title_write
        same_title_held_set_innerHTML.

Lemma same_console_fill_rows rows f items :
  preserves same_console (fill_rows rows f items).
Proof. unfold fill_rows. keeps_console_held. Qed.

Lemma same_title_fill_rows rows f items :
  preserves same_title (fill_rows rows f items).
Proof. unfold fill_rows. keeps_title. Qed.

(** The part of a detail page after its container is found: it logs
    [on_row], if anything. *)
Lemma console_after_container sectionInfo c (on_row : R unit) f items sd pg msg :
  (forall sd pg, on_row sd pg = (inr tt, pg) \/ on_row sd pg = console_out Error msg sd pg) ->
  let pg' := snd ((container ← update_page_header sectionInfo (InDocument c);
                   detailsContainer ← held_querySelector container [ByClass "row"];
                   match detailsContainer with
                   | None => on_row
                   | Some rows => fill_rows rows f items
                   end) sd pg) in
  console pg' = console pg \/ console pg' = (console pg ++ [(Error, msg)])%list.
Proof.
  intros Hrow pg'. subst pg'.
  pose proof (same_console_update_page_header sectionInfo (InDocument c) sd pg) as Hh.
  destruct (update_page_header sectionInfo (InDocument c) sd pg) as [[e|h] pg1] eqn:Hu;
    simpl in Hh; unfold same_console in Hh.
  { rewrite (R_bind_inl _ _ _ _ _ _ Hu). by left. }
  rewrite (R_bind_inr _ _ _ _ _ _ Hu), <- Hh.
  destruct (held_querySelector h [ByClass "row"] sd pg1) as [r pg2] eqn:Hq.
  assert (pg2 = pg1 /\ exists o, r = inr o) as [-> [o ->]].
  { unfold held_querySelector in Hq. injection Hq as <- <-. eauto. }
  rewrite (R_bind_inr _ _ _ _ _ _ Hq).
  destruct o as [rows|].
  - left. apply same_console_fill_rows.
  - destruct (Hrow sd pg1) as [-> | ->]; [by left|by right].
Qed.

(** X17.  [renderProjectsDetails] and [renderMembershipsDetails] never write
    to the console, whether they return early, complete or throw: a page
    they leave empty gives no hint why.  [renderPortfoliosDetails] appends
    nothing or exactly one error, one of its three messages. *)
Theorem detail_pages_log_one_error_at_most data sd pg :
  console (snd (renderProjectsDetails data sd pg)) = console pg /\
  console (snd (renderMembershipsDetails data sd pg)) = console pg /\
  exists msgs,
    console (snd (renderPortfoliosDetails data sd pg)) = (console pg ++ msgs)%list /\
    (msgs = [] \/
     exists msg, msgs = [(Error, msg)] /\
       msg ∈ [portfolios_data_error; portfolios_main_error; portfolios_row_error]).
Proof.
  split; [|split].
  - assert (preserves same_console (renderProjectsDetails data)) as H; [|apply H].
    unfold renderProjectsDetails. keeps_console_held.
    apply same_console_update_page_header.
  - assert (preserves same_console (renderMembershipsDetails data)) as H; [|apply H].
    unfold renderMembershipsDetails. keeps_console_held.
    apply same_console_update_page_header.
  - assert (forall msg, msg ∈ [portfolios_data_error; portfolios_main_error; portfolios_row_error] ->
            exists msgs, console (snd (console_out Error msg sd pg)) = (console pg ++ msgs)%list /\
              (msgs = [] \/ exists m, msgs = [(Error, m)] /\
                 m ∈ [portfolios_data_error; portfolios_main_error; portfolios_row_error]))
      as Hlog.
    { intros msg Hmsg. exists [(Error, msg)]. split; [done|]. right. by exists msg. }
    unfold renderPortfoliosDetails.
    destruct (truthy data); cbn [negb]; [|apply Hlog; set_solver].
    unfold mbind at 1. unfold R_bind, liftE.
    destruct (get data "portfolios") as [e|portfolios];
      [exists []; split; [by rewrite app_nil_r|by left]|].
    destruct (ArrayOfObjects portfolios); cbn [negb]; [|apply Hlog; set_solver].
    unfold mbind at 1. unfold R_bind.
    destruct (get data "section_info") as [e|sectionInfo];
      [exists []; split; [by rewrite app_nil_r|by left]|].
    unfold mbind at 1. unfold R_bind, getElementById.
    destruct (getElementById_in (body pg) "portfoliosDetails_main") as [c|];
      [|apply Hlog; set_solver].
    destruct (console_after_container sectionInfo c
                (console_out Error portfolios_row_error)
                portfolio_details_html portfolios sd pg portfolios_row_error) as [H|H].
    + intros; by right.
    + exists []. split; [by rewrite app_nil_r|by left].
    + exists [(Error, portfolios_row_error)]. split; [done|]. right.
      exists portfolios_row_error. split; [done|set_solver].
Qed.

Lemma node_at_child t i c a ch k q x :
  ch !! k = Some x ->
  node_at (k :: q) (Element t i c a ch) = node_at q x.
Proof. intros H. simpl. by rewrite H. Qed.

Lemma walk_node_at n : forall p anc info e,
  e ∈ walk p anc info n -> exists q, fst (fst e) = (p ++ q)%list /\ is_Some (node_at q n).
Proof.
  induction n as [t i c a ch IH| |] using (
    fix F (P : node -> Prop)
      (HE : forall t i c a ch, Forall P ch -> P (Element t i c a ch))
      (HT : forall d, P (Text d)) (HM : forall h, P (Markup h)) (n : node) : P n :=
      match n with
      | Element t i c a ch =>
          HE t i c a ch
            ((fix G (l : list node) : Forall P l :=
                match l with
                | [] => Forall_nil_2 P
                | x :: l' => Forall_cons_2 P x l' (F P HE HT HM x) (G l')
                end) ch)
      | Text d => HT d
      | Markup h => HM h
      end);
    intros p anc info e He; simpl in He; [|by apply elem_of_nil in He..].
  apply elem_of_cons in He as [->|He].
  { exists []. split; [by rewrite app_nil_r|by eexists]. }
  match type of He with
  | _ ∈ ?g 0%nat [] ch => set (go := g) in He
  end.
  assert (forall l k seen,
            (forall j x, l !! j = Some x -> ch !! (k + j)%nat = Some x) ->
            Forall (fun n => forall p anc info e, e ∈ walk p anc info n ->
                       exists q, fst (fst e) = (p ++ q)%list /\ is_Some (node_at q n)) l ->
            e ∈ go k seen l ->
            exists q, fst (fst e) = (p ++ q)%list
                      /\ is_Some (node_at q (Element t i c a ch))) as Hgo.
  { induction l as [|x l IHl]; intros k seen Hl HF Hin; simpl in Hin;
      [by apply elem_of_nil in Hin|].
    apply Forall_cons in HF as [Hx HF].
    assert (forall j y, l !! j = Some y -> ch !! (S k + j)%nat = Some y) as Hl'.
    { intros j y Hj. specialize (Hl (S j) y Hj). by rewrite Nat.add_succ_r in Hl. }
    destruct x as [t' i' c' a' ch'| |]; try by (eapply IHl; eauto).
    apply elem_of_app in Hin as [Hin|Hin]; [|by (eapply IHl; eauto)].
    destruct (Hx _ _ _ _ Hin) as (q & Hq & Hn).
    exists (k :: q). split.
    - rewrite Hq, <- app_assoc. reflexivity.
    - erewrite node_at_child; [exact Hn|].
      specialize (Hl 0%nat _ eq_refl). by rewrite Nat.add_0_r in Hl. }
  apply (Hgo ch 0%nat [] (fun j x H => H) IH He).
Qed.

Lemma querySelector_in_node_at b scope s q :
  querySelector_in b scope s = Some q -> is_Some (node_at q b).
Proof.
  unfold querySelector_in, querySelectorAll_in, document_order.
  pose proof (walk_node_at b [] [] body_info) as Hw.
  induction (walk [] [] body_info b) as [|e l IH]; [done|].
  cbn [List.filter]. destruct (_ && matches s e); cbn [List.map head].
  - intros [= Hq]. destruct (Hw e) as (q' & Hq' & Hn); [left|].
    destruct e as [[p i] a]. simpl in *. by subst.
  - apply IH. intros e' He'. apply Hw. by right.
Qed.

Lemma get_array_truthy data key items :
  get data key = inr (JArr items) -> truthy data = true.
Proof. by destruct data. Qed.

Lemma in_detail_pages render key ids :
  (render, key, ids) ∈ detail_renderers ->
  (render = renderProjectsDetails /\ key = "projects" /\ ids = ["projectsDetails_main"]) \/
  (render = renderMembershipsDetails /\ key = "memberships"
   /\ ids = ["membershipsDetails_main"; "honorsAwardsDetails_main"]) \/
  (render = renderPortfoliosDetails /\ key = "portfolios" /\ ids = ["portfoliosDetails_main"]).
Proof.
  unfold detail_renderers. rewrite !elem_of_cons, elem_of_nil.
  intros [H|[H|[H|[]]]]; injection H as -> -> ->;
    [left|right; left|right; right]; by repeat split.
Qed.

(** X16.  Every detail page checks the whole list before it touches the
    document: when one item of the list is not an object (a string, a
    number, [null]), the call returns with the title and the body as they
    were, and no item is rendered, the well-formed ones included. *)
Theorem detail_pages_reject_item_that_is_no_object
  render key ids data items item sd pg :
  (render, key, ids) ∈ detail_renderers ->
  get data key = inr (JArr items) -> item ∈ items -> is_object item = false ->
  exists pg', render data sd pg = (inr tt, pg')
              /\ title pg' = title pg /\ body pg' = body pg.
Proof.
  intros Hin Hget Hitem Hobj.
  assert (ArrayOfObjects (JArr items) = false) as Hguard.
  { simpl. apply not_true_is_false. intros Hall.
    rewrite forallb_forall in Hall. apply list_elem_of_In in Hitem.
    specialize (Hall _ Hitem). congruence. }
  pose proof (get_array_truthy _ _ _ Hget) as Ht.
  apply in_detail_pages in Hin as [(-> & -> & ->)|[(-> & -> & ->)|(-> & -> & ->)]].
  - unfold renderProjectsDetails. rewrite Ht. cbn [negb].
    erewrite R_bind_inr by (unfold liftE; rewrite Hget; reflexivity).
    rewrite Hguard. cbn [negb]. by eexists.
  - unfold renderMembershipsDetails. rewrite Ht. cbn [negb].
    erewrite R_bind_inr by (unfold liftE; rewrite Hget; reflexivity).
    rewrite Hguard. cbn [negb]. by eexists.
  - unfold renderPortfoliosDetails. rewrite Ht. cbn [negb].
    erewrite R_bind_inr by (unfold liftE; rewrite Hget; reflexivity).
    rewrite Hguard. cbn [negb]. by eexists.
Qed.

(** A detail page whose data passes the guards and whose container is in
    the document goes on to the page header and the rows. *)
Lemma detail_page_with_container render key ids data items sectionInfo c sd pg :
  (render, key, ids) ∈ detail_renderers ->
  get data key = inr (JArr items) -> forallb is_object items = true ->
  get data "section_info" = inr sectionInfo ->
  first_by_id ids (body pg) = Some c ->
  exists f on_row,
    (forall sd pg, on_row sd pg = (inr tt, pg)
                   \/ on_row sd pg = console_out Error portfolios_row_error sd pg) /\
    render data sd pg =
      (container ← update_page_header sectionInfo (InDocument c);
       detailsContainer ← held_querySelector container [ByClass "row"];
       match detailsContainer with
       | None => on_row
       | Some rows => fill_rows rows f (JArr items)
       end) sd pg.
Proof.
  intros Hin Hget Hguard Hsi Hc.
  pose proof (get_array_truthy _ _ _ Hget) as Ht.
  apply in_detail_pages in Hin as [(-> & -> & ->)|[(-> & -> & ->)|(-> & -> & ->)]];
    cbn [first_by_id] in Hc.
  - exists project_details_html, (mret tt : R unit). split; [by left|].
    unfold renderProjectsDetails. rewrite Ht. cbn [negb].
    erewrite R_bind_inr by (unfold liftE; rewrite Hget; reflexivity).
    cbn [ArrayOfObjects]. rewrite Hguard. cbn [negb].
    erewrite R_bind_inr by (unfold liftE; rewrite Hsi; reflexivity).
    destruct (getElementById_in (body pg) "projectsDetails_main") as [c'|] eqn:Hid;
      [injection Hc as ->|done].
    erewrite R_bind_inr by (unfold getElementById; rewrite Hid; reflexivity).
    reflexivity.
  - exists membership_details_html, (mret tt : R unit). split; [by left|].
    unfold renderMembershipsDetails. rewrite Ht. cbn [negb].
    erewrite R_bind_inr by (unfold liftE; rewrite Hget; reflexivity).
    cbn [ArrayOfObjects]. rewrite Hguard. cbn [negb].
    erewrite R_bind_inr by (unfold liftE; rewrite Hsi; reflexivity).
    destruct (getElementById_in (body pg) "membershipsDetails_main") as [c'|] eqn:Hid.
    + injection Hc as ->.
      erewrite R_bind_inr by (unfold getElementById; rewrite Hid; reflexivity).
      erewrite R_bind_inr by reflexivity. reflexivity.
    + destruct (getElementById_in (body pg) "honorsAwardsDetails_main") as [c'|] eqn:Hid';
        [injection Hc as ->|done].
      erewrite R_bind_inr by (unfold getElementById; rewrite Hid; reflexivity).
      erewrite R_bind_inr by (unfold getElementById; rewrite Hid'; reflexivity).
      reflexivity.
  - exists portfolio_details_html, (console_out Error portfolios_row_error).
    split; [by right|].
    unfold renderPortfoliosDetails. rewrite Ht. cbn [negb].
    erewrite R_bind_inr by (unfold liftE; rewrite Hget; reflexivity).
    cbn [ArrayOfObjects]. rewrite Hguard. cbn [negb].
    erewrite R_bind_inr by (unfold liftE; rewrite Hsi; reflexivity).
    destruct (getElementById_in (body pg) "portfoliosDetails_main") as [c'|] eqn:Hid;
      [injection Hc as ->|done].
    erewrite R_bind_inr by (unfold getElementById; rewrite Hid; reflexivity).
    reflexivity.
Qed.

Lemma title_after_bind {A B} (m : R A) (k : A -> R B) sd pg t :
  title (snd (m sd pg)) = t ->
  (forall x, preserves same_title (k x)) ->
  title (snd ((m ≫= k) sd pg)) = t.
Proof.
  intros Hm Hk. unfold mbind, R_bind.
  destruct (m sd pg) as [[e|x] pg1]; [exact Hm|].
  simpl in Hm. rewrite <- Hm. apply Hk.
Qed.

Lemma update_page_header_title sectionInfo h t sd pg :
  truthy sectionInfo = true -> print sectionInfo "title" = inr t ->
  title (snd (update_page_header sectionInfo h sd pg))
  = cat ["Emran Ali - "; t; " Details"].
Proof.
  intros Ht Hp. unfold update_page_header. rewrite Ht. cbn [negb].
  erewrite R_bind_inr by (unfold liftE; rewrite Hp; reflexivity).
  apply title_after_bind; [reflexivity|]. intros [].
  unfold set_innerHTML, set_textContent. keeps_title.
Qed.

(** X18.  The title of the document is set before the items are read: once
    the data has passed the guards, the container is in the document and
    [section_info.title] is the string [t], the text of the title element is
    [Emran Ali - t Details] when the call ends, also when an item makes the
    call throw; [document.title] then reads as that text with its
    whitespace stripped and collapsed. *)
Theorem detail_pages_set_the_title_before_the_items
  render key ids data items sectionInfo t c sd pg :
  (render, key, ids) ∈ detail_renderers ->
  get data key = inr (JArr items) -> forallb is_object items = true ->
  get data "section_info" = inr sectionInfo ->
  get sectionInfo "title" = inr (JStr t) ->
  first_by_id ids (body pg) = Some c ->
  title (snd (render data sd pg)) = cat ["Emran Ali - "; t; " Details"]
  /\ document_title (snd (render data sd pg))
     = collapse false false (cat ["Emran Ali - "; t; " Details"]).
Proof.
  intros Hin Hget Hguard Hsi Htitle Hc.
  assert (Ht : truthy sectionInfo = true).
  { destruct sectionInfo; simpl in Htitle; try done. }
  assert (Hp : print sectionInfo "title" = inr t).
  { unfold print. by rewrite Htitle. }
  assert (H : title (snd (render data sd pg)) = cat ["Emran Ali - "; t; " Details"]).
  { destruct (detail_page_with_container _ _ _ _ _ _ _ sd pg Hin Hget Hguard Hsi Hc)
      as (f & on_row & Hrow & ->).
    apply title_after_bind; [by apply update_page_header_title|].
    intros h. apply (preserves_bind _ same_title_trans).
    { apply (preserves_read _ _ same_title_refl). reflexivity. }
    intros [rows|]; [apply same_title_fill_rows|].
    intros sd' pg'. by destruct (Hrow sd' pg') as [-> | ->]. }
  split; [exact H|]. unfold document_title. by rewrite H.
Qed.

Lemma fill_rows_removed subtree f items sd pg :
  snd (fill_rows (Removed subtree) f items sd pg) = pg.
Proof.
  unfold fill_rows. cbn [held_set_innerHTML].
  unfold mbind, R_bind, mret, R_ret, liftE.
  by destruct (_ : E string).
Qed.

(** The write to the heading of the page takes an element inside the
    heading out of the document. *)
Lemma update_page_header_detaches sectionInfo c heading subtree sd pg h pg' :
  truthy sectionInfo = true ->
  querySelector_doc (body pg) sel_page_title_h1 = Some heading ->
  below heading c = true ->
  node_at c (body pg) = Some subtree ->
  update_page_header sectionInfo (InDocument c) sd pg = (inr h, pg') ->
  h = Removed subtree.
Proof.
  intros Ht Hh Hb Hn. unfold update_page_header. rewrite Ht. cbn [negb]. intros H.
  apply R_bind_returns in H as (t & pg0 & H0 & H).
  unfold liftE in H0. injection H0 as _ <-.
  apply R_bind_returns in H as ([] & pg1 & H1 & H).
  unfold set_title in H1. injection H1 as <-.
  apply R_bind_returns in H as (pageTitleH1 & pg2 & H2 & H).
  unfold document_querySelector in H2. cbn [body] in H2. rewrite Hh in H2.
  injection H2 as <- <-.
  apply R_bind_returns in H as (before & pg3 & H3 & H).
  unfold body_now in H3. cbn [body] in H3. injection H3 as <- <-.
  apply R_bind_returns in H as ([] & pg4 & _ & H).
  cbn [after_write] in H. rewrite Hb, Hn in H.
  apply R_bind_returns in H as (breadcrumbCurrent & pg5 & _ & H).
  apply R_bind_returns in H as (before & pg6 & _ & H).
  apply R_bind_returns in H as ([] & pg7 & _ & H).
  by injection H as <- _.
Qed.

(** X19.  The container is looked up before the page header is written and
    used after it.  If it lies inside the heading [.page-title h1], writing
    the heading takes it out of the document, and the row is found and
    filled outside the document: title and body end as the header update
    alone leaves them, and where the removed container has a row nothing is
    logged, by [renderPortfoliosDetails] neither. *)
Theorem detail_page_inside_the_heading_stays_empty
  render key ids data items sectionInfo c heading subtree sd pg :
  (render, key, ids) ∈ detail_renderers ->
  get data key = inr (JArr items) -> forallb is_object items = true ->
  get data "section_info" = inr sectionInfo -> truthy sectionInfo = true ->
  first_by_id ids (body pg) = Some c ->
  querySelector_doc (body pg) sel_page_title_h1 = Some heading ->
  below heading c = true ->
  node_at c (body pg) = Some subtree ->
  title (snd (render data sd pg))
    = title (snd (update_page_header sectionInfo (InDocument c) sd pg)) /\
  body (snd (render data sd pg))
    = body (snd (update_page_header sectionInfo (InDocument c) sd pg)) /\
  (is_Some (querySelector_in subtree [] sel_row) ->
   console (snd (render data sd pg)) = console pg).
Proof.
  intros Hin Hget Hguard Hsi Ht Hc Hh Hb Hn.
  destruct (detail_page_with_container _ _ _ _ _ _ _ sd pg Hin Hget Hguard Hsi Hc)
    as (f & on_row & Hrow & ->).
  pose proof (same_console_update_page_header sectionInfo (InDocument c) sd pg) as Hcon.
  destruct (update_page_header sectionInfo (InDocument c) sd pg) as [[e|h] pg1] eqn:Hu;
    simpl in Hcon; unfold same_console in Hcon.
  { by rewrite (R_bind_inl _ _ _ _ _ _ Hu). }
  pose proof (update_page_header_detaches _ _ _ _ _ _ _ _ Ht Hh Hb Hn Hu) as ->.
  rewrite (R_bind_inr _ _ _ _ _ _ Hu). cbn [snd]. clear Hu.
  unfold sel_row.
  destruct (querySelector_in subtree [] (mk_selector [] [ByClass "row"]))
    as [q|] eqn:Hq.
  - destruct (querySelector_in_node_at _ _ _ _ Hq) as [rows Hrows].
    erewrite R_bind_inr
      by (unfold held_querySelector; rewrite Hq, Hrows; reflexivity).
    cbn [fmap option_fmap option_map]. rewrite fill_rows_removed. by rewrite Hcon.
  - erewrite R_bind_inr by (unfold held_querySelector; rewrite Hq; reflexivity).
    destruct (Hrow sd pg1) as [-> | ->]; (repeat split; [by intros []]).
Qed.

Lemma in_detail_pages_portfolios :
  (renderPortfoliosDetails, "portfolios", ["portfoliosDetails_main"]) ∈ detail_renderers.
Proof. unfold detail_renderers. do 2 right. left. Qed.

Lemma detail_pages_reject_item_that_is_no_object_witness :
  exists pg',
    renderPortfoliosDetails
      (sample_portfolios [sample_portfolio (JStr "Tools"); JStr "oops"]) ∅
      (sample_details_page "portfoliosDetails_main" false) = (inr tt, pg')
    /\ title pg' = "Static title"
    /\ body pg' = body (sample_details_page "portfoliosDetails_main" false).
Proof.
  apply (detail_pages_reject_item_that_is_no_object
           renderPortfoliosDetails "portfolios" ["portfoliosDetails_main"]
           (sample_portfolios [sample_portfolio (JStr "Tools"); JStr "oops"])
           [sample_portfolio (JStr "Tools"); JStr "oops"] (JStr "oops"));
    [apply in_detail_pages_portfolios|reflexivity|by right; left|reflexivity].
Defined.

(** X18, for a section title with spaces around and inside it and an item
    that cannot be printed. *)
Lemma detail_pages_set_the_title_before_the_items_witness :
  let out := renderPortfoliosDetails
               (portfolios_titled "  Open   Source "
                  [sample_portfolio (JObj [("toString", JNull)])]) ∅
               (sample_details_page "portfoliosDetails_main" false) in
  fst out = inl TypeError
  /\ title (snd out) = "Emran Ali -   Open   Source  Details"
  /\ document_title (snd out) = "Emran Ali - Open Source Details".
Proof.
  intros out. subst out. split; [by vm_compute|].
  destruct (detail_pages_set_the_title_before_the_items
              renderPortfoliosDetails "portfolios" ["portfoliosDetails_main"]
              (portfolios_titled "  Open   Source "
                 [sample_portfolio (JObj [("toString", JNull)])])
              [sample_portfolio (JObj [("toString", JNull)])]
              (JObj [("icon_class", JStr "bi bi-folder");
                     ("title", JStr "  Open   Source ")])
              "  Open   Source " [1; 0]%nat ∅
              (sample_details_page "portfoliosDetails_main" false))
    as [H1 H2];
    [apply in_detail_pages_portfolios|reflexivity|reflexivity|reflexivity|reflexivity
    |by vm_compute|].
  rewrite H1, H2. split; reflexivity.
Defined.

Lemma detail_page_inside_the_heading_stays_empty_witness :
  let out := renderPortfoliosDetails
               (sample_portfolios [sample_portfolio (JStr "Tools")]) ∅
               (sample_details_page "portfoliosDetails_main" true) in
  fst out = inr tt
  /\ body (snd out)
     = el "body" EmptyString ["details-page"]
         [ el "div" EmptyString ["page-title"]
             [ el "h1" EmptyString []
                 [Markup (cat ["<i class="; dq; "bi bi-folder"; dq; "></i> Portfolios Details"])];
               el "nav" EmptyString ["breadcrumbs"]
                 [el "ol" EmptyString []
                    [el "li" EmptyString ["current"] [Text "Portfolios Details"]]] ];
           el "main" EmptyString ["main"] [] ]
  /\ console (snd out) = [].
Proof.
  intros out. subst out. split; [by vm_compute|].
  destruct (detail_page_inside_the_heading_stays_empty
              renderPortfoliosDetails "portfolios" ["portfoliosDetails_main"]
              (sample_portfolios [sample_portfolio (JStr "Tools")])
              [sample_portfolio (JStr "Tools")]
              (JObj [("icon_class", JStr "bi bi-folder"); ("title", JStr "Portfolios")])
              [0; 0; 0]%nat [0; 0]%nat (sample_details_container "portfoliosDetails_main")
              ∅ (sample_details_page "portfoliosDetails_main" true))
    as (_ & Hbody & Hconsole);
    [apply in_detail_pages_portfolios|reflexivity|reflexivity|reflexivity|reflexivity
    |by vm_compute|by vm_compute|reflexivity|reflexivity|].
  split; [rewrite Hbody; by vm_compute|].
  rewrite Hconsole; [reflexivity|]. vm_compute. by eexists.
Defined.
